(** * Aegis trading core: exchange gateway, decision provider, orchestrator

    A shallow embedding of the TypeScript sources
    - [types.ts]                 (value objects),
    - [services/mexcService.ts]  (class [MexcService]),
    - [services/aiService.ts]    (class [AIService]),
    - [App.tsx]                  (the three periodic drivers),
    followed by the properties of the specification that are stated about
    them.

    Conventions.
    - A JavaScript [number] is an IEEE 754 binary64 value: Rocq's primitive
      [float].
    - A JavaScript string is modelled as a [string] of bytes.  The sources
      only build URLs and messages out of ASCII text, where UTF-16 code units
      and bytes coincide.
    - An [any] value coming from [JSON.parse] is a [jsval].
    - [async] code is written in a state-and-exception monad [M]; every
      observable interaction with the outside (clock, randomness, signing,
      network, SDK call) is appended to a trace and answered by a [World].
    - What the JavaScript runtime provides and the sources merely call
      ([JSON.parse], [ToString], [parseFloat], HMAC-SHA256, ...) is collected
      in the record [Runtime]; all results hold for every runtime. *)

From Stdlib Require Import Bool ZArith List String Ascii Floats Lia.
From Stdlib Require Import DecimalString Permutation.
Import ListNotations.

Local Open Scope list_scope.
Local Open Scope string_scope.
Set Warnings "-register-all,-inexact-float".

(* ================================================================== *)
(** * JavaScript values and helpers *)
(* ================================================================== *)

Inductive jsval : Type :=
| VUndefined
| VNull
| VBool (b : bool)
| VNum (n : float)
| VStr (s : string)
| VArr (l : list jsval)
| VObj (fields : list (string * jsval)).

(** Thrown values.  [JsError k m] is an instance of [Error] whose constructor
    is [k] and whose message is [m].  [NonError] is a thrown value that is not
    an [Error] and has no [message] property, such as a thrown string: for it
    [e instanceof Error] is false and [e.message] is [undefined].  The platform
    calls the sources make ([fetch], [Response.json], the SDK) reject with
    [Error] instances; a thrown [undefined] or [null], or a thrown object that
    is not an [Error] and yet carries a message, is not modelled. *)
Inductive ErrKind : Type := KError | KTypeError | KSyntaxError.

Inductive Exn : Type :=
| JsError (k : ErrKind) (message : string)
| NonError.

Definition Error (m : string) : Exn := JsError KError m.

Definition instanceof_TypeError (e : Exn) : bool :=
  match e with JsError KTypeError _ => true | _ => false end.

Inductive Res (A : Type) : Type :=
| Ok (a : A)
| Throw (e : Exn).
Arguments Ok {A} a.
Arguments Throw {A} e.

Definition res_bind {A B} (r : Res A) (k : A -> Res B) : Res B :=
  match r with Ok a => k a | Throw e => Throw e end.

(** ** Strings *)

Definition str_eqb (a b : string) : bool := String.eqb a b.

(** [s.includes(t)] *)
Definition includes (s t : string) : bool :=
  match String.index 0 t s with Some _ => true | None => false end.

(** [s.substring(0, n)] *)
Definition substring0 (n : nat) (s : string) : string := String.substring 0 n s.

Fixpoint string_rev_acc (s acc : string) : string :=
  match s with
  | EmptyString => acc
  | String c r => string_rev_acc r (String c acc)
  end.

Definition string_rev (s : string) : string := string_rev_acc s EmptyString.

(** White space removed by [String.prototype.trim] within ASCII. *)
Definition is_space (c : ascii) : bool :=
  let n := nat_of_ascii c in
  (n =? 32)%nat || ((9 <=? n)%nat && (n <=? 13)%nat).

Fixpoint trim_start (s : string) : string :=
  match s with
  | EmptyString => EmptyString
  | String c r => if is_space c then trim_start r else s
  end.

Definition trim (s : string) : string :=
  string_rev (trim_start (string_rev (trim_start s))).

(** [s.endsWith('/')] *)
Definition endsWith_slash (s : string) : bool :=
  match string_rev s with
  | String c _ => Ascii.eqb c "/"
  | EmptyString => false
  end.

Definition upper_ascii (c : ascii) : ascii :=
  let n := nat_of_ascii c in
  if ((97 <=? n)%nat && (n <=? 122)%nat) then ascii_of_nat (n - 32) else c.

Fixpoint toUpperCase (s : string) : string :=
  match s with
  | EmptyString => EmptyString
  | String c r => String (upper_ascii c) (toUpperCase r)
  end.

(** Decimal rendering of an integer, as [Date.now().toString()] gives. *)
Definition Z_toString (z : Z) : string := NilZero.string_of_int (Z.to_int z).

(** ** Percent encoding *)

Definition hex_digit (n : nat) : ascii :=
  if (n <? 10)%nat then ascii_of_nat (48 + n) else ascii_of_nat (55 + n).

Definition percent_byte (c : ascii) : string :=
  let n := nat_of_ascii c in
  String "%" (String (hex_digit (n / 16)) (String (hex_digit (n mod 16)) EmptyString)).

Definition is_alnum (c : ascii) : bool :=
  let n := nat_of_ascii c in
  ((48 <=? n)%nat && (n <=? 57)%nat)
  || ((65 <=? n)%nat && (n <=? 90)%nat)
  || ((97 <=? n)%nat && (n <=? 122)%nat).

Definition ascii_in (c : ascii) (set : string) : bool :=
  existsb (Ascii.eqb c) (list_ascii_of_string set).

(** The [application/x-www-form-urlencoded] byte serializer used by
    [URLSearchParams.prototype.toString]. *)
Definition form_encode_byte (c : ascii) : string :=
  if Ascii.eqb c " " then "+"
  else if is_alnum c || ascii_in c "*-._" then String c EmptyString
  else percent_byte c.

Fixpoint form_encode (s : string) : string :=
  match s with
  | EmptyString => EmptyString
  | String c r => form_encode_byte c ++ form_encode r
  end.

(** [encodeURIComponent] *)
Definition uri_unreserved (c : ascii) : bool :=
  is_alnum c || ascii_in c "-_.!~*'()".

Definition uri_encode_byte (c : ascii) : string :=
  if uri_unreserved c then String c EmptyString else percent_byte c.

Fixpoint encodeURIComponent (s : string) : string :=
  match s with
  | EmptyString => EmptyString
  | String c r => uri_encode_byte c ++ encodeURIComponent r
  end.

(** ** Property access, truthiness, strict equality *)

Fixpoint assoc_get {V} (k : string) (l : list (string * V)) : option V :=
  match l with
  | [] => None
  | (k', v) :: r => if str_eqb k k' then Some v else assoc_get k r
  end.

(** [v.k].  Reading a property of [undefined] or [null] is a [TypeError];
    the own properties of an object are looked up; no other value has any of
    the property names the sources read. *)
Definition js_get (cannot_read : string) (v : jsval) (k : string) : Res jsval :=
  match v with
  | VUndefined | VNull => Throw (JsError KTypeError cannot_read)
  | VObj fs => Ok (match assoc_get k fs with Some x => x | None => VUndefined end)
  | _ => Ok VUndefined
  end.

Definition is_nan (f : float) : bool := negb (PrimFloat.eqb f f).

Definition truthy (v : jsval) : bool :=
  match v with
  | VUndefined | VNull => false
  | VBool b => b
  | VNum n => negb (PrimFloat.eqb n 0 || is_nan n)
  | VStr s => negb (str_eqb s "")
  | VArr _ | VObj _ => true
  end.

(** [a || b] on values *)
Definition js_or (a b : jsval) : jsval := if truthy a then a else b.

(** [v === n] for a number literal [n] *)
Definition strict_eq_num (v : jsval) (n : float) : bool :=
  match v with VNum m => PrimFloat.eqb m n | _ => false end.

(** [v === 's'] for a string literal *)
Definition strict_eq_str (v : jsval) (s : string) : bool :=
  match v with VStr t => str_eqb t s | _ => false end.

Definition is_undefined (v : jsval) : bool :=
  match v with VUndefined => true | _ => false end.

(** A configuration string is "absent" when it is falsy: the empty string. *)
Definition absent (s : string) : bool := str_eqb s "".

Definition absent_opt (s : option string) : bool :=
  match s with None => true | Some t => absent t end.

(* ================================================================== *)
(** * types.ts *)
(* ================================================================== *)

Inductive PositionSide : Type := LONG | SHORT | NONE.

Definition PositionSide_str (s : PositionSide) : string :=
  match s with LONG => "LONG" | SHORT => "SHORT" | NONE => "NONE" end.

Record HistoryPoint : Type := mkHistoryPoint {
  hp_time : string;
  hp_price : float
}.

Record MarketData : Type := mkMarketData {
  md_symbol : string;
  md_price : float;
  md_change24h : float;
  md_volume : float;
  md_timestamp : Z;
  md_history : list HistoryPoint
}.

(** Fields copied from an exchange payload keep the value they had on the
    wire ([jsval]); [side] and [pnlPercent] are computed. *)
Record Position : Type := mkPosition {
  pos_id : jsval;
  pos_symbol : jsval;
  pos_side : PositionSide;
  pos_entryPrice : jsval;
  pos_currentPrice : jsval;
  pos_leverage : jsval;
  pos_pnl : jsval;
  pos_pnlPercent : float;
  pos_margin : jsval;
  pos_liquidationPrice : jsval
}.

Record MexcBalance : Type := mkMexcBalance {
  bal_asset : jsval;
  bal_available : jsval;
  bal_frozen : jsval;
  bal_total : jsval
}.

Record MexcOrder : Type := mkMexcOrder {
  ord_orderId : jsval;
  ord_symbol : jsval;
  ord_price : jsval;
  ord_quantity : jsval;
  ord_side : string;
  ord_type : string;
  ord_status : string;
  ord_createTime : jsval
}.

Record MexcTrade : Type := mkMexcTrade {
  trd_id : jsval;
  trd_symbol : jsval;
  trd_price : jsval;
  trd_quantity : jsval;
  trd_side : string;
  trd_pnl : jsval;
  trd_time : jsval
}.

Record MexcTransfer : Type := mkMexcTransfer {
  trf_id : jsval;
  trf_asset : jsval;
  trf_amount : float;
  trf_type : string;
  trf_status : string;
  trf_timestamp : jsval
}.

Inductive LogType : Type := INFO | SUCCESS | WARNING | ERROR | TRADE.

(** [aiProvider] is declared as a union of three literals, but the settings
    object is read back unchecked from storage, so it is a string here. *)
Record AppSettings : Type := mkAppSettings {
  aiProvider : string;
  geminiApiKey : option string;
  openaiApiKey : option string;
  deepseekApiKey : option string;
  mexcApiKey : string;
  mexcSecretKey : string;
  tradingSymbol : string;
  defaultLeverage : float;
  riskPercent : float;
  isAutoTrading : bool;
  intervalMinutes : float;
  isLiveMode : bool;
  corsProxyUrl : option string;
  supabaseUrl : string;
  supabaseAnonKey : string
}.

(* ================================================================== *)
(** * The runtime and the outside world *)
(* ================================================================== *)

(** Operations of the JavaScript runtime that the sources call. *)
Record Runtime : Type := mkRuntime {
  (** HMAC-SHA256 of a message under a key, in lower-case hexadecimal
      ([crypto.subtle] is taken to be available and not to fail) *)
  hmac_sha256_hex : string -> string -> string;
  (** [JSON.parse]; fails with a [SyntaxError] *)
  JSON_parse : string -> Res jsval;
  (** the abstract operation [ToString] *)
  ToString : jsval -> string;
  (** [Number.prototype.toString], in radix 10 and in radix 36 *)
  number_toString : float -> string;
  number_toString36 : float -> string;
  (** [parseFloat] *)
  parseFloat : jsval -> float;
  (** the abstract operation [ToNumber] on strings, arrays and objects *)
  ToNumber_other : jsval -> float;
  (** the message of the [TypeError] for a property read on [undefined]/[null] *)
  cannot_read : string;
  (** [new Date(t).toLocaleTimeString(...)] *)
  toLocaleTimeString : Z -> string;
  (** the text of the analysis prompt (a template literal over its arguments) *)
  render_prompt : MarketData -> string -> string;
  (** [JSON.stringify] of a request body *)
  JSON_stringify : jsval -> string
}.

Record Response : Type := mkResponse {
  r_ok : bool;
  r_status : Z;
  r_content_type : option string;
  r_body : string
}.

Record Request : Type := mkRequest {
  q_url : string;
  q_method : string;
  q_headers : list (string * string);
  q_body : option string
}.

(** Everything the program does to the outside, in order. *)
Inductive Event : Type :=
| EvNow (t : Z)
| EvRandom (r : float)
| EvSign (msg secret : string)
| EvFetch (q : Request)
| EvGenerateContent (apiKey prompt : string)
| EvConsoleError.

(** The outside answers the n-th interaction. *)
Record World : Type := mkWorld {
  w_now : nat -> Z;
  w_random : nat -> float;
  w_fetch : nat -> Request -> Res Response;
  w_generateContent : nat -> string -> string -> Res (option string)
}.

(** Program state: the trace so far and the lazily built Gemini client
    (identified by the key it was built with). *)
Record St : Type := mkSt {
  trace : list Event;
  geminiClient : option string
}.

Definition st0 : St := mkSt [] None.

Definition M (A : Type) : Type := St -> Res A * St.

Definition ret {A} (a : A) : M A := fun s => (Ok a, s).
Definition throw {A} (e : Exn) : M A := fun s => (Throw e, s).
Definition bind {A B} (m : M A) (k : A -> M B) : M B :=
  fun s => match m s with
           | (Ok a, s') => k a s'
           | (Throw e, s') => (Throw e, s')
           end.
Definition lift {A} (r : Res A) : M A := fun s => (r, s).
Definition try_catch {A} (m : M A) (h : Exn -> M A) : M A :=
  fun s => match m s with
           | (Ok a, s') => (Ok a, s')
           | (Throw e, s') => h e s'
           end.

Declare Scope m_scope.
Delimit Scope m_scope with m.
Notation "x <- m ;; k" := (bind m (fun x => k))
  (at level 61, m at next level, right associativity) : m_scope.
Notation "m ;;; k" := (bind m (fun _ => k))
  (at level 61, right associativity) : m_scope.

Definition emit (e : Event) : M unit :=
  fun s => (Ok tt, mkSt (trace s ++ [e])%list (geminiClient s)).

Definition events {A} (m : M A) : list Event := trace (snd (m st0)).
Definition result {A} (m : M A) : Res A := fst (m st0).

Definition is_fetch (e : Event) : bool :=
  match e with EvFetch _ => true | _ => false end.

(** The network calls of a run. *)
Definition fetches (t : list Event) : list Event := filter is_fetch t.

(* ================================================================== *)
(** * Primitive conversions *)
(* ================================================================== *)

Section Conversions.
Context (rt : Runtime).

(** [ToString] on primitives is fixed by the language. *)
Definition to_string (v : jsval) : string :=
  match v with
  | VUndefined => "undefined"
  | VNull => "null"
  | VBool true => "true"
  | VBool false => "false"
  | VNum n => number_toString rt n
  | VStr s => s
  | _ => ToString rt v
  end.

(** [ToNumber] *)
Definition to_number (v : jsval) : float :=
  match v with
  | VUndefined => nan
  | VNull => 0%float
  | VBool true => 1%float
  | VBool false => 0%float
  | VNum n => n
  | _ => ToNumber_other rt v
  end.

Definition get (v : jsval) (k : string) : Res jsval := js_get (cannot_read rt) v k.

(** [new Error(v).message]: an [undefined] argument leaves the message empty. *)
Definition Error_of (v : jsval) : Exn :=
  match v with
  | VUndefined => Error ""
  | _ => Error (to_string v)
  end.

Definition not_a_function : Exn := JsError KTypeError (cannot_read rt).
End Conversions.

(** [{ ...o, k: v }]: an existing key keeps its place and takes the new
    value, a new key goes last.  (No caller uses integer-like keys, which an
    engine would enumerate first.) *)
Fixpoint obj_set {V} (k : string) (v : V) (o : list (string * V)) : list (string * V) :=
  match o with
  | [] => [(k, v)]
  | (k', v') :: r =>
      if str_eqb k k' then (k, v) :: r else (k', v') :: obj_set k v r
  end.

Fixpoint join_amp (l : list string) : string :=
  match l with
  | [] => ""
  | [x] => x
  | x :: r => x ++ "&" ++ join_amp r
  end.

(** [new URLSearchParams(record).toString()] *)
Definition URLSearchParams_toString (rt : Runtime) (o : list (string * jsval)) : string :=
  join_amp (map (fun kv => form_encode (fst kv) ++ "=" ++ form_encode (to_string rt (snd kv))) o).

(* ================================================================== *)
(** * services/mexcService.ts *)
(* ================================================================== *)

Record TickerData : Type := mkTickerData {
  tk_symbol : string;
  tk_price : float;
  tk_change24h : float;
  tk_volume : float;
  tk_timestamp : Z
}.

(** What [executeTrade] resolves to: the fabricated position of simulation
    mode, or whatever the exchange answered. *)
Inductive TradeResult : Type :=
| Simulated (p : Position)
| Submitted (payload : jsval).

Definition baseFuturesUrl : string := "https://fapi.mexc.com".
Definition baseSpotUrl : string := "https://api.mexc.com".

Definition keys_missing : Exn := Error "MEXC API Keys are missing.".
Definition cors_error : Exn :=
  Error "CORS/Proxy Error. Use a Browser Extension or set a valid Proxy URL.".
Definition activation_required : Exn :=
  Error "Proxy Activation Required: Visit https://cors-anywhere.herokuapp.com/corsdemo and click the button.".

(** Lines 42-51 of [privateRequest]: the URL handed to [fetch]. *)
Definition requestUrl (settings : AppSettings) (targetUrl : string) : string :=
  match corsProxyUrl settings with
  | Some p =>
      if negb (absent p) && negb (str_eqb (trim p) "") then
        let proxy := trim p in
        if includes proxy "?url=" then proxy ++ encodeURIComponent targetUrl
        else
          let separator := if endsWith_slash proxy then "" else "/" in
          proxy ++ separator ++ targetUrl
      else targetUrl
  | None => targetUrl
  end.

Section MexcService.
Context (rt : Runtime) (w : World).
Local Open Scope m_scope.

Definition Date_now : M Z :=
  fun s => let t := w_now w (List.length (trace s)) in
           (emit (EvNow t) ;;; ret t) s.

Definition Math_random : M float :=
  fun s => let r := w_random w (List.length (trace s)) in
           (emit (EvRandom r) ;;; ret r) s.

Definition fetch (q : Request) : M Response :=
  fun s => let r := w_fetch w (List.length (trace s)) q in
           (emit (EvFetch q) ;;; lift r) s.

Definition sign (params secret : string) : M string :=
  emit (EvSign params secret) ;;; ret (hmac_sha256_hex rt params secret).

Fixpoint mapM {A B} (f : A -> M B) (l : list A) : M (list B) :=
  match l with
  | [] => ret []
  | x :: r => y <- f x ;; ys <- mapM f r ;; ret (y :: ys)
  end.

(** [v.map(f)]: only an array has a [map] method. *)
Definition js_map {B} (v : jsval) (f : jsval -> M B) : M (list B) :=
  match v with
  | VArr l => mapM f l
  | VUndefined | VNull => throw (JsError KTypeError (cannot_read rt))
  | _ => throw (not_a_function rt)
  end.

Definition prop (v : jsval) (k : string) : M jsval := lift (get rt v k).

(** Lines 62-80: classification of a response. *)
Definition classify (response : Response) : M jsval :=
  let is_json :=
    match r_content_type response with
    | Some ct => negb (absent ct) && includes ct "application/json"
    | None => false
    end in
  if is_json then
    result <- lift (JSON_parse rt (r_body response)) ;;
    bad <- (if negb (r_ok response) then ret true
            else code <- prop result "code" ;;
                 ret (negb (is_undefined code)
                      && negb (strict_eq_num code 200)
                      && negb (strict_eq_num code 0))) ;;
    if (bad : bool) then
      msg <- prop result "msg" ;;
      if truthy msg then throw (Error_of rt msg)
      else
        message <- prop result "message" ;;
        if truthy message then throw (Error_of rt message)
        else
          code <- prop result "code" ;;
          throw (Error ("MEXC Error " ++
                        (if truthy code then to_string rt code
                         else Z_toString (r_status response))))
    else ret result
  else
    let text := r_body response in
    if includes text "cors-anywhere" && includes text "corsdemo" then
      throw activation_required
    else if negb (r_ok response) then
      throw (Error ("Proxy/Network Error: " ++ substring0 50 text ++ "..."))
    else
      try_catch (lift (JSON_parse rt text))
                (fun _ => throw (Error ("Invalid JSON from Proxy: " ++ substring0 50 text))).

(** Lines 81-86: relabelling of transport failures.  (For a [NonError] the
    property [e.message] is [undefined], so the optional call gives
    [undefined] and the value is thrown again.) *)
Definition relabel {A} (e : Exn) : M A :=
  if instanceof_TypeError e
     || match e with JsError _ m => includes m "fetch" | NonError => false end
  then throw cors_error
  else throw e.

Definition privateRequest (baseUrl endpoint method : string)
           (settings : AppSettings) (params : list (string * jsval)) : M jsval :=
  if absent (mexcApiKey settings) || absent (mexcSecretKey settings) then
    throw keys_missing
  else
    timestamp <- Date_now ;;
    let queryParams :=
      URLSearchParams_toString rt
        (obj_set "timestamp" (VStr (Z_toString timestamp)) params) in
    signature <- sign queryParams (mexcSecretKey settings) ;;
    let targetUrl :=
      baseUrl ++ endpoint ++ "?" ++ queryParams ++ "&signature=" ++ signature in
    try_catch
      (response <- fetch (mkRequest (requestUrl settings targetUrl) method
                            [("X-MEXC-APIKEY", mexcApiKey settings);
                             ("Content-Type", "application/json")]
                            None) ;;
       classify response)
      relabel.

Definition getTicker (symbol : string) : M TickerData :=
  response <- fetch (mkRequest
                       ("https://api.binance.com/api/v3/ticker/24hr?symbol="
                          ++ toUpperCase symbol) "GET" [] None) ;;
  if negb (r_ok response) then throw (Error "Market API unreachable")
  else
    data <- lift (JSON_parse rt (r_body response)) ;;
    lastPrice <- prop data "lastPrice" ;;
    priceChangePercent <- prop data "priceChangePercent" ;;
    volume <- prop data "volume" ;;
    now <- Date_now ;;
    ret (mkTickerData (toUpperCase symbol)
                      (parseFloat rt lastPrice)
                      (parseFloat rt priceChangePercent)
                      (parseFloat rt volume)
                      now).

Definition getSpotBalance (settings : AppSettings) : M (list MexcBalance) :=
  data <- privateRequest baseSpotUrl "/api/v3/account" "GET" settings [] ;;
  balances <- prop data "balances" ;;
  mapped <- js_map (js_or balances (VArr []))
              (fun b =>
                 asset <- prop b "asset" ;;
                 free <- prop b "free" ;;
                 locked <- prop b "locked" ;;
                 ret (mkMexcBalance asset
                        (VNum (parseFloat rt free))
                        (VNum (parseFloat rt locked))
                        (VNum (parseFloat rt free + parseFloat rt locked)))) ;;
  ret (filter (fun b => PrimFloat.ltb 0.00001 (to_number rt (bal_total b))) mapped).

Definition getFuturesBalance (settings : AppSettings) : M (list MexcBalance) :=
  result <- privateRequest baseFuturesUrl "/futures/api/v1/private/account/assets"
              "GET" settings [] ;;
  data <- prop result "data" ;;
  if negb (truthy data) then ret []
  else
    js_map data
      (fun b =>
         currency <- prop b "currency" ;;
         availableBalance <- prop b "availableBalance" ;;
         frozenBalance <- prop b "frozenBalance" ;;
         balance <- prop b "balance" ;;
         ret (mkMexcBalance currency availableBalance frozenBalance balance)).

(** [v || Math.random().toString()] *)
Definition or_random_id (v : jsval) : M jsval :=
  if truthy v then ret v
  else r <- Math_random ;; ret (VStr (number_toString rt r)).

Definition getOpenPositions (settings : AppSettings) : M (list Position) :=
  result <- privateRequest baseFuturesUrl
              "/futures/api/v1/private/position/open_details" "GET" settings [] ;;
  data <- prop result "data" ;;
  if negb (truthy data) then ret []
  else
    js_map data
      (fun p =>
         positionId <- prop p "positionId" ;;
         id <- or_random_id positionId ;;
         symbol <- prop p "symbol" ;;
         positionType <- prop p "positionType" ;;
         holdAvgPrice <- prop p "holdAvgPrice" ;;
         fairPrice <- prop p "fairPrice" ;;
         leverage <- prop p "leverage" ;;
         unrealizedPnl <- prop p "unrealizedPnl" ;;
         margin <- prop p "margin" ;;
         liquidatePrice <- prop p "liquidatePrice" ;;
         ret (mkPosition id symbol
                (if strict_eq_num positionType 1 then LONG else SHORT)
                holdAvgPrice fairPrice leverage unrealizedPnl
                ((to_number rt unrealizedPnl / to_number rt margin) * 100)%float
                margin liquidatePrice)).

Definition getOpenOrders (settings : AppSettings) : M (list MexcOrder) :=
  result <- privateRequest baseFuturesUrl
              "/futures/api/v1/private/order/list/open_orders" "GET" settings [] ;;
  data <- prop result "data" ;;
  if negb (truthy data) then ret []
  else
    js_map data
      (fun o =>
         orderId <- prop o "orderId" ;;
         symbol <- prop o "symbol" ;;
         price <- prop o "price" ;;
         vol <- prop o "vol" ;;
         side <- prop o "side" ;;
         type <- prop o "type" ;;
         createTime <- prop o "createTime" ;;
         ret (mkMexcOrder orderId symbol price vol
                (if strict_eq_num side 1 then "BUY" else "SELL")
                (if strict_eq_num type 1 then "LIMIT" else "MARKET")
                "OPEN" createTime)).

Definition getTradeHistory (settings : AppSettings) : M (list MexcTrade) :=
  result <- privateRequest baseFuturesUrl
              "/futures/api/v1/private/order/list/history_orders" "GET" settings
              [("states", VStr "3,4")] ;;
  data <- prop result "data" ;;
  if negb (truthy data) then ret []
  else
    js_map data
      (fun t =>
         orderId <- prop t "orderId" ;;
         symbol <- prop t "symbol" ;;
         avgPrice <- prop t "avgPrice" ;;
         vol <- prop t "vol" ;;
         side <- prop t "side" ;;
         realisedPnl <- prop t "realisedPnl" ;;
         updateTime <- prop t "updateTime" ;;
         ret (mkMexcTrade orderId symbol avgPrice vol
                (if strict_eq_num side 1 then "BUY" else "SELL")
                (js_or realisedPnl (VNum 0))
                updateTime)).

Definition isArray (v : jsval) : bool :=
  match v with VArr _ => true | _ => false end.

Definition getTransferHistory (settings : AppSettings) : M (list MexcTransfer) :=
  try_catch
    (result <- privateRequest baseSpotUrl "/api/v3/capital/deposit/hisrec"
                 "GET" settings [] ;;
     if negb (isArray result) then ret []
     else
       js_map result
         (fun t =>
            tid <- prop t "id" ;;
            id <- or_random_id tid ;;
            coin <- prop t "coin" ;;
            amount <- prop t "amount" ;;
            status <- prop t "status" ;;
            insertTime <- prop t "insertTime" ;;
            ret (mkMexcTransfer id coin (parseFloat rt amount) "DEPOSIT"
                   (if strict_eq_num status 1 then "SUCCESS" else "PENDING")
                   insertTime)))
    (fun _ => ret []).

(** The literal [orderParams] of [executeTrade]. *)
Definition orderParams (action : jsval) (settings : AppSettings)
  : list (string * jsval) :=
  let side := if strict_eq_str action "LONG" then 1%float
              else if strict_eq_str action "SHORT" then 2%float
              else 3%float in
  [ ("symbol", VStr (tradingSymbol settings));
    ("vol", VNum 1);
    ("side", VNum side);
    ("type", VNum 5);
    ("openType", VNum 1);
    ("leverage", VNum (defaultLeverage settings)) ].

Definition order_create : string := "/futures/api/v1/private/order/create".

Definition executeTrade (action : jsval) (settings : AppSettings)
           (marketPrice : float) : M TradeResult :=
  if negb (isLiveMode settings) then
    r <- Math_random ;;
    ret (Simulated
           (mkPosition
              (VStr ("sim-" ++ String.substring 7 (String.length (number_toString36 rt r))
                                 (number_toString36 rt r)))
              (VStr (tradingSymbol settings))
              (if strict_eq_str action "LONG" then LONG else SHORT)
              (VNum marketPrice)
              (VNum marketPrice)
              (VNum (defaultLeverage settings))
              (VNum 0)
              0%float
              (VNum 100)
              VUndefined))
  else
    payload <- privateRequest baseFuturesUrl order_create "POST" settings
                 (orderParams action settings) ;;
    ret (Submitted payload).
End MexcService.

(* ================================================================== *)
(** * services/aiService.ts *)
(* ================================================================== *)

(** [v[0]] *)
Definition js_index0 (cannot_read : string) (v : jsval) : Res jsval :=
  match v with
  | VUndefined | VNull => Throw (JsError KTypeError cannot_read)
  | VArr (x :: _) => Ok x
  | VStr (String c _) => Ok (VStr (String c EmptyString))
  | VObj fs => Ok (match assoc_get "0" fs with Some x => x | None => VUndefined end)
  | _ => Ok VUndefined
  end.

(** The neutral decision returned from the [catch] block of [analyze]. *)
Definition wait_decision (error : Exn) : jsval :=
  VObj [ ("action", VStr "WAIT");
         ("leverage", VNum 1);
         ("reason", VStr ("Analysis failed: " ++
                          match error with
                          | JsError _ m => m
                          | NonError => "Unknown error"
                          end));
         ("confidence", VNum 0) ].

Section AIService.
Context (rt : Runtime) (w : World).
(** [process.env.API_KEY], or [''] where [process] is not defined *)
Context (envKey : option string).
Local Open Scope m_scope.

(** [a || b] on optional strings *)
Definition opt_or (a b : option string) : option string :=
  if absent_opt a then b else a.

Definition getGemini (apiKey : string) : M string :=
  fun s => match geminiClient s with
           | Some client => (Ok client, s)
           | None => (Ok apiKey, mkSt (trace s) (Some apiKey))
           end.

Definition generateContent (client prompt : string) : M (option string) :=
  fun s => let r := w_generateContent w (List.length (trace s)) client prompt in
           (emit (EvGenerateContent client prompt) ;;; lift r) s.

Definition console_error : M unit := emit EvConsoleError.

Definition chat_body (model prompt : string) : jsval :=
  VObj [ ("model", VStr model);
         ("messages", VArr [ VObj [ ("role", VStr "user"); ("content", VStr prompt) ] ]);
         ("response_format", VObj [ ("type", VStr "json_object") ]) ].

(** The OpenAI and DeepSeek branches differ in URL, key and model only. *)
Definition chat_completion (url key model prompt : string) : M jsval :=
  response <- fetch w (mkRequest url "POST"
                         [ ("Content-Type", "application/json");
                           ("Authorization", "Bearer " ++ key) ]
                         (Some (JSON_stringify rt (chat_body model prompt)))) ;;
  json <- lift (JSON_parse rt (r_body response)) ;;
  error <- prop rt json "error" ;;
  if truthy error then
    message <- prop rt error "message" ;;
    throw (Error_of rt message)
  else
    choices <- prop rt json "choices" ;;
    first <- lift (js_index0 (cannot_read rt) choices) ;;
    message <- prop rt first "message" ;;
    content <- prop rt message "content" ;;
    lift (JSON_parse rt (to_string rt content)).

(** The body of the [try] block. *)
Definition analyze_try (settings : AppSettings) (prompt : string) : M jsval :=
  if str_eqb (aiProvider settings) "gemini" then
    let apiKey := match opt_or (opt_or (geminiApiKey settings) envKey) (Some "") with
                  | Some k => k
                  | None => ""
                  end in
    if absent apiKey then
      throw (Error "Gemini API Key missing. Please provide it in settings.")
    else
      ai <- getGemini apiKey ;;
      text <- generateContent ai prompt ;;
      lift (JSON_parse rt (match opt_or text (Some "{}") with
                           | Some t => t
                           | None => "{}"
                           end))
  else if str_eqb (aiProvider settings) "openai" then
    match openaiApiKey settings with
    | Some key =>
        if absent key then throw (Error "OpenAI API Key missing")
        else chat_completion "https://api.openai.com/v1/chat/completions" key "gpt-4o" prompt
    | None => throw (Error "OpenAI API Key missing")
    end
  else if str_eqb (aiProvider settings) "deepseek" then
    match deepseekApiKey settings with
    | Some key =>
        if absent key then throw (Error "DeepSeek API Key missing")
        else chat_completion "https://api.deepseek.com/chat/completions" key "deepseek-chat" prompt
    | None => throw (Error "DeepSeek API Key missing")
    end
  else throw (Error "Unsupported AI Provider").

Definition analyze (settings : AppSettings) (data : MarketData)
           (currentPositionSide : string) : M jsval :=
  let prompt := render_prompt rt data currentPositionSide in
  try_catch (analyze_try settings prompt)
            (fun error => console_error ;;; ret (wait_decision error)).
End AIService.

(* ================================================================== *)
(** * App.tsx: the three periodic drivers *)
(* ================================================================== *)

Inductive Status : Type := CONNECTED | DISCONNECTED | ERROR_STATUS.

(** The account snapshot published by the synchronizer. *)
Record Account : Type := mkAccount {
  spotBalances : list MexcBalance;
  futuresBalances : list MexcBalance;
  mexcPositions : list Position;
  mexcOrders : list MexcOrder;
  mexcTrades : list MexcTrade;
  mexcTransfers : list MexcTransfer;
  mexcStatus : Status
}.

Definition account0 : Account := mkAccount [] [] [] [] [] [] DISCONNECTED.

Definition set_status (a : Account) (s : Status) : Account :=
  mkAccount (spotBalances a) (futuresBalances a) (mexcPositions a)
            (mexcOrders a) (mexcTrades a) (mexcTransfers a) s.

(** [l.slice(-n)] *)
Definition slice_last {A} (n : nat) (l : list A) : list A :=
  skipn (List.length l - n) l.

(** [e.message] inside a template literal, for a caught [e : any] *)
Definition message_of (e : Exn) : string :=
  match e with JsError _ m => m | NonError => "undefined" end.

Section Pollers.
Context (rt : Runtime) (w : World).
Local Open Scope m_scope.

(** One tick of the market poller.  The result is the new value of the
    [marketData] state; a failed fetch leaves it as it was. *)
Definition refreshMarket (settings : AppSettings) (prev : option MarketData)
  : M (option MarketData) :=
  try_catch
    (ticker <- getTicker rt w (tradingSymbol settings) ;;
     now <- Date_now w ;;
     let currentTime := toLocaleTimeString rt now in
     let history := match prev with Some p => md_history p | None => [] end in
     let newHistory :=
       slice_last 50 (history ++ [mkHistoryPoint currentTime (tk_price ticker)])%list in
     ret (Some (mkMarketData (tk_symbol ticker) (tk_price ticker)
                  (tk_change24h ticker) (tk_volume ticker)
                  (tk_timestamp ticker) newHistory)))
    (fun _ => ret prev).

(** Runs a promise to settlement and hands back how it settled. *)
Definition settle {A} (m : M A) : M (Res A) :=
  fun s => let (r, s') := m s in (Ok r, s').

(** One tick of the account synchronizer.  The six requests of
    [Promise.all] are all started; their events are recorded call by call,
    which abstracts from the interleaving of the six concurrent calls: the
    order of the recorded events, and which of several rejections is the one
    reported (here the first in call order, in the code the first in time),
    are not those of a particular execution.  The result is the new account
    state and the log lines written. *)
Definition refreshAccountData (settings : AppSettings) (isLoggedIn : bool)
           (prev : Account) : M (Account * list (LogType * string)) :=
  if absent (mexcApiKey settings) || absent (mexcSecretKey settings) || negb isLoggedIn
  then ret (set_status prev DISCONNECTED, [])
  else
    spot <- settle (getSpotBalance rt w settings) ;;
    futures <- settle (getFuturesBalance rt w settings) ;;
    positions <- settle (getOpenPositions rt w settings) ;;
    orders <- settle (getOpenOrders rt w settings) ;;
    trades <- settle (getTradeHistory rt w settings) ;;
    transfers <- settle (getTransferHistory rt w settings) ;;
    let all :=
      res_bind spot (fun a => res_bind futures (fun b => res_bind positions (fun c =>
      res_bind orders (fun d => res_bind trades (fun e => res_bind transfers (fun f =>
      Ok (mkAccount a b c d e f CONNECTED))))))) in
    match all with
    | Ok acc => ret (acc, [])
    | Throw e =>
        ret (set_status prev ERROR_STATUS,
             [(ERROR, "MEXC sync error: " ++ message_of e)])
    end.
End Pollers.

(** ** The trading cycle

    [runTradingCycle] suspends at its two [await]s.  It is written as a
    resumption: the state updates it performs, and the calls it waits for
    together with what it does once the call has settled. *)

Inductive Op : Type :=
| SetIsAnalyzing (b : bool)
| SetLastAction (decision : jsval)
| AddLog (type : LogType) (message : string)
| RefreshAccountData.

Inductive Prog : Type :=
| Done
| Do (o : Op) (k : Prog)
| AwaitAnalyze (settings : AppSettings) (data : MarketData) (side : string)
               (k : Res jsval -> Prog)
| AwaitExecuteTrade (action : jsval) (settings : AppSettings) (marketPrice : float)
                    (k : Res TradeResult -> Prog).

Section Orchestrator.
Context (rt : Runtime).

(** The [catch] block *)
Definition cycle_failed (err : Exn) : Prog :=
  Do (AddLog ERROR ("AI analysis failed: " ++
                    match err with JsError _ m => m | NonError => "Unknown" end))
     (Do (SetIsAnalyzing false) Done).

Definition runTradingCycle (settings : AppSettings) (marketData : option MarketData)
           (positions : list Position) : Prog :=
  match marketData with
  | None => Done
  | Some md =>
      if negb (isAutoTrading settings) then Done
      else
        Do (SetIsAnalyzing true)
           (let activeSide := match positions with
                              | p :: _ => pos_side p
                              | [] => NONE
                              end in
            AwaitAnalyze settings md (PositionSide_str activeSide)
              (fun r =>
                 match r with
                 | Throw e => cycle_failed e
                 | Ok decision =>
                     Do (SetLastAction decision)
                        (match get rt decision "action" with
                         | Throw e => cycle_failed e
                         | Ok action =>
                             if negb (strict_eq_str action "WAIT") then
                               match get rt decision "confidence" with
                               | Throw e => cycle_failed e
                               | Ok confidence =>
                                   Do (AddLog TRADE
                                         ("AI decision: " ++ to_string rt action
                                          ++ " (" ++ to_string rt confidence ++ "%)"))
                                      (if isLiveMode settings then
                                         AwaitExecuteTrade action settings (md_price md)
                                           (fun r' =>
                                              match r' with
                                              | Throw e => cycle_failed e
                                              | Ok _ =>
                                                  Do RefreshAccountData
                                                     (Do (SetIsAnalyzing false) Done)
                                              end)
                                       else Do (SetIsAnalyzing false) Done)
                               end
                             else Do (SetIsAnalyzing false) Done
                         end)
                 end))
  end.
End Orchestrator.

(** ** Running one cycle to completion *)

Inductive Item : Type :=
| IOp (o : Op)
| ICallAnalyze (settings : AppSettings) (data : MarketData) (side : string)
| ICallExecuteTrade (action : jsval) (settings : AppSettings) (marketPrice : float).

Section RunCycle.
Context (rt : Runtime) (w : World) (envKey : option string).
Local Open Scope m_scope.

(** Each awaited call is answered by the service it names. *)
Fixpoint run_cycle (p : Prog) : M (list Item) :=
  match p with
  | Done => ret []
  | Do o k => items <- run_cycle k ;; ret (IOp o :: items)
  | AwaitAnalyze settings data side k =>
      r <- settle (analyze rt w envKey settings data side) ;;
      items <- run_cycle (k r) ;;
      ret (ICallAnalyze settings data side :: items)
  | AwaitExecuteTrade action settings price k =>
      r <- settle (executeTrade rt w action settings price) ;;
      items <- run_cycle (k r) ;;
      ret (ICallExecuteTrade action settings price :: items)
  end.
End RunCycle.

Definition is_execute (i : Item) : bool :=
  match i with ICallExecuteTrade _ _ _ => true | _ => false end.

(** ** Cycles in flight

    The interval timer (and every re-run of the effect that arms it) calls
    [runTradingCycle] whether or not an earlier call has finished.  A call
    runs until its next [await] and is then parked until that promise
    settles. *)

Inductive Phase : Type := IDLE | ANALYZING | EXECUTING.

(** Runs the synchronous prefix of a cycle. *)
Fixpoint advance (p : Prog) : list Op * Prog :=
  match p with
  | Do o k => let (ops, p') := advance k in (o :: ops, p')
  | _ => ([], p)
  end.

Definition phase_of (p : Prog) : Phase :=
  match p with
  | AwaitAnalyze _ _ _ _ => ANALYZING
  | AwaitExecuteTrade _ _ _ _ => EXECUTING
  | _ => IDLE
  end.

Inductive Settled : Type :=
| AnalyzeSettled (r : Res jsval)
| ExecuteSettled (r : Res TradeResult).

Inductive LoopEvent : Type :=
| TimerFires (settings : AppSettings) (marketData : option MarketData)
             (positions : list Position)
| PromiseSettles (i : nat) (r : Settled).

(** Parks a cycle unless it has run to its end. *)
Definition park (p : Prog) (pending : list Prog) : list Prog :=
  match p with
  | Done => pending
  | _ => (pending ++ [p])%list
  end.

Definition resume (p : Prog) (r : Settled) : option Prog :=
  match p, r with
  | AwaitAnalyze _ _ _ k, AnalyzeSettled a => Some (k a)
  | AwaitExecuteTrade _ _ _ k, ExecuteSettled a => Some (k a)
  | _, _ => None
  end.

Fixpoint remove_nth {A} (i : nat) (l : list A) : list A :=
  match l, i with
  | [], _ => []
  | _ :: r, O => r
  | x :: r, S j => x :: remove_nth j r
  end.

Section EventLoop.
Context (rt : Runtime).

(** The parked cycles after one event.  A settlement that names no parked
    cycle, or the wrong kind of promise, changes nothing. *)
Definition loop_step (pending : list Prog) (e : LoopEvent) : list Prog :=
  match e with
  | TimerFires settings marketData positions =>
      park (snd (advance (runTradingCycle rt settings marketData positions))) pending
  | PromiseSettles i r =>
      match nth_error pending i with
      | Some p =>
          match resume p r with
          | Some p' => park (snd (advance p')) (remove_nth i pending)
          | None => pending
          end
      | None => pending
      end
  end.

Definition loop_run (es : list LoopEvent) : list Prog :=
  fold_left loop_step es [].

Definition executing (pending : list Prog) : nat :=
  List.length (filter (fun p => match phase_of p with EXECUTING => true | _ => false end)
                      pending).

(** A schedule in which the timer only fires when no cycle is in flight. *)
Fixpoint serial_from (pending : list Prog) (es : list LoopEvent) : Prop :=
  match es with
  | [] => True
  | e :: r =>
      match e with
      | TimerFires _ _ _ => pending = []
      | PromiseSettles _ _ => True
      end /\ serial_from (loop_step pending e) r
  end.
End EventLoop.

(* ================================================================== *)
(** * A runtime and worlds for the examples *)
(* ================================================================== *)

(** The decision of the specification's example and an exchange payload with
    one open position whose margin is zero. *)
Definition long_decision : jsval :=
  VObj [ ("action", VStr "LONG"); ("leverage", VNum 5);
         ("reason", VStr "momentum"); ("confidence", VNum 80) ].

Definition positions_payload : jsval :=
  VObj [ ("code", VNum 0);
         ("data", VArr [ VObj [ ("positionId", VNum 7); ("symbol", VStr "BTC_USDT");
                                ("positionType", VNum 1); ("holdAvgPrice", VNum 50000);
                                ("fairPrice", VNum 50100); ("leverage", VNum 10);
                                ("unrealizedPnl", VNum 5); ("margin", VNum 0);
                                ("liquidatePrice", VNum 45000) ] ]) ].

Definition ticker_payload : jsval :=
  VObj [ ("lastPrice", VStr "50000"); ("priceChangePercent", VStr "2.1");
         ("volume", VStr "1000") ].

(** A runtime whose [JSON.parse] knows three documents by name.  Every
    theorem below is proved for all runtimes; this one only serves to run
    the definitions on concrete inputs. *)
Definition example_runtime : Runtime :=
  {| hmac_sha256_hex := fun _ _ => "5f3a";
     JSON_parse := fun s =>
       if str_eqb s "decision" then Ok long_decision
       else if str_eqb s "positions" then Ok positions_payload
       else if str_eqb s "ticker" then Ok ticker_payload
       else if str_eqb s "{}" then Ok (VObj [])
       else Throw (JsError KSyntaxError "Unexpected token");
     ToString := fun _ => "[object Object]";
     number_toString := fun n =>
       if PrimFloat.eqb n 1 then "1" else if PrimFloat.eqb n 5 then "5"
       else if PrimFloat.eqb n 10 then "10" else if PrimFloat.eqb n 80 then "80"
       else "0.5";
     number_toString36 := fun _ => "0.4fzyo82mvyr";
     parseFloat := fun v =>
       match v with
       | VNum n => n
       | VStr "50000" => 50000%float
       | VStr "2.1" => 2.1%float
       | VStr "1000" => 1000%float
       | _ => nan
       end;
     ToNumber_other := fun _ => nan;
     cannot_read := "Cannot read properties";
     toLocaleTimeString := fun _ => "12:00:00";
     render_prompt := fun _ _ => "prompt";
     JSON_stringify := fun _ => "{}" |}.

Definition json_response (body : string) : Response :=
  mkResponse true 200 (Some "application/json") body.

(** The exchange answers every request with the position list, the
    decision backend with the example decision, the price feed with the
    example ticker. *)
Definition example_world : World :=
  {| w_now := fun _ => 1700000000000%Z;
     w_random := fun _ => 0.5%float;
     w_fetch := fun _ q =>
       if includes (q_url q) "binance" then Ok (json_response "ticker")
       else Ok (json_response "positions");
     w_generateContent := fun _ _ _ => Ok (Some "decision") |}.

(** A world without network. *)
Definition offline_world : World :=
  {| w_now := fun _ => 1700000000000%Z;
     w_random := fun _ => 0.5%float;
     w_fetch := fun _ _ => Throw (JsError KTypeError "Failed to fetch");
     w_generateContent := fun _ _ _ => Throw (Error "unreachable") |}.

Definition example_settings : AppSettings :=
  {| aiProvider := "gemini";
     geminiApiKey := Some "g-key";
     openaiApiKey := Some "";
     deepseekApiKey := Some "";
     mexcApiKey := "mx-key";
     mexcSecretKey := "mx-secret";
     tradingSymbol := "BTCUSDT";
     defaultLeverage := 10;
     riskPercent := 2;
     isAutoTrading := true;
     intervalMinutes := 1;
     isLiveMode := true;
     corsProxyUrl := Some "";
     supabaseUrl := "";
     supabaseAnonKey := "" |}.

Definition with_live (s : AppSettings) (live : bool) : AppSettings :=
  {| aiProvider := aiProvider s;
     geminiApiKey := geminiApiKey s;
     openaiApiKey := openaiApiKey s;
     deepseekApiKey := deepseekApiKey s;
     mexcApiKey := mexcApiKey s;
     mexcSecretKey := mexcSecretKey s;
     tradingSymbol := tradingSymbol s;
     defaultLeverage := defaultLeverage s;
     riskPercent := riskPercent s;
     isAutoTrading := isAutoTrading s;
     intervalMinutes := intervalMinutes s;
     isLiveMode := live;
     corsProxyUrl := corsProxyUrl s;
     supabaseUrl := supabaseUrl s;
     supabaseAnonKey := supabaseAnonKey s |}.

Definition example_market : MarketData :=
  mkMarketData "BTCUSDT" 50000 2.1 1000 1700000000000 [].

(** ** Auxiliary notions used in the statements *)

Definition hex_val (c : ascii) : nat :=
  let n := nat_of_ascii c in
  if (n <? 58)%nat then n - 48 else n - 55.

(** The decoding a query-style forwarder applies to its [url] parameter; it
    is used to state that [encodeURIComponent] loses nothing. *)
Fixpoint decodeURIComponent (s : string) : string :=
  match s with
  | EmptyString => EmptyString
  | String c r =>
      if Ascii.eqb c "%" then
        match r with
        | String a (String b r') =>
            String (ascii_of_nat (16 * hex_val a + hex_val b)) (decodeURIComponent r')
        | _ => String c (decodeURIComponent r)
        end
      else String c (decodeURIComponent r)
  end.

Definition history_of (md : option MarketData) : list HistoryPoint :=
  match md with Some m => md_history m | None => [] end.

(** The [marketData] state after a run of poller ticks, one world per tick,
    starting from the initial [null], while the configuration stays as it
    is; [market_run] below lets it change from tick to tick. *)
Definition market_after (rt : Runtime) (settings : AppSettings) (ticks : list World)
  : option MarketData :=
  fold_left (fun md w =>
               match result (refreshMarket rt w settings md) with
               | Ok md' => md'
               | Throw _ => md
               end)
            ticks None.

(** The exchange answers, except for the deposit history. *)
Definition no_transfers_world : World :=
  {| w_now := fun _ => 1700000000000%Z;
     w_random := fun _ => 0.5%float;
     w_fetch := fun _ q =>
       if includes (q_url q) "/capital/deposit/hisrec"
       then Ok (mkResponse false 500 (Some "text/html") "Internal Server Error")
       else Ok (json_response "positions");
     w_generateContent := fun _ _ _ => Throw (Error "unreachable") |}.

Definition with_proxy (s : AppSettings) (proxy : option string) : AppSettings :=
  {| aiProvider := aiProvider s;
     geminiApiKey := geminiApiKey s;
     openaiApiKey := openaiApiKey s;
     deepseekApiKey := deepseekApiKey s;
     mexcApiKey := mexcApiKey s;
     mexcSecretKey := mexcSecretKey s;
     tradingSymbol := tradingSymbol s;
     defaultLeverage := defaultLeverage s;
     riskPercent := riskPercent s;
     isAutoTrading := isAutoTrading s;
     intervalMinutes := intervalMinutes s;
     isLiveMode := isLiveMode s;
     corsProxyUrl := proxy;
     supabaseUrl := supabaseUrl s;
     supabaseAnonKey := supabaseAnonKey s |}.

Definition query_forwarder : option string := Some " https://proxy.example/?url= ".

Definition deposit_history : string := "/api/v3/capital/deposit/hisrec".

Definition zero_margin_position : Position :=
  mkPosition (VNum 7) (VStr "BTC_USDT") LONG (VNum 50000) (VNum 50100) (VNum 10)
             (VNum 5) infinity (VNum 0) (VNum 45000).

(** Two schedules of the event loop in which the timer fires again before
    the first cycle has finished, and one in which it waits. *)
Definition fire : LoopEvent := TimerFires example_settings (Some example_market) [].

Definition overlapping_schedule : list LoopEvent :=
  [ fire; fire;
    PromiseSettles 0 (AnalyzeSettled (Ok long_decision));
    PromiseSettles 0 (AnalyzeSettled (Ok long_decision)) ].

Definition refire_during_execution : list LoopEvent :=
  [ fire; PromiseSettles 0 (AnalyzeSettled (Ok long_decision)); fire ].

Definition serial_schedule : list LoopEvent :=
  [ fire;
    PromiseSettles 0 (AnalyzeSettled (Ok long_decision));
    PromiseSettles 0 (ExecuteSettled (Ok (Submitted positions_payload)));
    fire ].

(** The order request of the specification's example. *)
Definition example_order_request : Request :=
  mkRequest
    ("https://fapi.mexc.com/futures/api/v1/private/order/create"
       ++ "?symbol=BTCUSDT&vol=1&side=1&type=5&openType=1&leverage=10"
       ++ "&timestamp=1700000000000&signature=5f3a")
    "POST"
    [("X-MEXC-APIKEY", "mx-key"); ("Content-Type", "application/json")]
    None.

(** Computations that leave the program state alone. *)
Definition stateless {A} (m : M A) : Prop := forall s, snd (m s) = s.

Definition mexc_headers (settings : AppSettings) : list (string * string) :=
  [("X-MEXC-APIKEY", mexcApiKey settings); ("Content-Type", "application/json")].

(** The three interactions every admitted private request starts with. *)
Definition signed_dispatch (rt : Runtime) (w : World) (baseUrl endpoint method : string)
           (settings : AppSettings) (params : list (string * jsval)) (s : St)
  : list Event :=
  let timestamp := w_now w (List.length (trace s)) in
  let queryParams :=
    URLSearchParams_toString rt (obj_set "timestamp" (VStr (Z_toString timestamp)) params) in
  let signature := hmac_sha256_hex rt queryParams (mexcSecretKey settings) in
  [ EvNow timestamp;
    EvSign queryParams (mexcSecretKey settings);
    EvFetch (mkRequest
               (requestUrl settings
                  (baseUrl ++ endpoint ++ "?" ++ queryParams ++ "&signature=" ++ signature))
               method (mexc_headers settings) None) ].

(** ** Notions for the remaining gateway code *)

(** Computations that neither read nor change the program state. *)
Definition pure_m {A} (m : M A) : Prop := forall s, m s = (fst (m st0), s).

(** The [catch] block of [privateRequest] as a function on thrown values. *)
Definition relabelled (e : Exn) : Exn :=
  if instanceof_TypeError e
     || match e with JsError _ m => includes m "fetch" | NonError => false end
  then cors_error else e.

(** What a private request settles to, given how the dispatch settled. *)
Definition request_outcome (rt : Runtime) (r : Res Response) : Res jsval :=
  match r with
  | Ok response =>
      match fst (classify rt response st0) with
      | Ok v => Ok v
      | Throw e => Throw (relabelled e)
      end
  | Throw e => Throw (relabelled e)
  end.

(** The request an admitted [privateRequest] dispatches from state [s]. *)
Definition dispatched (rt : Runtime) (w : World) (baseUrl endpoint method : string)
           (settings : AppSettings) (params : list (string * jsval)) (s : St) : Request :=
  let timestamp := w_now w (List.length (trace s)) in
  let queryParams :=
    URLSearchParams_toString rt (obj_set "timestamp" (VStr (Z_toString timestamp)) params) in
  mkRequest
    (requestUrl settings
       (baseUrl ++ endpoint ++ "?" ++ queryParams ++ "&signature="
          ++ hmac_sha256_hex rt queryParams (mexcSecretKey settings)))
    method
    [("X-MEXC-APIKEY", mexcApiKey settings); ("Content-Type", "application/json")]
    None.

Definition is_json_response (response : Response) : bool :=
  match r_content_type response with
  | Some ct => negb (absent ct) && includes ct "application/json"
  | None => false
  end.

(** An application-level code the gateway accepts: none, 200 or 0. *)
Definition code_accepted (code : jsval) : bool :=
  is_undefined code || strict_eq_num code 200 || strict_eq_num code 0.

(** The inverse of [form_encode], as a server parses a query component. *)
Fixpoint form_decode (s : string) : string :=
  match s with
  | EmptyString => EmptyString
  | String c r =>
      if Ascii.eqb c "+" then String " " (form_decode r)
      else if Ascii.eqb c "%" then
        match r with
        | String a (String b r') =>
            String (ascii_of_nat (16 * hex_val a + hex_val b)) (form_decode r')
        | _ => String c (form_decode r)
        end
      else String c (form_decode r)
  end.

(** A character that [form_encode] may produce. *)
Definition form_safe (c : ascii) : bool := is_alnum c || ascii_in c "*-._+%".

(** ** The hexadecimal rendering at the end of [sign] (lines 27-29) *)

Definition hex_lower (n : nat) : ascii :=
  if (n <? 10)%nat then ascii_of_nat (48 + n) else ascii_of_nat (87 + n).

(** [b.toString(16)] for a byte [b] *)
Definition byte_toString16 (b : ascii) : string :=
  let n := nat_of_ascii b in
  if (n <? 16)%nat then String (hex_lower n) EmptyString
  else String (hex_lower (n / 16)) (String (hex_lower (n mod 16)) EmptyString).

(** [s.padStart(2, "0")] *)
Definition padStart2 (s : string) : string :=
  match String.length s with
  | 0 => "00"
  | 1 => "0" ++ s
  | _ => s
  end.

(** [l.join("")] *)
Fixpoint join_empty (l : list string) : string :=
  match l with
  | [] => ""
  | x :: r => x ++ join_empty r
  end.

(** [Array.from(new Uint8Array(sig)).map(b => b.toString(16).padStart(2, "0")).join("")] *)
Definition to_hex (sig : list ascii) : string :=
  join_empty (map (fun b => padStart2 (byte_toString16 b)) sig).

Definition hex_lower_val (c : ascii) : nat :=
  let n := nat_of_ascii c in
  if (n <? 58)%nat then n - 48 else n - 87.

(** Reading the rendering back, two digits per byte. *)
Fixpoint from_hex (s : string) : list ascii :=
  match s with
  | String a (String b r) =>
      ascii_of_nat (16 * hex_lower_val a + hex_lower_val b) :: from_hex r
  | _ => []
  end.

Definition is_hex_lower (c : ascii) : bool := ascii_in c "0123456789abcdef".

(** ** Further example documents and worlds *)

Definition error_payload : jsval :=
  VObj [ ("code", VNum 602); ("msg", VStr "Signature verification failed") ].

Definition balances_payload : jsval :=
  VObj [ ("balances",
          VArr [ VObj [ ("asset", VStr "USDT"); ("free", VStr "50000"); ("locked", VStr "1000") ];
                 VObj [ ("asset", VStr "DUST"); ("free", VStr "0"); ("locked", VStr "0") ] ]) ].

Definition transfers_payload : jsval :=
  VArr [ VObj [ ("id", VStr "d1"); ("coin", VStr "USDT"); ("amount", VStr "1000");
                ("status", VNum 1); ("insertTime", VNum 1700000000000) ];
         VObj [ ("coin", VStr "BTC"); ("amount", VStr "2.1"); ("status", VNum 0) ] ].

(** [example_runtime] with a [JSON.parse] that knows some more documents. *)
Definition gateway_runtime : Runtime :=
  {| hmac_sha256_hex := hmac_sha256_hex example_runtime;
     JSON_parse := fun s =>
       if str_eqb s "error" then Ok error_payload
       else if str_eqb s "null" then Ok VNull
       else if str_eqb s "balances" then Ok balances_payload
       else if str_eqb s "transfers" then Ok transfers_payload
       else JSON_parse example_runtime s;
     ToString := ToString example_runtime;
     number_toString := fun n =>
       if PrimFloat.eqb n 2 then "2" else if PrimFloat.eqb n 3 then "3"
       else number_toString example_runtime n;
     number_toString36 := number_toString36 example_runtime;
     parseFloat := fun v =>
       match v with
       | VStr "0" => 0%float
       | _ => parseFloat example_runtime v
       end;
     ToNumber_other := ToNumber_other example_runtime;
     cannot_read := cannot_read example_runtime;
     toLocaleTimeString := toLocaleTimeString example_runtime;
     render_prompt := render_prompt example_runtime;
     JSON_stringify := JSON_stringify example_runtime |}.

(** A world in which every request is answered with the named document. *)
Definition answering (body : string) : World :=
  {| w_now := fun _ => 1700000000000%Z;
     w_random := fun _ => 0.5%float;
     w_fetch := fun _ _ => Ok (json_response body);
     w_generateContent := fun _ _ _ => Ok None |}.

(** A world in which every request is answered with status 503 and text. *)
Definition unavailable_world : World :=
  {| w_now := fun _ => 1700000000000%Z;
     w_random := fun _ => 0.5%float;
     w_fetch := fun _ _ => Ok (mkResponse false 503 (Some "text/plain") "Service Unavailable");
     w_generateContent := fun _ _ _ => Ok None |}.

(** ** How the endpoint mappers relate an exchange entry to a record *)

Definition position_of_entry (rt : Runtime) (entry : jsval) (p : Position) : Prop :=
  exists positionType,
    get rt entry "positionType" = Ok positionType
    /\ pos_side p = (if strict_eq_num positionType 1 then LONG else SHORT)
    /\ get rt entry "symbol" = Ok (pos_symbol p)
    /\ get rt entry "holdAvgPrice" = Ok (pos_entryPrice p)
    /\ get rt entry "fairPrice" = Ok (pos_currentPrice p)
    /\ get rt entry "leverage" = Ok (pos_leverage p)
    /\ get rt entry "unrealizedPnl" = Ok (pos_pnl p)
    /\ get rt entry "margin" = Ok (pos_margin p)
    /\ get rt entry "liquidatePrice" = Ok (pos_liquidationPrice p)
    /\ exists positionId,
         get rt entry "positionId" = Ok positionId
         /\ ((truthy positionId = true /\ pos_id p = positionId)
             \/ (truthy positionId = false
                 /\ exists r, pos_id p = VStr (number_toString rt r))).

Definition order_of_entry (rt : Runtime) (entry : jsval) (o : MexcOrder) : Prop :=
  exists side type,
    get rt entry "side" = Ok side
    /\ get rt entry "type" = Ok type
    /\ ord_side o = (if strict_eq_num side 1 then "BUY" else "SELL")
    /\ ord_type o = (if strict_eq_num type 1 then "LIMIT" else "MARKET")
    /\ ord_status o = "OPEN"
    /\ get rt entry "orderId" = Ok (ord_orderId o)
    /\ get rt entry "symbol" = Ok (ord_symbol o)
    /\ get rt entry "price" = Ok (ord_price o)
    /\ get rt entry "vol" = Ok (ord_quantity o)
    /\ get rt entry "createTime" = Ok (ord_createTime o).

Definition trade_of_entry (rt : Runtime) (entry : jsval) (t : MexcTrade) : Prop :=
  exists side realisedPnl,
    get rt entry "side" = Ok side
    /\ get rt entry "realisedPnl" = Ok realisedPnl
    /\ trd_side t = (if strict_eq_num side 1 then "BUY" else "SELL")
    /\ trd_pnl t = (if truthy realisedPnl then realisedPnl else VNum 0)
    /\ get rt entry "orderId" = Ok (trd_id t)
    /\ get rt entry "symbol" = Ok (trd_symbol t)
    /\ get rt entry "avgPrice" = Ok (trd_price t)
    /\ get rt entry "vol" = Ok (trd_quantity t)
    /\ get rt entry "updateTime" = Ok (trd_time t).

Definition transfer_of_entry (rt : Runtime) (entry : jsval) (t : MexcTransfer) : Prop :=
  exists amount status,
    get rt entry "amount" = Ok amount
    /\ get rt entry "status" = Ok status
    /\ trf_amount t = parseFloat rt amount
    /\ trf_type t = "DEPOSIT"
    /\ trf_status t = (if strict_eq_num status 1 then "SUCCESS" else "PENDING")
    /\ get rt entry "coin" = Ok (trf_asset t)
    /\ get rt entry "insertTime" = Ok (trf_timestamp t)
    /\ exists id,
         get rt entry "id" = Ok id
         /\ ((truthy id = true /\ trf_id t = id)
             \/ (truthy id = false /\ exists r, trf_id t = VStr (number_toString rt r))).

Definition usdt_balance : MexcBalance :=
  mkMexcBalance (VStr "USDT") (VNum 50000) (VNum 1000) (VNum 51000).

Definition balance_of_entry (rt : Runtime) (entry : jsval) (b : MexcBalance) : Prop :=
  get rt entry "currency" = Ok (bal_asset b)
  /\ get rt entry "availableBalance" = Ok (bal_available b)
  /\ get rt entry "frozenBalance" = Ok (bal_frozen b)
  /\ get rt entry "balance" = Ok (bal_total b).

(** What an endpoint with a [data] array returns for a payload. *)
Definition follows_payload {R : Type} (rt : Runtime) (rel : jsval -> R -> Prop)
           (payload : Res jsval) (l : list R) : Prop :=
  exists result0 data,
    payload = Ok result0
    /\ get rt result0 "data" = Ok data
    /\ ((truthy data = false /\ l = [])
        \/ exists entries, data = VArr entries /\ Forall2 rel entries l).

Definition first_transfer : MexcTransfer :=
  mkMexcTransfer (VStr "d1") (VStr "USDT") 1000 "DEPOSIT" "SUCCESS" (VNum 1700000000000).

Definition second_transfer : MexcTransfer :=
  mkMexcTransfer (VStr "0.5") (VStr "BTC") 2.1 "DEPOSIT" "PENDING" VUndefined.

(** ** Notions for the pollers *)

(** The unsigned request of [getTicker]. *)
Definition ticker_request (symbol : string) : Request :=
  mkRequest ("https://api.binance.com/api/v3/ticker/24hr?symbol=" ++ toUpperCase symbol)
            "GET" [] None.

(** Computations that dispatch nothing. *)
Definition quiet {A} (m : M A) : Prop :=
  forall s, fetches (trace (snd (m s))) = fetches (trace s).

Definition sync_gate (settings : AppSettings) (isLoggedIn : bool) : bool :=
  absent (mexcApiKey settings) || absent (mexcSecretKey settings) || negb isLoggedIn.

(** ** Notions for the decision provider *)

(** The key [analyze] resolves for Gemini: the configured one, else the
    environment's, else none. *)
Definition resolved_gemini_key (settings : AppSettings) (envKey : option string) : string :=
  match opt_or (opt_or (geminiApiKey settings) envKey) (Some "") with
  | Some k => k
  | None => ""
  end.

Definition chat_request (rt : Runtime) (url key model prompt : string) : Request :=
  mkRequest url "POST"
            [ ("Content-Type", "application/json"); ("Authorization", "Bearer " ++ key) ]
            (Some (JSON_stringify rt (chat_body model prompt))).

Definition with_provider (s : AppSettings) (provider : string)
           (gemini openai deepseek : option string) : AppSettings :=
  {| aiProvider := provider;
     geminiApiKey := gemini;
     openaiApiKey := openai;
     deepseekApiKey := deepseek;
     mexcApiKey := mexcApiKey s;
     mexcSecretKey := mexcSecretKey s;
     tradingSymbol := tradingSymbol s;
     defaultLeverage := defaultLeverage s;
     riskPercent := riskPercent s;
     isAutoTrading := isAutoTrading s;
     intervalMinutes := intervalMinutes s;
     isLiveMode := isLiveMode s;
     corsProxyUrl := corsProxyUrl s;
     supabaseUrl := supabaseUrl s;
     supabaseAnonKey := supabaseAnonKey s |}.

(** ** Notions for the trading cycle *)

(** Cycles that never reach an execution step. *)
Inductive never_executes : Prog -> Prop :=
| ne_done : never_executes Done
| ne_do (o : Op) (k : Prog) : never_executes k -> never_executes (Do o k)
| ne_analyze (settings : AppSettings) (data : MarketData) (side : string)
             (k : Res jsval -> Prog) :
    (forall r, never_executes (k r)) -> never_executes (AwaitAnalyze settings data side k).

Definition fires_simulated (e : LoopEvent) : Prop :=
  match e with
  | TimerFires settings _ _ => isLiveMode settings = false
  | PromiseSettles _ _ => True
  end.

Definition active_side (positions : list Position) : PositionSide :=
  match positions with
  | p :: _ => pos_side p
  | [] => NONE
  end.

Definition trade_log (rt : Runtime) (action confidence : jsval) : Op :=
  AddLog TRADE ("AI decision: " ++ to_string rt action
                ++ " (" ++ to_string rt confidence ++ "%)").

Definition simulated_schedule : list LoopEvent :=
  [ TimerFires (with_live example_settings false) (Some example_market) [];
    PromiseSettles 0 (AnalyzeSettled (Ok long_decision));
    TimerFires (with_live example_settings false) (Some example_market) [];
    TimerFires (with_live example_settings false) (Some example_market) [];
    PromiseSettles 1 (AnalyzeSettled (Ok long_decision)) ].

(** ** The log (App.tsx, [addLog]) *)

Record TradingLog : Type := mkTradingLog {
  log_id : string;
  log_timestamp : string;
  log_type : LogType;
  log_message : string
}.

(** [l.slice(0, n)] *)
Definition slice_first {A} (n : nat) (l : list A) : list A := firstn n l.

(** The state update of [addLog]: [prev => [newLog, ...prev].slice(0, 100)] *)
Definition setLogs_addLog (newLog : TradingLog) (prev : list TradingLog) : list TradingLog :=
  slice_first 100 (newLog :: prev).

(** The log after a run of [addLog] calls, oldest call first, from the
    initial empty log. *)
Definition logs_after (entries : list TradingLog) : list TradingLog :=
  fold_left (fun logs e => setLogs_addLog e logs) entries [].

Definition empty_decision_world : World := answering "positions".

Definition waiting_items (settings : AppSettings) (m : MarketData)
           (positions : list Position) (decision : jsval) : list Item :=
  [ IOp (SetIsAnalyzing true);
    ICallAnalyze settings m (PositionSide_str (active_side positions));
    IOp (SetLastAction decision);
    IOp (SetIsAnalyzing false) ].

(** ** The forwarder in effect (lines 43-44 of [privateRequest]) *)

(** The trimmed forwarding base, when one is configured: [corsProxyUrl] is
    set and is not empty or blank. *)
Definition forwarder (settings : AppSettings) : option string :=
  match corsProxyUrl settings with
  | Some p => if negb (absent p) && negb (str_eqb (trim p) "") then Some (trim p) else None
  | None => None
  end.

Definition path_forwarder : option string := Some "https://cors.example/base".

(** An array entry whose properties can be read: anything but [undefined]
    and [null]. *)
Definition readable (v : jsval) : bool :=
  match v with
  | VUndefined | VNull => false
  | _ => true
  end.







(* ================================================================== *)
(** * Simulation mode of [executeTrade] *)
(* ================================================================== *)

Definition actions : list jsval := [VStr "LONG"; VStr "SHORT"; VStr "CLOSE"].

(** C4.  In simulation mode [executeTrade], for each of the actions LONG,
    SHORT and CLOSE, any configuration and any market price, performs no
    network call (its only interaction is one draw of [Math.random] for the
    identifier) and returns a position whose entry price and current price
    are the market price passed in, whose leverage is the configuration's
    default leverage and whose pnl is 0. *)
Theorem executeTrade_simulation_fabricates_locally :
  forall rt w action settings marketPrice s,
    isLiveMode settings = false ->
    In action actions ->
    exists p,
      executeTrade rt w action settings marketPrice s
      = (Ok (Simulated p),
         mkSt (trace s ++ [EvRandom (w_random w (List.length (trace s)))])%list
              (geminiClient s))
      /\ fetches (trace (snd (executeTrade rt w action settings marketPrice s)))
         = fetches (trace s)
      /\ pos_entryPrice p = VNum marketPrice
      /\ pos_currentPrice p = VNum marketPrice
      /\ pos_leverage p = VNum (defaultLeverage settings)
      /\ pos_pnl p = VNum 0.
Proof.
  intros rt w action settings marketPrice s Hsim _.
  unfold executeTrade. rewrite Hsim. cbn.
  eexists. split; [reflexivity|].
  repeat split.
  unfold fetches. rewrite filter_app. cbn. apply app_nil_r.
Qed.

Lemma executeTrade_simulation_example :
  isLiveMode (with_live example_settings false) = false
  /\ In (VStr "CLOSE") actions
  /\ exists p,
      executeTrade example_runtime offline_world (VStr "CLOSE")
                   (with_live example_settings false) 50000 st0
      = (Ok (Simulated p), mkSt [EvRandom 0.5] None)
      /\ fetches (trace (snd (executeTrade example_runtime offline_world (VStr "CLOSE")
                                (with_live example_settings false) 50000 st0))) = []
      /\ pos_entryPrice p = VNum 50000
      /\ pos_currentPrice p = VNum 50000
      /\ pos_leverage p = VNum 10
      /\ pos_pnl p = VNum 0.
Proof.
  split; [reflexivity|]. split; [cbn; auto|].
  exact (executeTrade_simulation_fabricates_locally example_runtime offline_world
           (VStr "CLOSE") (with_live example_settings false) 50000 st0
           eq_refl (or_intror (or_intror (or_introl eq_refl)))).
Defined.

(** C10.  In simulation mode the fabricated side is LONG exactly when the
    action is LONG; for SHORT and for CLOSE alike it is SHORT, so a CLOSE
    yields a SHORT position, neither NONE nor an empty result. *)
Theorem executeTrade_simulation_side :
  forall rt w action settings marketPrice s,
    isLiveMode settings = false ->
    In action actions ->
    exists p,
      fst (executeTrade rt w action settings marketPrice s) = Ok (Simulated p)
      /\ (pos_side p = LONG <-> action = VStr "LONG")
      /\ (action = VStr "SHORT" \/ action = VStr "CLOSE" -> pos_side p = SHORT)
      /\ pos_side p <> NONE.
Proof.
  intros rt w action settings marketPrice s Hsim Hin.
  unfold executeTrade. rewrite Hsim. cbn.
  eexists. split; [reflexivity|]. cbn.
  destruct Hin as [<-|[<-|[<-|[]]]]; cbn;
    (split; [split; [discriminate || reflexivity | discriminate || reflexivity]|]);
    (split; [intros [H|H]; (discriminate H || reflexivity)|discriminate]).
Qed.

Lemma executeTrade_simulation_close_is_short :
  exists p,
    fst (executeTrade example_runtime offline_world (VStr "CLOSE")
           (with_live example_settings false) 50000 st0) = Ok (Simulated p)
    /\ (pos_side p = LONG <-> VStr "CLOSE" = VStr "LONG")
    /\ (VStr "CLOSE" = VStr "SHORT" \/ VStr "CLOSE" = VStr "CLOSE" -> pos_side p = SHORT)
    /\ pos_side p <> NONE.
Proof.
  exact (executeTrade_simulation_side example_runtime offline_world
           (VStr "CLOSE") (with_live example_settings false) 50000 st0
           eq_refl (or_intror (or_intror (or_introl eq_refl)))).
Defined.

(* ================================================================== *)
(** * The exchange gateway: credentials, signing, dispatch *)
(* ================================================================== *)

Lemma stateless_ret {A} (a : A) : stateless (ret a).
Proof. intro s. reflexivity. Qed.

Lemma stateless_throw {A} (e : Exn) : stateless (@throw A e).
Proof. intro s. reflexivity. Qed.

Lemma stateless_lift {A} (r : Res A) : stateless (lift r).
Proof. intro s. reflexivity. Qed.

Lemma stateless_bind {A B} (m : M A) (k : A -> M B) :
  stateless m -> (forall a, stateless (k a)) -> stateless (bind m k).
Proof.
  intros Hm Hk s. unfold bind. specialize (Hm s).
  destruct (m s) as [[a|e] s']; cbn in Hm; subst s'.
  - apply Hk.
  - reflexivity.
Qed.

Lemma stateless_try_catch {A} (m : M A) (h : Exn -> M A) :
  stateless m -> (forall e, stateless (h e)) -> stateless (try_catch m h).
Proof.
  intros Hm Hh s. unfold try_catch. specialize (Hm s).
  destruct (m s) as [[a|e] s']; cbn in Hm; subst s'.
  - reflexivity.
  - apply Hh.
Qed.

Ltac stateless_step :=
  first [ apply stateless_ret | apply stateless_throw | apply stateless_lift
        | apply stateless_bind; [| intro]
        | apply stateless_try_catch; [| intro]
        | match goal with
          | |- stateless (if ?b then _ else _) => destruct b
          | |- stateless (match ?x with _ => _ end) => destruct x
          end ].

Lemma stateless_classify rt response : stateless (classify rt response).
Proof. unfold classify, prop. repeat stateless_step. Qed.

Lemma stateless_relabel {A} e : stateless (@relabel A e).
Proof. unfold relabel. repeat stateless_step. Qed.

(** With both credentials present a private request performs exactly three
    interactions: it reads the clock, signs, and dispatches once. *)
Lemma privateRequest_admitted rt w baseUrl endpoint method settings params s :
  absent (mexcApiKey settings) || absent (mexcSecretKey settings) = false ->
  snd (privateRequest rt w baseUrl endpoint method settings params s)
  = mkSt (trace s ++ signed_dispatch rt w baseUrl endpoint method settings params s)%list
         (geminiClient s).
Proof.
  intro Hkeys. unfold privateRequest. rewrite Hkeys.
  unfold signed_dispatch, mexc_headers.
  set (t := w_now w (List.length (trace s))).
  set (q := URLSearchParams_toString rt (obj_set "timestamp" (VStr (Z_toString t)) params)).
  unfold bind at 1. unfold Date_now. cbn. fold t. fold q.
  unfold try_catch, bind, fetch. cbn.
  rewrite !length_app. cbn.
  match goal with |- context [w_fetch w ?n ?r] => destruct (w_fetch w n r) as [resp|e] end; cbn.
  - match goal with |- context [classify rt resp ?s0] =>
      pose proof (stateless_classify rt resp s0) as Hc;
      destruct (classify rt resp s0) as [[v|e] s1] end; cbn in Hc; subst.
    + cbn. rewrite <- !app_assoc. reflexivity.
    + rewrite stateless_relabel. cbn. rewrite <- !app_assoc. reflexivity.
  - rewrite stateless_relabel. cbn. rewrite <- !app_assoc. reflexivity.
Qed.

(** C8.  [privateRequest] throws with nothing done (no timestamp taken,
    nothing signed, nothing dispatched: the state is untouched) if and only if
    the API key or the secret is absent, and what it throws then is the
    missing-keys error.  With both present this rejection is not reachable:
    the clock is read, the query signed and the request dispatched, whatever
    the request's outcome is afterwards. *)
Theorem privateRequest_rejects_iff_credential_absent :
  forall rt w baseUrl endpoint method settings params s,
    (absent (mexcApiKey settings) || absent (mexcSecretKey settings) = true
     <-> exists e,
           privateRequest rt w baseUrl endpoint method settings params s = (Throw e, s))
    /\ (forall e,
           privateRequest rt w baseUrl endpoint method settings params s = (Throw e, s) ->
           e = keys_missing)
    /\ (absent (mexcApiKey settings) || absent (mexcSecretKey settings) = false
        <-> trace (snd (privateRequest rt w baseUrl endpoint method settings params s))
            = (trace s ++ signed_dispatch rt w baseUrl endpoint method settings params s)%list).
Proof.
  intros rt w baseUrl endpoint method settings params s.
  assert (Hgrow : forall t : list Event,
             t <> (t ++ signed_dispatch rt w baseUrl endpoint method settings params s)%list).
  { intros t H. apply (f_equal (@List.length Event)) in H.
    rewrite length_app in H. cbn in H. lia. }
  destruct (absent (mexcApiKey settings) || absent (mexcSecretKey settings)) eqn:Hkeys.
  - assert (Hrej : privateRequest rt w baseUrl endpoint method settings params s
                   = (Throw keys_missing, s)).
    { unfold privateRequest. rewrite Hkeys. reflexivity. }
    split; [|split].
    + split; [intros _; exists keys_missing; exact Hrej|reflexivity].
    + intros e H. rewrite Hrej in H. inversion H. reflexivity.
    + split; [discriminate|]. intro H. rewrite Hrej in H. cbn in H.
      exfalso. exact (Hgrow _ H).
  - pose proof (privateRequest_admitted rt w baseUrl endpoint method settings params s Hkeys)
      as Hadm.
    assert (Hno : forall e,
               privateRequest rt w baseUrl endpoint method settings params s
               <> (Throw e, s)).
    { intros e H. rewrite H in Hadm. cbn in Hadm.
      apply (f_equal trace) in Hadm. cbn in Hadm. exact (Hgrow _ Hadm). }
    split; [|split].
    + split; [discriminate|]. intros [e H]. exfalso. exact (Hno e H).
    + intros e H. exfalso. exact (Hno e H).
    + split; [|reflexivity]. intros _. rewrite Hadm. reflexivity.
Qed.

(** ** The target URL survives forwarding *)

Lemma decode_encode_byte (c : ascii) (rest : string) :
  decodeURIComponent (uri_encode_byte c ++ rest) = String c (decodeURIComponent rest).
Proof.
  destruct c as [[] [] [] [] [] [] [] []]; reflexivity.
Qed.

Lemma decode_encodeURIComponent (s : string) :
  decodeURIComponent (encodeURIComponent s) = s.
Proof.
  induction s as [|c r IH]; [reflexivity|].
  cbn [encodeURIComponent]. rewrite decode_encode_byte, IH. reflexivity.
Qed.

Lemma string_app_assoc (a b c : string) : (a ++ b) ++ c = a ++ (b ++ c).
Proof.
  induction a as [|x a IH]; cbn; [reflexivity|]. rewrite IH. reflexivity.
Qed.

(** The URL handed to [fetch] is the target URL itself, or the target URL
    behind the forwarder's prefix, verbatim (path style) or percent-encoded
    as a whole (query style). *)
Lemma requestUrl_forms settings targetUrl :
  requestUrl settings targetUrl = targetUrl
  \/ (exists prefix, requestUrl settings targetUrl = prefix ++ targetUrl)
  \/ (exists prefix, requestUrl settings targetUrl = prefix ++ encodeURIComponent targetUrl).
Proof.
  unfold requestUrl.
  destruct (corsProxyUrl settings) as [p|]; [|left; reflexivity].
  destruct (negb (absent p) && negb (str_eqb (trim p) "")); [|left; reflexivity].
  destruct (includes (trim p) "?url=").
  - right. right. exists (trim p). reflexivity.
  - right. left. exists (trim p ++ (if endsWith_slash (trim p) then "" else "/")).
    rewrite string_app_assoc. reflexivity.
Qed.

Lemma requestUrl_by_forwarder settings targetUrl :
  (forwarder settings = None -> requestUrl settings targetUrl = targetUrl)
  /\ (forall proxy,
         forwarder settings = Some proxy -> includes proxy "?url=" = false ->
         requestUrl settings targetUrl
         = proxy ++ (if endsWith_slash proxy then "" else "/") ++ targetUrl)
  /\ (forall proxy,
         forwarder settings = Some proxy -> includes proxy "?url=" = true ->
         requestUrl settings targetUrl = proxy ++ encodeURIComponent targetUrl).
Proof.
  unfold forwarder, requestUrl.
  destruct (corsProxyUrl settings) as [p|].
  - destruct (negb (absent p) && negb (str_eqb (trim p) "")).
    + split; [discriminate|]. split; intros proxy H Hq; inversion H; subst proxy;
        rewrite Hq; reflexivity.
    + split; [reflexivity|]. split; intros proxy H; discriminate H.
  - split; [reflexivity|]. split; intros proxy H; discriminate H.
Qed.

(** C7 (as the code has it).  For every private request that is dispatched,
    the string [q] handed to the signer is the very string placed after the
    [?] of the target URL: the target is
    [baseUrl ++ endpoint ++ "?" ++ q ++ "&signature=" ++ sig] with [sig] the
    signature of [q], so the parameters are the same, in the same order, and
    only the signature is appended.  The URL of the request is this target
    URL itself when no forwarder is configured ([corsProxyUrl] unset, empty
    or blank); the trimmed forwarder, a [/] unless it ends in one, and the
    target URL verbatim for a path-style forwarder; and the trimmed forwarder
    followed by the target URL percent-encoded as a whole for a query-style
    forwarder (one containing [?url=]), from which decoding gives the target
    back byte for byte. *)
Theorem signed_query_is_the_transmitted_query :
  forall rt w baseUrl endpoint method settings params s,
    absent (mexcApiKey settings) = false ->
    absent (mexcSecretKey settings) = false ->
    exists q target,
      q = URLSearchParams_toString rt
            (obj_set "timestamp"
                     (VStr (Z_toString (w_now w (List.length (trace s))))) params)
      /\ target = baseUrl ++ endpoint ++ "?" ++ q ++ "&signature="
                  ++ hmac_sha256_hex rt q (mexcSecretKey settings)
      /\ trace (snd (privateRequest rt w baseUrl endpoint method settings params s))
         = (trace s
            ++ [ EvNow (w_now w (List.length (trace s)));
                 EvSign q (mexcSecretKey settings);
                 EvFetch (mkRequest (requestUrl settings target) method
                                    (mexc_headers settings) None) ])%list
      /\ (forwarder settings = None -> requestUrl settings target = target)
      /\ (forall proxy,
             forwarder settings = Some proxy -> includes proxy "?url=" = false ->
             requestUrl settings target
             = proxy ++ (if endsWith_slash proxy then "" else "/") ++ target)
      /\ (forall proxy,
             forwarder settings = Some proxy -> includes proxy "?url=" = true ->
             requestUrl settings target = proxy ++ encodeURIComponent target
             /\ decodeURIComponent (encodeURIComponent target) = target).
Proof.
  intros rt w baseUrl endpoint method settings params s Hkey Hsecret.
  eexists. eexists. split; [reflexivity|]. split; [reflexivity|]. split.
  - rewrite privateRequest_admitted by (rewrite Hkey, Hsecret; reflexivity).
    reflexivity.
  - match goal with |- (_ -> requestUrl _ ?t = _) /\ _ =>
      destruct (requestUrl_by_forwarder settings t) as (Hnone & Hpath & Hquery) end.
    split; [exact Hnone|]. split; [exact Hpath|].
    intros proxy Hf Hq. split; [exact (Hquery proxy Hf Hq)|].
    apply decode_encodeURIComponent.
Qed.

Lemma signed_query_example :
  absent (mexcApiKey (with_proxy example_settings query_forwarder)) = false
  /\ absent (mexcSecretKey (with_proxy example_settings query_forwarder)) = false
  /\ forwarder (with_proxy example_settings query_forwarder)
     = Some "https://proxy.example/?url="
  /\ forwarder (with_proxy example_settings path_forwarder)
     = Some "https://cors.example/base"
  /\ forwarder example_settings = None
  /\ (exists q target,
         q = "states=3%2C4&timestamp=1700000000000"
         /\ target
            = "https://fapi.mexc.com/futures/api/v1/private/order/list/history_orders?"
              ++ q ++ "&signature=5f3a"
         /\ fetches (trace (snd (privateRequest example_runtime example_world baseFuturesUrl
                                   "/futures/api/v1/private/order/list/history_orders" "GET"
                                   (with_proxy example_settings query_forwarder)
                                   [("states", VStr "3,4")] st0)))
            = [EvFetch (mkRequest ("https://proxy.example/?url="
                                     ++ encodeURIComponent target)
                                  "GET" [("X-MEXC-APIKEY", "mx-key");
                                         ("Content-Type", "application/json")] None)]
         /\ decodeURIComponent (encodeURIComponent target) = target)
  /\ (exists q target,
         q = "states=3%2C4&timestamp=1700000000000"
         /\ target
            = "https://fapi.mexc.com/futures/api/v1/private/order/list/history_orders?"
              ++ q ++ "&signature=5f3a"
         /\ fetches (trace (snd (privateRequest example_runtime example_world baseFuturesUrl
                                   "/futures/api/v1/private/order/list/history_orders" "GET"
                                   (with_proxy example_settings path_forwarder)
                                   [("states", VStr "3,4")] st0)))
            = [EvFetch (mkRequest ("https://cors.example/base/" ++ target)
                                  "GET" [("X-MEXC-APIKEY", "mx-key");
                                         ("Content-Type", "application/json")] None)])
  /\ (exists q target,
         q = "states=3%2C4&timestamp=1700000000000"
         /\ target
            = "https://fapi.mexc.com/futures/api/v1/private/order/list/history_orders?"
              ++ q ++ "&signature=5f3a"
         /\ fetches (trace (snd (privateRequest example_runtime example_world baseFuturesUrl
                                   "/futures/api/v1/private/order/list/history_orders" "GET"
                                   example_settings [("states", VStr "3,4")] st0)))
            = [EvFetch (mkRequest target
                                  "GET" [("X-MEXC-APIKEY", "mx-key");
                                         ("Content-Type", "application/json")] None)]).
Proof.
  split; [reflexivity|]. split; [reflexivity|]. split; [reflexivity|].
  split; [reflexivity|]. split; [reflexivity|].
  split; [|split].
  - destruct (signed_query_is_the_transmitted_query example_runtime example_world
                baseFuturesUrl "/futures/api/v1/private/order/list/history_orders" "GET"
                (with_proxy example_settings query_forwarder)
                [("states", VStr "3,4")] st0 eq_refl eq_refl)
      as (q & target & Hq & Ht & Htrace & _ & _ & Hquery).
    exists q, target. split; [exact Hq|]. split; [exact Ht|].
    destruct (Hquery "https://proxy.example/?url=" eq_refl eq_refl) as [Hurl Hdec].
    split; [|exact Hdec]. rewrite Htrace, Hurl. reflexivity.
  - destruct (signed_query_is_the_transmitted_query example_runtime example_world
                baseFuturesUrl "/futures/api/v1/private/order/list/history_orders" "GET"
                (with_proxy example_settings path_forwarder)
                [("states", VStr "3,4")] st0 eq_refl eq_refl)
      as (q & target & Hq & Ht & Htrace & _ & Hpath & _).
    exists q, target. split; [exact Hq|]. split; [exact Ht|].
    rewrite Htrace, (Hpath "https://cors.example/base" eq_refl eq_refl). reflexivity.
  - destruct (signed_query_is_the_transmitted_query example_runtime example_world
                baseFuturesUrl "/futures/api/v1/private/order/list/history_orders" "GET"
                example_settings [("states", VStr "3,4")] st0 eq_refl eq_refl)
      as (q & target & Hq & Ht & Htrace & Hnone & _ & _).
    exists q, target. split; [exact Hq|]. split; [exact Ht|].
    rewrite Htrace, (Hnone eq_refl). reflexivity.
Defined.

(** C7 as stated fails behind a query-style forwarder: the request URL
    carries the target percent-encoded, so the signed string (with its [=]
    and [&]) does not occur in it byte for byte. *)
Lemma query_forwarder_encodes_the_signed_query :
  exists q url,
    trace (snd (privateRequest example_runtime example_world baseFuturesUrl
                  "/futures/api/v1/private/order/list/history_orders" "GET"
                  (with_proxy example_settings query_forwarder)
                  [("states", VStr "3,4")] st0))
    = [ EvNow 1700000000000;
        EvSign q "mx-secret";
        EvFetch (mkRequest url "GET" [("X-MEXC-APIKEY", "mx-key");
                                      ("Content-Type", "application/json")] None) ]
    /\ q = "states=3%2C4&timestamp=1700000000000"
    /\ url = "https://proxy.example/?url=https%3A%2F%2Ffapi.mexc.com%2Ffutures%2Fapi%2Fv1"
             ++ "%2Fprivate%2Forder%2Flist%2Fhistory_orders%3Fstates%3D3%252C4"
             ++ "%26timestamp%3D1700000000000%26signature%3D5f3a"
    /\ includes url q = false.
Proof.
  eexists. eexists. split; [reflexivity|]. repeat split.
Qed.

(* ================================================================== *)
(** * Open positions *)
(* ================================================================== *)

(** Case analysis along a successful run of monadic code. *)
Ltac run_inv H :=
  repeat match type of H with
         | (let (_, _) := ?m in _) = _ => destruct m as [[?|?] ?] eqn:?
         | match ?m with _ => _ end = _ => destruct m eqn:?
         | (Throw _, _) = (Ok _, _) => discriminate H
         | (Ok _, _) = (Throw _, _) => discriminate H
         end.

Lemma mapM_Forall {A B} (f : A -> M B) (P : B -> Prop) :
  (forall x s y s', f x s = (Ok y, s') -> P y) ->
  forall l s ys s', mapM f l s = (Ok ys, s') -> Forall P ys.
Proof.
  intros Hf. induction l as [|x l IH]; intros s ys s' H.
  - cbn in H. inversion H. constructor.
  - cbn in H. unfold bind in H.
    destruct (f x s) as [[y|e] s1] eqn:Hx; [|discriminate H].
    destruct (mapM f l s1) as [[zs|e] s2] eqn:Hl; [|discriminate H].
    cbn in H. inversion H; subst. constructor.
    + eapply Hf; eassumption.
    + eapply IH; eassumption.
Qed.

(** C9.  Every position returned by [getOpenPositions] has
    [pnlPercent = unrealizedPnl / margin * 100], computed in binary64 from
    the position's own [pnl] (the payload's [unrealizedPnl]) and [margin],
    whatever the margin is: nothing guards a zero margin, for which the
    quotient is the IEEE one (an infinity or NaN). *)
Theorem pnlPercent_is_unguarded_quotient :
  forall rt w settings s ps,
    fst (getOpenPositions rt w settings s) = Ok ps ->
    Forall (fun p =>
              pos_pnlPercent p
              = ((to_number rt (pos_pnl p) / to_number rt (pos_margin p)) * 100)%float
              /\ (forall u m, pos_pnl p = VNum u -> pos_margin p = VNum m ->
                              pos_pnlPercent p = ((u / m) * 100)%float))
           ps.
Proof.
  intros rt w settings s ps H.
  unfold getOpenPositions in H. unfold bind at 1 in H.
  destruct (privateRequest _ _ _ _ _ _ _ s) as [[result0|e] s1]; [|discriminate H].
  unfold bind at 1 in H. unfold prop at 1, lift in H.
  destruct (get rt result0 "data") as [data|e]; [|discriminate H].
  destruct (negb (truthy data)).
  - cbn in H. inversion H. constructor.
  - destruct data; cbn in H; try discriminate H.
    match type of H with fst (mapM ?f ?l ?s0) = _ =>
      destruct (mapM f l s0) as [[ys|e] s2] eqn:Hm; [|discriminate H];
      cbn in H; inversion H; subst ys;
      refine (mapM_Forall f _ _ l s0 ps s2 Hm)
    end.
    clear. intros x s y s' Hx.
    unfold bind, prop, lift, ret, or_random_id, Math_random, emit in Hx.
    run_inv Hx.
    all: inversion Hx; subst; cbn; split; [reflexivity|].
    all: intros u m Hu Hmg; subst; reflexivity.
Qed.

Lemma pnlPercent_zero_margin_example :
  fst (getOpenPositions example_runtime example_world example_settings st0)
  = Ok [zero_margin_position]
  /\ Forall (fun p =>
               pos_pnlPercent p
               = ((to_number example_runtime (pos_pnl p)
                   / to_number example_runtime (pos_margin p)) * 100)%float
               /\ (forall u m, pos_pnl p = VNum u -> pos_margin p = VNum m ->
                               pos_pnlPercent p = ((u / m) * 100)%float))
            [zero_margin_position].
Proof.
  split; [vm_compute; reflexivity|].
  exact (pnlPercent_is_unguarded_quotient example_runtime example_world example_settings
           st0 [zero_margin_position] eq_refl).
Defined.

(* ================================================================== *)
(** * The market poller's rolling history *)
(* ================================================================== *)

Lemma slice_last_length {A} (n : nat) (l : list A) :
  List.length (slice_last n l) <= n.
Proof. unfold slice_last. rewrite length_skipn. lia. Qed.

Lemma slice_last_full {A} (n : nat) (l : list A) (x : A) :
  List.length l = n -> 0 < n -> slice_last n (l ++ [x]) = (tl l ++ [x])%list.
Proof.
  intros Hlen Hpos. unfold slice_last. rewrite length_app. cbn [List.length].
  replace (List.length l + 1 - n) with 1 by lia.
  destruct l as [|y l]; [cbn in Hlen; lia|reflexivity].
Qed.

Lemma slice_last_room {A} (n : nat) (l : list A) (x : A) :
  List.length l < n -> slice_last n (l ++ [x]) = (l ++ [x])%list.
Proof.
  intros Hlen. unfold slice_last. rewrite length_app. cbn [List.length].
  replace (List.length l + 1 - n) with 0 by lia. reflexivity.
Qed.

(** What one tick does to the state: nothing when the fetch fails, and
    otherwise the new sample goes last and the last 50 entries are kept. *)
Lemma refreshMarket_tick rt w settings prev s :
  exists md s',
    refreshMarket rt w settings prev s = (Ok md, s')
    /\ (md = prev
        \/ exists m sample,
             md = Some m
             /\ md_history m = slice_last 50 (history_of prev ++ [sample])%list).
Proof.
  unfold refreshMarket, try_catch.
  match goal with |- context [bind ?a ?k s] => destruct (bind a k s) as [[md|e] s'] eqn:H end.
  - exists md, s'. split; [reflexivity|]. right.
    unfold bind in H.
    destruct (getTicker rt w (tradingSymbol settings) s) as [[ticker|e] s1]; [|discriminate H].
    unfold Date_now, bind, emit, ret in H. cbn in H. inversion H; subst.
    eexists. eexists. split; [reflexivity|]. reflexivity.
  - exists prev, s'. split; [reflexivity|]. left. reflexivity.
Qed.

Lemma market_after_bounded rt settings ticks :
  forall md0, List.length (history_of md0) <= 50 ->
    List.length
      (history_of
         (fold_left (fun md w =>
                       match result (refreshMarket rt w settings md) with
                       | Ok md' => md'
                       | Throw _ => md
                       end) ticks md0)) <= 50.
Proof.
  induction ticks as [|w ticks IH]; intros md0 H0; [exact H0|].
  cbn [fold_left]. apply IH. unfold result.
  destruct (refreshMarket_tick rt w settings md0 st0) as (md & s' & Heq & Hcase).
  rewrite Heq. cbn.
  destruct Hcase as [->|(m & sample & -> & Hh)]; [exact H0|].
  cbn. rewrite Hh. apply slice_last_length.
Qed.

(** C6.  After any number of poller ticks the history holds at most 50
    samples.  A tick whose fetch succeeds puts the new sample last and keeps
    the last 50 entries: on a full history the oldest (first) entry leaves and
    the others stay in their order; with room left nothing leaves. *)
Theorem history_bounded_oldest_first :
  forall rt settings,
    (forall ticks : list World,
        List.length (history_of (market_after rt settings ticks)) <= 50)
    /\ (forall w prev ticker s1,
           getTicker rt w (tradingSymbol settings) st0 = (Ok ticker, s1) ->
           exists m sample,
             result (refreshMarket rt w settings prev) = Ok (Some m)
             /\ hp_price sample = tk_price ticker
             /\ md_history m = slice_last 50 (history_of prev ++ [sample])%list
             /\ (List.length (history_of prev) = 50 ->
                 md_history m = (tl (history_of prev) ++ [sample])%list)
             /\ (List.length (history_of prev) < 50 ->
                 md_history m = (history_of prev ++ [sample])%list)).
Proof.
  intros rt settings. split.
  - intro ticks. unfold market_after. apply market_after_bounded. cbn. lia.
  - intros w prev ticker s1 Hticker.
    unfold result, refreshMarket, try_catch, bind. rewrite Hticker.
    unfold Date_now, bind, emit, ret. cbn.
    eexists.
    exists (mkHistoryPoint (toLocaleTimeString rt (w_now w (List.length (trace s1))))
                           (tk_price ticker)).
    split; [reflexivity|]. cbn.
    split; [reflexivity|]. split; [reflexivity|]. split.
    + intro Hfull. apply slice_last_full; [exact Hfull|lia].
    + intro Hroom. apply slice_last_room. exact Hroom.
Qed.

Lemma history_eviction_example :
  List.length (history_of (market_after example_runtime example_settings
                             (repeat example_world 60))) <= 50
  /\ exists m sample,
      result (refreshMarket example_runtime example_world example_settings
                (market_after example_runtime example_settings (repeat example_world 50)))
      = Ok (Some m)
      /\ hp_price sample = 50000%float
      /\ md_history m
         = (tl (history_of (market_after example_runtime example_settings
                              (repeat example_world 50))) ++ [sample])%list.
Proof.
  pose proof (history_bounded_oldest_first example_runtime example_settings) as [Hb Ht].
  split; [apply Hb|].
  destruct (Ht example_world
               (market_after example_runtime example_settings (repeat example_world 50))
               (mkTickerData "BTCUSDT" 50000 2.1 1000 1700000000000)
               (mkSt [EvFetch (mkRequest
                                 "https://api.binance.com/api/v3/ticker/24hr?symbol=BTCUSDT"
                                 "GET" [] None);
                      EvNow 1700000000000] None)
               eq_refl)
    as (m & sample & Hr & Hp & _ & Hfull & _).
  exists m, sample. split; [exact Hr|]. split; [exact Hp|].
  apply Hfull. vm_compute. reflexivity.
Defined.

(* ================================================================== *)
(** * The decision provider *)
(* ================================================================== *)

(** C3.  For every configuration, market snapshot and current side,
    [analyze] returns a decision and never throws.  Whenever a step of the
    backend call throws (a missing API key, a transport or HTTP failure, a
    malformed document, an unsupported provider: any exception of the [try]
    block), the decision is exactly
    [{action: WAIT, leverage: 1, reason: "Analysis failed: " + detail,
    confidence: 0}]; otherwise it is what the backend answered.
    (The prompt is built before the [try] from a well-typed snapshot.) *)
Theorem analyze_never_throws :
  forall rt w envKey settings data side s,
    exists d s',
      analyze rt w envKey settings data side s = (Ok d, s')
      /\ (forall e s1,
             analyze_try rt w envKey settings (render_prompt rt data side) s = (Throw e, s1) ->
             d = VObj [ ("action", VStr "WAIT");
                        ("leverage", VNum 1);
                        ("reason", VStr ("Analysis failed: " ++
                                         match e with
                                         | JsError _ m => m
                                         | NonError => "Unknown error"
                                         end));
                        ("confidence", VNum 0) ])
      /\ (forall v s1,
             analyze_try rt w envKey settings (render_prompt rt data side) s = (Ok v, s1) ->
             d = v).
Proof.
  intros rt w envKey settings data side s.
  unfold analyze, try_catch.
  destruct (analyze_try rt w envKey settings (render_prompt rt data side) s)
    as [[v|e] s1] eqn:Htry.
  - exists v, s1. split; [reflexivity|]. split.
    + intros e s2 H. discriminate H.
    + intros v' s2 H. inversion H. reflexivity.
  - eexists. eexists. split; [reflexivity|]. split.
    + intros e' s2 H. inversion H. reflexivity.
    + intros v s2 H. discriminate H.
Qed.

(** The causes of failure named by the specification, each on its own. *)
Lemma analyze_unsupported_provider rt w envKey settings data side s :
  str_eqb (aiProvider settings) "gemini" = false ->
  str_eqb (aiProvider settings) "openai" = false ->
  str_eqb (aiProvider settings) "deepseek" = false ->
  fst (analyze rt w envKey settings data side s)
  = Ok (wait_decision (Error "Unsupported AI Provider")).
Proof.
  intros Hg Ho Hd. unfold analyze, try_catch, analyze_try.
  rewrite Hg, Ho, Hd. reflexivity.
Qed.

Lemma analyze_missing_key rt w settings data side s :
  In (aiProvider settings) ["gemini"; "openai"; "deepseek"] ->
  absent_opt (geminiApiKey settings) = true ->
  absent_opt (openaiApiKey settings) = true ->
  absent_opt (deepseekApiKey settings) = true ->
  exists detail,
    fst (analyze rt w (Some "") settings data side s) = Ok (wait_decision (Error detail))
    /\ fetches (trace (snd (analyze rt w (Some "") settings data side s)))
       = fetches (trace s).
Proof.
  intros Hin Hg Ho Hd. unfold analyze, try_catch, analyze_try.
  assert (Hf : forall t, fetches (t ++ [EvConsoleError])%list = fetches t).
  { intro t. unfold fetches. rewrite filter_app. cbn. apply app_nil_r. }
  destruct Hin as [<-|[<-|[<-|[]]]]; cbn.
  - unfold opt_or. rewrite Hg. cbn. eexists. split; [reflexivity|]. cbn. apply Hf.
  - destruct (openaiApiKey settings) as [k|]; cbn in Ho; [rewrite Ho|];
      cbn; (eexists; split; [reflexivity|]; cbn; apply Hf).
  - destruct (deepseekApiKey settings) as [k|]; cbn in Hd; [rewrite Hd|];
      cbn; (eexists; split; [reflexivity|]; cbn; apply Hf).
Qed.

Lemma analyze_unreachable_backends :
  let keyed p := {| aiProvider := p;
                    geminiApiKey := Some "k"; openaiApiKey := Some "k";
                    deepseekApiKey := Some "k";
                    mexcApiKey := ""; mexcSecretKey := ""; tradingSymbol := "BTCUSDT";
                    defaultLeverage := 10; riskPercent := 2; isAutoTrading := true;
                    intervalMinutes := 1; isLiveMode := false; corsProxyUrl := None;
                    supabaseUrl := ""; supabaseAnonKey := "" |} in
  result (analyze example_runtime offline_world None (keyed "gemini") example_market "NONE")
  = Ok (wait_decision (Error "unreachable"))
  /\ result (analyze example_runtime offline_world None (keyed "openai") example_market "NONE")
     = Ok (wait_decision (JsError KTypeError "Failed to fetch"))
  /\ result (analyze example_runtime offline_world None (keyed "deepseek") example_market "NONE")
     = Ok (wait_decision (JsError KTypeError "Failed to fetch")).
Proof. repeat split. Qed.

(* ================================================================== *)
(** * Transfer history and the account synchronizer *)
(* ================================================================== *)

Lemma getTransferHistory_total rt w settings s :
  exists l s', getTransferHistory rt w settings s = (Ok l, s').
Proof.
  unfold getTransferHistory, try_catch.
  match goal with |- context [bind ?a ?k s] => destruct (bind a k s) as [[l|e] s'] end.
  - exists l, s'. reflexivity.
  - exists [], s'. reflexivity.
Qed.

(** C5.  [getTransferHistory] never throws: it always returns a sequence,
    the empty one whenever its request fails, in particular when a
    credential is absent (then without any interaction).  Hence an account
    sync whose five other calls succeed while the transfer request fails
    publishes the five results with [transfers = []] and status CONNECTED. *)
Theorem transfer_history_failure_is_absorbed :
  forall rt w settings,
    (forall s, exists l s', getTransferHistory rt w settings s = (Ok l, s'))
    /\ (forall s e s1,
           privateRequest rt w baseSpotUrl deposit_history "GET" settings [] s = (Throw e, s1) ->
           getTransferHistory rt w settings s = (Ok [], s1))
    /\ (forall s,
           absent (mexcApiKey settings) || absent (mexcSecretKey settings) = true ->
           getTransferHistory rt w settings s = (Ok [], s))
    /\ (forall prev s0 spot s1 futures s2 positions s3 orders s4 trades s5 e s6,
           absent (mexcApiKey settings) || absent (mexcSecretKey settings) = false ->
           getSpotBalance rt w settings s0 = (Ok spot, s1) ->
           getFuturesBalance rt w settings s1 = (Ok futures, s2) ->
           getOpenPositions rt w settings s2 = (Ok positions, s3) ->
           getOpenOrders rt w settings s3 = (Ok orders, s4) ->
           getTradeHistory rt w settings s4 = (Ok trades, s5) ->
           privateRequest rt w baseSpotUrl deposit_history "GET" settings [] s5
           = (Throw e, s6) ->
           refreshAccountData rt w settings true prev s0
           = (Ok (mkAccount spot futures positions orders trades [] CONNECTED, []), s6)).
Proof.
  intros rt w settings.
  assert (Habsorb : forall s e s1,
             privateRequest rt w baseSpotUrl deposit_history "GET" settings [] s
             = (Throw e, s1) ->
             getTransferHistory rt w settings s = (Ok [], s1)).
  { intros s e s1 H. unfold getTransferHistory, try_catch, bind.
    unfold deposit_history in H. rewrite H. reflexivity. }
  split; [intro s; apply getTransferHistory_total|].
  split; [exact Habsorb|]. split.
  - intros s Hkeys. apply (Habsorb s keys_missing s).
    unfold privateRequest. rewrite Hkeys. reflexivity.
  - intros prev s0 spot s1 futures s2 positions s3 orders s4 trades s5 e s6
           Hkeys Hspot Hfut Hpos Hord Htrd Hreq.
    unfold refreshAccountData. rewrite Hkeys. cbn [negb orb].
    unfold bind, settle.
    rewrite Hspot, Hfut, Hpos, Hord, Htrd, (Habsorb _ _ _ Hreq).
    reflexivity.
Qed.

Lemma sync_without_transfers_example :
  exists acc s',
    refreshAccountData example_runtime no_transfers_world example_settings true account0 st0
    = (Ok (acc, []), s')
    /\ mexcTransfers acc = []
    /\ mexcStatus acc = CONNECTED
    /\ List.length (mexcPositions acc) = 1.
Proof.
  pose proof (transfer_history_failure_is_absorbed
                example_runtime no_transfers_world example_settings)
    as (_ & _ & _ & Hsync).
  eexists. eexists. split.
  - eapply Hsync; [reflexivity|vm_compute; reflexivity ..].
  - repeat split.
Defined.

(* ================================================================== *)
(** * The trading cycle in live mode *)
(* ================================================================== *)

Lemma get_defined rt v k k' x :
  get rt v k = Ok x -> exists y, get rt v k' = Ok y.
Proof.
  unfold get, js_get. destruct v; intro H; try discriminate H; eexists; reflexivity.
Qed.

(** The query string of an order, parameter by parameter. *)
Lemma order_query_string rt action settings timestamp :
  URLSearchParams_toString rt
    (obj_set "timestamp" (VStr timestamp) (orderParams action settings))
  = "symbol=" ++ form_encode (tradingSymbol settings)
    ++ "&vol=" ++ form_encode (number_toString rt 1)
    ++ "&side=" ++ form_encode
         (number_toString rt (if strict_eq_str action "LONG" then 1
                              else if strict_eq_str action "SHORT" then 2 else 3))
    ++ "&type=" ++ form_encode (number_toString rt 5)
    ++ "&openType=" ++ form_encode (number_toString rt 1)
    ++ "&leverage=" ++ form_encode (number_toString rt (defaultLeverage settings))
    ++ "&timestamp=" ++ form_encode timestamp.
Proof.
  unfold URLSearchParams_toString, orderParams. cbn.
  repeat (rewrite string_app_assoc; cbn). reflexivity.
Qed.

(** C1 (as the code has it).  In live mode, with auto-trading on, both
    credentials present and no open position (side NONE), a decision LONG
    makes the cycle call [executeTrade] exactly once; that call performs
    exactly one dispatch, the order-creation request, whose [side] parameter
    is 1 (open long) and whose [leverage] parameter is the configuration's
    default leverage.  The leverage requested by the decision is not read. *)
Theorem live_long_decision_submits_one_order :
  forall rt w envKey settings md decision s s1,
    isAutoTrading settings = true ->
    isLiveMode settings = true ->
    absent (mexcApiKey settings) || absent (mexcSecretKey settings) = false ->
    analyze rt w envKey settings md "NONE" s = (Ok decision, s1) ->
    get rt decision "action" = Ok (VStr "LONG") ->
    exists items s2,
      run_cycle rt w envKey (runTradingCycle rt settings (Some md) []) s = (Ok items, s2)
      /\ filter is_execute items = [ICallExecuteTrade (VStr "LONG") settings (md_price md)]
      /\ trace s2
         = (trace s1
            ++ signed_dispatch rt w baseFuturesUrl order_create "POST" settings
                 (orderParams (VStr "LONG") settings) s1)%list
      /\ assoc_get "side" (orderParams (VStr "LONG") settings) = Some (VNum 1)
      /\ assoc_get "leverage" (orderParams (VStr "LONG") settings)
         = Some (VNum (defaultLeverage settings)).
Proof.
  intros rt w envKey settings md decision s s1 Hauto Hlive Hkeys Han Hact.
  destruct (get_defined rt decision "action" "confidence" _ Hact) as [conf Hconf].
  pose proof (privateRequest_admitted rt w baseFuturesUrl order_create "POST" settings
                (orderParams (VStr "LONG") settings) s1 Hkeys) as Hreq.
  unfold runTradingCycle. rewrite Hauto. cbn [negb].
  cbn [run_cycle PositionSide_str]. unfold bind at 1. unfold bind at 1.
  unfold settle at 1. rewrite Han.
  cbn [run_cycle]. rewrite Hact, Hconf. cbn [strict_eq_str str_eqb String.eqb negb].
  cbn [run_cycle Ascii.eqb Bool.eqb negb]. rewrite Hlive.
  cbn [run_cycle]. unfold bind, settle, ret.
  unfold executeTrade at 1. rewrite Hlive. cbn [negb]. unfold bind.
  destruct (privateRequest rt w baseFuturesUrl order_create "POST" settings
              (orderParams (VStr "LONG") settings) s1) as [[payload|e] s2] eqn:Hpr;
    cbn in Hreq; subst s2; cbn.
  - eexists. eexists. split; [reflexivity|]. cbn. repeat split.
  - eexists. eexists. split; [reflexivity|]. cbn. repeat split.
Qed.

Lemma live_long_decision_example :
  isAutoTrading example_settings = true
  /\ isLiveMode example_settings = true
  /\ analyze example_runtime example_world None example_settings example_market "NONE" st0
     = (Ok long_decision, mkSt [EvGenerateContent "g-key" "prompt"] (Some "g-key"))
  /\ exists items s2,
      run_cycle example_runtime example_world None
        (runTradingCycle example_runtime example_settings (Some example_market) []) st0
      = (Ok items, s2)
      /\ filter is_execute items = [ICallExecuteTrade (VStr "LONG") example_settings 50000]
      /\ trace s2
         = [ EvGenerateContent "g-key" "prompt";
             EvNow 1700000000000;
             EvSign ("symbol=BTCUSDT&vol=1&side=1&type=5&openType=1&leverage=10"
                       ++ "&timestamp=1700000000000") "mx-secret";
             EvFetch example_order_request ]
      /\ assoc_get "side" (orderParams (VStr "LONG") example_settings) = Some (VNum 1)
      /\ assoc_get "leverage" (orderParams (VStr "LONG") example_settings)
         = Some (VNum 10).
Proof.
  split; [reflexivity|]. split; [reflexivity|]. split; [reflexivity|].
  exact (live_long_decision_submits_one_order example_runtime example_world None
           example_settings example_market long_decision st0
           (mkSt [EvGenerateContent "g-key" "prompt"] (Some "g-key"))
           eq_refl eq_refl eq_refl eq_refl eq_refl).
Defined.

Lemma float_10_is_not_5 : VNum 10 <> VNum 5.
Proof.
  intro H.
  apply (f_equal (fun v => match v with VNum x => PrimFloat.ltb x 7 | _ => false end)) in H.
  vm_compute in H. discriminate H.
Qed.

(** C1 as stated fails: with the default leverage 10 configured and a
    decision [{action: LONG, leverage: 5, confidence: 80}], the single order
    that is submitted carries [leverage=10], not the requested 5. *)
Lemma order_leverage_is_not_the_requested_one :
  result (analyze example_runtime example_world None example_settings example_market "NONE")
  = Ok long_decision
  /\ get example_runtime long_decision "leverage" = Ok (VNum 5)
  /\ fetches (events (run_cycle example_runtime example_world None
                        (runTradingCycle example_runtime example_settings
                                         (Some example_market) [])))
     = [EvFetch example_order_request]
  /\ includes (q_url example_order_request) "&leverage=10&" = true
  /\ includes (q_url example_order_request) "leverage=5" = false
  /\ assoc_get "leverage" (orderParams (VStr "LONG") example_settings) = Some (VNum 10)
  /\ VNum 10 <> VNum 5.
Proof.
  repeat split; try reflexivity. apply float_10_is_not_5.
Qed.

(* ================================================================== *)
(** * Cycles in flight *)
(* ================================================================== *)

Lemma park_length p pending :
  List.length (park p pending) <= S (List.length pending).
Proof.
  destruct p; cbn; rewrite ?length_app; cbn; lia.
Qed.

Lemma executing_le_length pending :
  executing pending <= List.length pending.
Proof. unfold executing. apply filter_length_le. Qed.

(** With at most one cycle parked, an event other than an untimely timer
    leaves at most one cycle parked. *)
Lemma loop_step_single rt pending e :
  List.length pending <= 1 ->
  match e with TimerFires _ _ _ => pending = [] | PromiseSettles _ _ => True end ->
  List.length (loop_step rt pending e) <= 1.
Proof.
  intros Hlen Hserial. destruct e as [settings md positions|i r]; cbn [loop_step].
  - subst pending. apply park_length.
  - destruct pending as [|p [|q rest]]; [| |cbn in Hlen; lia].
    + destruct i; cbn; lia.
    + destruct i as [|i]; cbn [nth_error].
      * destruct (resume p r); [apply park_length|exact Hlen].
      * destruct i; cbn; lia.
Qed.

Lemma serial_invariant rt es :
  forall pending,
    List.length pending <= 1 ->
    serial_from rt pending es ->
    forall k, List.length (fold_left (loop_step rt) (firstn k es) pending) <= 1.
Proof.
  induction es as [|e es IH]; intros pending Hlen Hserial k.
  - rewrite firstn_nil. exact Hlen.
  - destruct k as [|k]; [exact Hlen|].
    cbn [firstn fold_left]. destruct Hserial as [He Hrest].
    apply IH; [|exact Hrest]. apply loop_step_single; assumption.
Qed.

(** What a firing of the timer does to the cycles in flight. *)
Lemma timer_step rt pending settings md positions :
  (isAutoTrading settings = true ->
   forall m, md = Some m ->
   exists k,
     loop_step rt pending (TimerFires settings md positions)
     = (pending ++ [AwaitAnalyze settings m (PositionSide_str (active_side positions)) k])%list)
  /\ (isAutoTrading settings = false \/ md = None ->
      loop_step rt pending (TimerFires settings md positions) = pending).
Proof.
  cbn [loop_step]. unfold runTradingCycle. fold (active_side positions). split.
  - intros Hauto m ->. rewrite Hauto. cbn. eexists. reflexivity.
  - intros [Hoff| ->]; [|reflexivity].
    destruct md; [|reflexivity]. rewrite Hoff. reflexivity.
Qed.

(** The life of one cycle: after its analysis has settled it is over or at
    its execution step (live mode only), and after that step it is over. *)
Lemma cycle_life rt settings md positions r r' :
  (loop_run rt [TimerFires settings md positions; PromiseSettles 0 (AnalyzeSettled r)] = []
   \/ exists action price k,
        loop_run rt [TimerFires settings md positions; PromiseSettles 0 (AnalyzeSettled r)]
        = [AwaitExecuteTrade action settings price k]
        /\ isLiveMode settings = true
        /\ strict_eq_str action "WAIT" = false)
  /\ loop_run rt [TimerFires settings md positions;
                  PromiseSettles 0 (AnalyzeSettled r);
                  PromiseSettles 0 (ExecuteSettled r')] = [].
Proof.
  unfold loop_run. cbn [fold_left loop_step]. unfold runTradingCycle.
  destruct md as [m|]; [|split; [left|]; reflexivity].
  destruct (isAutoTrading settings); cbn; [|split; [left|]; reflexivity].
  destruct r as [decision|e]; cbn; [|split; [left|]; reflexivity].
  destruct (get rt decision "action") as [action|e]; cbn; [|split; [left|]; reflexivity].
  destruct (strict_eq_str action "WAIT") eqn:Hwait; cbn; [split; [left|]; reflexivity|].
  destruct (get rt decision "confidence") as [confidence|e]; cbn;
    [|split; [left|]; reflexivity].
  destruct (isLiveMode settings); cbn; [|split; [left|]; reflexivity].
  split.
  - right. eexists. eexists. eexists. split; [reflexivity|]. split; [reflexivity|exact Hwait].
  - destruct r'; reflexivity.
Qed.

(** Two firings in live mode before the first analysis has settled. *)
Lemma overlap_of_two_firings rt settings m positions settings' m' positions'
      decision action confidence decision' action' confidence' :
  isAutoTrading settings = true -> isLiveMode settings = true ->
  isAutoTrading settings' = true -> isLiveMode settings' = true ->
  get rt decision "action" = Ok action -> strict_eq_str action "WAIT" = false ->
  get rt decision "confidence" = Ok confidence ->
  get rt decision' "action" = Ok action' -> strict_eq_str action' "WAIT" = false ->
  get rt decision' "confidence" = Ok confidence' ->
  map phase_of
      (loop_run rt [ TimerFires settings (Some m) positions;
                     TimerFires settings' (Some m') positions';
                     PromiseSettles 0 (AnalyzeSettled (Ok decision));
                     PromiseSettles 0 (AnalyzeSettled (Ok decision')) ])
  = [EXECUTING; EXECUTING]
  /\ map phase_of
         (loop_run rt [ TimerFires settings (Some m) positions;
                        PromiseSettles 0 (AnalyzeSettled (Ok decision));
                        TimerFires settings' (Some m') positions' ])
     = [EXECUTING; ANALYZING].
Proof.
  intros Hauto Hlive Hauto' Hlive' Hact Hwait Hconf Hact' Hwait' Hconf'.
  unfold loop_run. cbn [fold_left loop_step]. unfold runTradingCycle.
  rewrite Hauto, Hauto'. cbn.
  rewrite Hact, Hwait, Hconf, Hlive. cbn.
  rewrite Hact', Hwait', Hconf', Hlive'. cbn.
  split; reflexivity.
Qed.

(** C2 (as the code has it).  The timer starts [runTradingCycle] at every
    firing: with auto-trading on and a snapshot present a new cycle begins
    its analysis whatever cycles are still in flight (nothing guards
    re-entry), and otherwise nothing starts.  A cycle has one analysis and at
    most one execution step, in live mode only, and is over once that has
    settled.  So on schedules in which the timer only fires once the previous
    cycle has fully resolved, at every moment at most one cycle is in flight,
    no analysis starts while an execution step is outstanding and no two
    EXECUTING phases overlap; whereas two firings in live mode whose analyses
    give actions other than WAIT leave two execution steps outstanding at
    once when both fire before the first analysis settles, and start an
    analysis beside an outstanding execution step when the second fires
    after it. *)
Theorem trading_timer_is_unguarded :
  forall rt,
    (forall pending settings m positions,
        isAutoTrading settings = true ->
        exists k,
          loop_step rt pending (TimerFires settings (Some m) positions)
          = (pending
             ++ [AwaitAnalyze settings m (PositionSide_str (active_side positions)) k])%list)
    /\ (forall pending settings md positions,
           isAutoTrading settings = false \/ md = None ->
           loop_step rt pending (TimerFires settings md positions) = pending)
    /\ (forall settings md positions r r',
           (loop_run rt [TimerFires settings md positions;
                         PromiseSettles 0 (AnalyzeSettled r)] = []
            \/ exists action price k,
                 loop_run rt [TimerFires settings md positions;
                              PromiseSettles 0 (AnalyzeSettled r)]
                 = [AwaitExecuteTrade action settings price k]
                 /\ isLiveMode settings = true
                 /\ strict_eq_str action "WAIT" = false)
           /\ loop_run rt [TimerFires settings md positions;
                           PromiseSettles 0 (AnalyzeSettled r);
                           PromiseSettles 0 (ExecuteSettled r')] = [])
    /\ (forall es,
           serial_from rt [] es ->
           forall n,
             List.length (loop_run rt (firstn n es)) <= 1
             /\ executing (loop_run rt (firstn n es)) <= 1)
    /\ (forall settings m positions settings' m' positions'
               decision action confidence decision' action' confidence',
           isAutoTrading settings = true -> isLiveMode settings = true ->
           isAutoTrading settings' = true -> isLiveMode settings' = true ->
           get rt decision "action" = Ok action -> strict_eq_str action "WAIT" = false ->
           get rt decision "confidence" = Ok confidence ->
           get rt decision' "action" = Ok action' -> strict_eq_str action' "WAIT" = false ->
           get rt decision' "confidence" = Ok confidence' ->
           map phase_of
               (loop_run rt [ TimerFires settings (Some m) positions;
                              TimerFires settings' (Some m') positions';
                              PromiseSettles 0 (AnalyzeSettled (Ok decision));
                              PromiseSettles 0 (AnalyzeSettled (Ok decision')) ])
           = [EXECUTING; EXECUTING]
           /\ map phase_of
                  (loop_run rt [ TimerFires settings (Some m) positions;
                                 PromiseSettles 0 (AnalyzeSettled (Ok decision));
                                 TimerFires settings' (Some m') positions' ])
              = [EXECUTING; ANALYZING]).
Proof.
  intro rt. split; [|split; [|split; [|split]]].
  - intros pending settings m positions Hauto.
    exact (proj1 (timer_step rt pending settings (Some m) positions) Hauto m eq_refl).
  - intros pending settings md positions H.
    exact (proj2 (timer_step rt pending settings md positions) H).
  - intros settings md positions r r'. apply cycle_life.
  - intros es Hserial n.
    assert (H : List.length (loop_run rt (firstn n es)) <= 1).
    { unfold loop_run. apply serial_invariant; [cbn; lia|exact Hserial]. }
    split; [exact H|].
    pose proof (executing_le_length (loop_run rt (firstn n es))). lia.
  - intros. apply (overlap_of_two_firings rt settings m positions settings' m' positions'
                     decision action confidence decision' action' confidence');
      assumption.
Qed.

Lemma serial_schedule_example :
  serial_from example_runtime [] serial_schedule
  /\ map phase_of (loop_run example_runtime (firstn 1 serial_schedule)) = [ANALYZING]
  /\ map phase_of (loop_run example_runtime (firstn 2 serial_schedule)) = [EXECUTING]
  /\ loop_run example_runtime (firstn 3 serial_schedule) = []
  /\ (forall n,
         List.length (loop_run example_runtime (firstn n serial_schedule)) <= 1
         /\ executing (loop_run example_runtime (firstn n serial_schedule)) <= 1)
  /\ map phase_of (loop_run example_runtime overlapping_schedule) = [EXECUTING; EXECUTING].
Proof.
  assert (Hs : serial_from example_runtime [] serial_schedule).
  { cbn. repeat split. }
  destruct (trading_timer_is_unguarded example_runtime)
    as (_ & _ & _ & Hserial & Hoverlap).
  split; [exact Hs|]. split; [reflexivity|]. split; [reflexivity|]. split; [reflexivity|].
  split; [exact (Hserial serial_schedule Hs)|].
  exact (proj1 (Hoverlap example_settings example_market [] example_settings example_market []
                  long_decision (VStr "LONG") (VNum 80)
                  long_decision (VStr "LONG") (VNum 80)
                  eq_refl eq_refl eq_refl eq_refl eq_refl eq_refl eq_refl
                  eq_refl eq_refl eq_refl)).
Defined.

(** C2 as stated fails: when the timer fires again before the first cycle
    has finished, two cycles reach their execution step and both are
    outstanding at once; and a cycle starts its analysis while another one is
    executing. *)
Lemma two_executions_overlap :
  map phase_of (loop_run example_runtime overlapping_schedule) = [EXECUTING; EXECUTING]
  /\ executing (loop_run example_runtime overlapping_schedule) = 2
  /\ map phase_of (loop_run example_runtime refire_during_execution)
     = [EXECUTING; ANALYZING].
Proof. repeat split. Qed.

(* ================================================================== *)
(** * Further properties of the gateway *)
(* ================================================================== *)

Lemma pure_ret {A} (a : A) : pure_m (ret a).
Proof. intro s. reflexivity. Qed.

Lemma pure_throw {A} (e : Exn) : pure_m (@throw A e).
Proof. intro s. reflexivity. Qed.

Lemma pure_lift {A} (r : Res A) : pure_m (lift r).
Proof. intro s. reflexivity. Qed.

Lemma pure_bind {A B} (m : M A) (k : A -> M B) :
  pure_m m -> (forall a, pure_m (k a)) -> pure_m (bind m k).
Proof.
  intros Hm Hk s. unfold bind. rewrite (Hm s).
  destruct (fst (m st0)) as [a|e] eqn:Hr.
  - rewrite (Hk a s).
    destruct (m st0) as [r0 s0] eqn:H0. cbn in Hr. subst r0.
    pose proof (Hm st0) as H1. rewrite H0 in H1. cbn in H1. inversion H1; subst s0.
    reflexivity.
  - destruct (m st0) as [r0 s0] eqn:H0. cbn in Hr. subst r0. reflexivity.
Qed.

Lemma pure_try_catch {A} (m : M A) (h : Exn -> M A) :
  pure_m m -> (forall e, pure_m (h e)) -> pure_m (try_catch m h).
Proof.
  intros Hm Hh s. unfold try_catch. rewrite (Hm s).
  destruct (fst (m st0)) as [a|e] eqn:Hr.
  - destruct (m st0) as [r0 s0] eqn:H0. cbn in Hr. subst r0. reflexivity.
  - rewrite (Hh e s).
    destruct (m st0) as [r0 s0] eqn:H0. cbn in Hr. subst r0.
    pose proof (Hm st0) as H1. rewrite H0 in H1. cbn in H1. inversion H1; subst s0.
    reflexivity.
Qed.

Ltac pure_step :=
  first [ apply pure_ret | apply pure_throw | apply pure_lift
        | apply pure_bind; [| intro]
        | apply pure_try_catch; [| intro]
        | match goal with
          | |- pure_m (if ?b then _ else _) => destruct b
          | |- pure_m (match ?x with _ => _ end) => destruct x
          end ].

Lemma pure_classify rt response : pure_m (classify rt response).
Proof. unfold classify, prop. repeat pure_step. Qed.

Lemma relabel_relabelled {A} (e : Exn) (s : St) :
  @relabel A e s = (Throw (relabelled e), s).
Proof.
  unfold relabel, relabelled.
  destruct (instanceof_TypeError e
            || match e with JsError _ m => includes m "fetch" | NonError => false end);
    reflexivity.
Qed.

(** An admitted private request is one dispatch followed by the
    classification of what came back. *)
Lemma privateRequest_outcome rt w baseUrl endpoint method settings params s :
  absent (mexcApiKey settings) || absent (mexcSecretKey settings) = false ->
  privateRequest rt w baseUrl endpoint method settings params s
  = (request_outcome rt
       (w_fetch w (List.length (trace s) + 2)
                (dispatched rt w baseUrl endpoint method settings params s)),
     mkSt (trace s ++ signed_dispatch rt w baseUrl endpoint method settings params s)%list
          (geminiClient s)).
Proof.
  intro Hkeys.
  pose proof (privateRequest_admitted rt w baseUrl endpoint method settings params s Hkeys)
    as Hst.
  destruct (privateRequest rt w baseUrl endpoint method settings params s) as [r s'] eqn:Hpr.
  cbn in Hst. subst s'. f_equal.
  apply (f_equal fst) in Hpr. cbn in Hpr. rewrite <- Hpr. clear Hpr.
  unfold privateRequest. rewrite Hkeys.
  unfold dispatched, request_outcome.
  set (t := w_now w (List.length (trace s))).
  set (q := URLSearchParams_toString rt (obj_set "timestamp" (VStr (Z_toString t)) params)).
  unfold bind at 1. unfold Date_now. cbn. fold t. fold q.
  unfold try_catch, bind, fetch. cbn.
  rewrite !length_app. cbn.
  replace (List.length (trace s) + 1 + 1) with (List.length (trace s) + 2) by lia.
  match goal with |- context [w_fetch w ?n ?r] => destruct (w_fetch w n r) as [resp|e] end; cbn.
  - match goal with |- context [classify rt resp ?s0] =>
      rewrite (pure_classify rt resp s0) end.
    destruct (fst (classify rt resp st0)) as [v|e]; cbn; [reflexivity|].
    rewrite relabel_relabelled. reflexivity.
  - rewrite relabel_relabelled. reflexivity.
Qed.

(** What a successfully classified response looks like. *)
Lemma classify_ok rt response v :
  fst (classify rt response st0) = Ok v ->
  r_ok response = true
  /\ JSON_parse rt (r_body response) = Ok v
  /\ (is_json_response response = true ->
      exists code, get rt v "code" = Ok code /\ code_accepted code = true).
Proof.
  unfold classify. fold (is_json_response response).
  destruct (is_json_response response) eqn:Hjson.
  - unfold bind, lift, prop, ret, throw. cbn.
    destruct (JSON_parse rt (r_body response)) as [result0|e] eqn:Hparse; cbn;
      [|discriminate].
    destruct (r_ok response) eqn:Hok; cbn.
    + destruct (get rt result0 "code") as [code|e] eqn:Hcode; cbn; [|discriminate].
      destruct (negb (is_undefined code) && negb (strict_eq_num code 200)
                && negb (strict_eq_num code 0)) eqn:Hbad; cbn.
      * destruct (get rt result0 "msg") as [msg|e]; cbn; [|discriminate].
        destruct (truthy msg); cbn; [discriminate|].
        destruct (get rt result0 "message") as [message|e]; cbn; [|discriminate].
        destruct (truthy message); cbn; [discriminate|].
        discriminate.
      * intro H. inversion H; subst. split; [reflexivity|]. split; [reflexivity|].
        intros _. exists code. split; [exact Hcode|].
        unfold code_accepted.
        destruct (is_undefined code), (strict_eq_num code 200), (strict_eq_num code 0);
          cbn in *; congruence.
    + destruct (get rt result0 "msg") as [msg|e]; cbn; [|discriminate].
      destruct (truthy msg); cbn; [discriminate|].
      destruct (get rt result0 "message") as [message|e]; cbn; [|discriminate].
      destruct (truthy message); cbn; [discriminate|].
      destruct (get rt result0 "code") as [code|e]; cbn; discriminate.
  - destruct (includes (r_body response) "cors-anywhere"
              && includes (r_body response) "corsdemo"); cbn; [discriminate|].
    destruct (r_ok response); cbn; [|discriminate].
    unfold try_catch, lift, throw.
    destruct (JSON_parse rt (r_body response)) as [v0|e]; cbn; [|discriminate].
    intro H. inversion H; subst. repeat split. intro Hc. discriminate Hc.
Qed.

(** X1.  [privateRequest] returns a payload only for a dispatched request
    whose response had a success status and whose body parses to that very
    payload; if the response was declared JSON, the payload's [code] is
    absent, 200 or 0.  No payload is ever returned for a failed response. *)
Theorem privateRequest_returns_only_accepted_payloads :
  forall rt w baseUrl endpoint method settings params s v s',
    privateRequest rt w baseUrl endpoint method settings params s = (Ok v, s') ->
    absent (mexcApiKey settings) || absent (mexcSecretKey settings) = false
    /\ exists response,
        w_fetch w (List.length (trace s) + 2)
                (dispatched rt w baseUrl endpoint method settings params s) = Ok response
        /\ r_ok response = true
        /\ JSON_parse rt (r_body response) = Ok v
        /\ (is_json_response response = true ->
            exists code, get rt v "code" = Ok code /\ code_accepted code = true).
Proof.
  intros rt w baseUrl endpoint method settings params s v s' H.
  destruct (absent (mexcApiKey settings) || absent (mexcSecretKey settings)) eqn:Hkeys.
  - unfold privateRequest in H. rewrite Hkeys in H. discriminate H.
  - split; [reflexivity|].
    rewrite (privateRequest_outcome _ _ _ _ _ _ _ _ Hkeys) in H.
    apply (f_equal fst) in H. cbn [fst] in H.
    unfold request_outcome in H.
    destruct (w_fetch w (List.length (trace s) + 2)
                (dispatched rt w baseUrl endpoint method settings params s))
      as [response|e]; [|discriminate H].
    exists response. split; [reflexivity|].
    destruct (fst (classify rt response st0)) as [v0|e] eqn:Hc; [|discriminate H].
    assert (v0 = v) by congruence. subst v0. apply classify_ok. exact Hc.
Qed.

Lemma accepted_payload_example :
  absent (mexcApiKey example_settings) || absent (mexcSecretKey example_settings) = false
  /\ exists response,
      w_fetch example_world (0 + 2)
              (dispatched example_runtime example_world baseFuturesUrl
                          "/futures/api/v1/private/position/open_details" "GET"
                          example_settings [] st0) = Ok response
      /\ r_ok response = true
      /\ JSON_parse example_runtime (r_body response) = Ok positions_payload
      /\ (is_json_response response = true ->
          exists code, get example_runtime positions_payload "code" = Ok code
                       /\ code_accepted code = true).
Proof.
  exact (privateRequest_returns_only_accepted_payloads example_runtime example_world
           baseFuturesUrl "/futures/api/v1/private/position/open_details" "GET"
           example_settings [] st0 positions_payload _ eq_refl).
Defined.

(** X2.  When the dispatch itself rejects with an [Error] instance (as
    [fetch] does), an admitted private request rejects with the CORS/Proxy
    error if that error is a [TypeError] or mentions "fetch" in its message,
    and with that very error otherwise. *)
Theorem transport_failure_is_relabelled :
  forall rt w baseUrl endpoint method settings params s k m,
    absent (mexcApiKey settings) || absent (mexcSecretKey settings) = false ->
    w_fetch w (List.length (trace s) + 2)
            (dispatched rt w baseUrl endpoint method settings params s)
    = Throw (JsError k m) ->
    fst (privateRequest rt w baseUrl endpoint method settings params s)
    = Throw (if instanceof_TypeError (JsError k m) || includes m "fetch"
             then cors_error else JsError k m).
Proof.
  intros rt w baseUrl endpoint method settings params s k m Hkeys Hfetch.
  rewrite (privateRequest_outcome _ _ _ _ _ _ _ _ Hkeys), Hfetch. cbn [fst request_outcome].
  unfold relabelled.
  destruct (instanceof_TypeError (JsError k m) || includes m "fetch"); reflexivity.
Qed.

Lemma transport_failure_example :
  fst (privateRequest example_runtime offline_world baseSpotUrl "/api/v3/account" "GET"
         example_settings [] st0)
  = Throw (if instanceof_TypeError (JsError KTypeError "Failed to fetch")
              || includes "Failed to fetch" "fetch"
           then cors_error else JsError KTypeError "Failed to fetch")
  /\ fst (privateRequest example_runtime offline_world baseSpotUrl "/api/v3/account" "GET"
            example_settings [] st0) = Throw cors_error.
Proof.
  split; [|reflexivity].
  exact (transport_failure_is_relabelled example_runtime offline_world baseSpotUrl
           "/api/v3/account" "GET" example_settings [] st0 KTypeError "Failed to fetch"
           eq_refl eq_refl).
Defined.

(** X3.  A JSON response that is a failure (status not ok, or a [code]
    other than 200 and 0) and carries a non-empty string [msg] makes the
    request reject with that message, except that a message containing
    "fetch" is replaced by the CORS/Proxy error. *)
Theorem exchange_message_is_surfaced :
  forall rt w baseUrl endpoint method settings params s response result0 m,
    absent (mexcApiKey settings) || absent (mexcSecretKey settings) = false ->
    w_fetch w (List.length (trace s) + 2)
            (dispatched rt w baseUrl endpoint method settings params s) = Ok response ->
    is_json_response response = true ->
    JSON_parse rt (r_body response) = Ok result0 ->
    get rt result0 "msg" = Ok (VStr m) ->
    m <> "" ->
    (r_ok response = false
     \/ exists code, get rt result0 "code" = Ok code /\ code_accepted code = false) ->
    fst (privateRequest rt w baseUrl endpoint method settings params s)
    = Throw (if includes m "fetch" then cors_error else Error m).
Proof.
  intros rt w baseUrl endpoint method settings params s response result0 m
         Hkeys Hfetch Hjson Hparse Hmsg Hm Hbad.
  rewrite (privateRequest_outcome _ _ _ _ _ _ _ _ Hkeys), Hfetch. cbn [fst].
  unfold request_outcome, classify. fold (is_json_response response). rewrite Hjson.
  unfold bind, lift, prop, ret, throw. rewrite Hparse. cbn.
  assert (Htruthy : truthy (VStr m) = true).
  { cbn. unfold str_eqb. destruct (String.eqb_spec m ""); [contradiction|reflexivity]. }
  assert (Hthrown : relabelled (Error_of rt (VStr m))
                    = if includes m "fetch" then cors_error else Error m).
  { unfold relabelled. cbn. destruct (includes m "fetch"); reflexivity. }
  destruct Hbad as [Hok|(code & Hcode & Hacc)].
  - rewrite Hok. cbn. rewrite Hmsg. cbn -[truthy relabelled Error_of]. rewrite Htruthy.
      cbn -[relabelled Error_of]. rewrite Hthrown. reflexivity.
  - destruct (r_ok response); cbn.
    + rewrite Hcode. cbn. unfold code_accepted in Hacc.
      destruct (is_undefined code), (strict_eq_num code 200), (strict_eq_num code 0);
        cbn in Hacc; try discriminate Hacc.
      cbn. rewrite Hmsg. cbn -[truthy relabelled Error_of]. rewrite Htruthy.
      cbn -[relabelled Error_of]. rewrite Hthrown. reflexivity.
    + rewrite Hmsg. cbn -[truthy relabelled Error_of]. rewrite Htruthy.
      cbn -[relabelled Error_of]. rewrite Hthrown. reflexivity.
Qed.

(** X4.  A response declared JSON whose body is the document [null] makes
    the request reject with the CORS/Proxy error, whatever its status: the
    property read on [null] is a [TypeError], which the [catch] relabels. *)
Theorem null_body_is_reported_as_cors_error :
  forall rt w baseUrl endpoint method settings params s response,
    absent (mexcApiKey settings) || absent (mexcSecretKey settings) = false ->
    w_fetch w (List.length (trace s) + 2)
            (dispatched rt w baseUrl endpoint method settings params s) = Ok response ->
    is_json_response response = true ->
    JSON_parse rt (r_body response) = Ok VNull ->
    fst (privateRequest rt w baseUrl endpoint method settings params s) = Throw cors_error.
Proof.
  intros rt w baseUrl endpoint method settings params s response Hkeys Hfetch Hjson Hparse.
  rewrite (privateRequest_outcome _ _ _ _ _ _ _ _ Hkeys), Hfetch. cbn [fst].
  unfold request_outcome, classify. fold (is_json_response response). rewrite Hjson.
  unfold bind, lift, prop, ret, throw. rewrite Hparse. cbn.
  destruct (r_ok response); reflexivity.
Qed.

Lemma exchange_message_example :
  fst (privateRequest gateway_runtime (answering "error") baseFuturesUrl order_create "POST"
         example_settings (orderParams (VStr "LONG") example_settings) st0)
  = Throw (if includes "Signature verification failed" "fetch"
           then cors_error else Error "Signature verification failed").
Proof.
  eapply (exchange_message_is_surfaced gateway_runtime (answering "error") baseFuturesUrl
            order_create "POST" example_settings
            (orderParams (VStr "LONG") example_settings) st0
            (json_response "error") error_payload "Signature verification failed");
    try reflexivity.
  - discriminate.
  - right. exists (VNum 602). split; reflexivity.
Defined.

Lemma null_body_example :
  fst (privateRequest gateway_runtime (answering "null") baseSpotUrl "/api/v3/account" "GET"
         example_settings [] st0) = Throw cors_error.
Proof.
  apply (null_body_is_reported_as_cors_error gateway_runtime (answering "null") baseSpotUrl
           "/api/v3/account" "GET" example_settings [] st0 (json_response "null"));
    reflexivity.
Defined.

(** ** Forwarding and the query string *)

Lemma string_app_inv_head (p a b : string) : p ++ a = p ++ b -> a = b.
Proof.
  induction p as [|c p IH]; cbn; intro H; [exact H|].
  apply IH. congruence.
Qed.

Lemma encodeURIComponent_injective (a b : string) :
  encodeURIComponent a = encodeURIComponent b -> a = b.
Proof.
  intro H. rewrite <- (decode_encodeURIComponent a), <- (decode_encodeURIComponent b).
  rewrite H. reflexivity.
Qed.

(** X5.  Forwarding never conflates two targets: whatever forwarder is
    configured, two target URLs that give the same request URL are equal. *)
Theorem requestUrl_injective :
  forall settings t1 t2,
    requestUrl settings t1 = requestUrl settings t2 -> t1 = t2.
Proof.
  intros settings t1 t2. unfold requestUrl.
  destruct (corsProxyUrl settings) as [p|]; [|exact (fun H => H)].
  destruct (negb (absent p) && negb (str_eqb (trim p) "")); [|exact (fun H => H)].
  destruct (includes (trim p) "?url=").
  - intro H. apply encodeURIComponent_injective.
    exact (string_app_inv_head _ _ _ H).
  - intro H. apply string_app_inv_head in H. apply string_app_inv_head in H. exact H.
Qed.

Lemma requestUrl_injective_example :
  requestUrl (with_proxy example_settings query_forwarder) "https://fapi.mexc.com/a?b=1&c=2"
  = "https://proxy.example/?url=https%3A%2F%2Ffapi.mexc.com%2Fa%3Fb%3D1%26c%3D2"
  /\ "https://fapi.mexc.com/a?b=1&c=2" = "https://fapi.mexc.com/a?b=1&c=2".
Proof.
  split; [reflexivity|].
  exact (requestUrl_injective (with_proxy example_settings query_forwarder)
           "https://fapi.mexc.com/a?b=1&c=2" "https://fapi.mexc.com/a?b=1&c=2" eq_refl).
Defined.

Lemma form_decode_encode_byte (c : ascii) (rest : string) :
  form_decode (form_encode_byte c ++ rest) = String c (form_decode rest).
Proof.
  destruct c as [[] [] [] [] [] [] [] []]; reflexivity.
Qed.

Lemma form_encode_byte_safe (c : ascii) :
  Forall (fun x => form_safe x = true) (list_ascii_of_string (form_encode_byte c)).
Proof.
  destruct c as [[] [] [] [] [] [] [] []]; cbn; repeat constructor.
Qed.

Lemma list_ascii_of_string_app (a b : string) :
  list_ascii_of_string (a ++ b) = (list_ascii_of_string a ++ list_ascii_of_string b)%list.
Proof.
  induction a as [|c a IH]; cbn; [reflexivity|]. rewrite IH. reflexivity.
Qed.

Lemma join_amp_chars (P : ascii -> Prop) (l : list string) :
  P "&"%char ->
  Forall (fun x => Forall P (list_ascii_of_string x)) l ->
  Forall P (list_ascii_of_string (join_amp l)).
Proof.
  intros Hamp Hl. induction Hl as [|x l Hx Hl IH]; [constructor|].
  destruct l as [|y l]; [exact Hx|].
  change (join_amp (x :: y :: l)) with (x ++ "&" ++ join_amp (y :: l)).
  rewrite !list_ascii_of_string_app. apply Forall_app. split; [exact Hx|].
  apply Forall_app. split; [repeat constructor; exact Hamp|exact IH].
Qed.

(** X6.  The query string that is signed is unambiguous.  Each key and
    value is serialized to letters, digits and [* - . _ + %] only, from
    which decoding gives the original text back; so in the whole query the
    only [&] and [=] are the separators the gateway puts there, and no [?],
    [#] or space occurs. *)
Theorem form_encode_is_safe_and_reversible :
  forall rt (o : list (string * jsval)) s,
    form_decode (form_encode s) = s
    /\ Forall (fun c => form_safe c = true) (list_ascii_of_string (form_encode s))
    /\ Forall (fun c => ascii_in c "&=?# " = false) (list_ascii_of_string (form_encode s))
    /\ Forall (fun c => form_safe c || ascii_in c "&=" = true)
              (list_ascii_of_string (URLSearchParams_toString rt o)).
Proof.
  intros rt o s.
  assert (Hsafe : forall t, Forall (fun c => form_safe c = true)
                                   (list_ascii_of_string (form_encode t))).
  { induction t as [|c r IH]; cbn [form_encode]; [constructor|].
    rewrite list_ascii_of_string_app. apply Forall_app. split; [|exact IH].
    apply form_encode_byte_safe. }
  split; [|split; [apply Hsafe|split]].
  - induction s as [|c r IH]; [reflexivity|].
    cbn [form_encode]. rewrite form_decode_encode_byte, IH. reflexivity.
  - eapply Forall_impl; [|apply Hsafe].
    intros c Hc.
    destruct c as [[] [] [] [] [] [] [] []]; try reflexivity; vm_compute in Hc; discriminate Hc.
  - unfold URLSearchParams_toString. apply join_amp_chars; [reflexivity|].
    apply Forall_forall. intros x Hx. apply in_map_iff in Hx.
    destruct Hx as ([k v] & <- & _). cbn [fst snd].
    rewrite !list_ascii_of_string_app. apply Forall_app. split.
    + eapply Forall_impl; [|apply Hsafe]. intros c Hc. rewrite Hc. reflexivity.
    + apply Forall_app. split; [repeat constructor|].
      eapply Forall_impl; [|apply Hsafe]. intros c Hc. rewrite Hc. reflexivity.
Qed.

Lemma str_eqb_refl (k : string) : str_eqb k k = true.
Proof. unfold str_eqb. apply String.eqb_refl. Qed.

(** X7.  The spread [{ ...params, timestamp }]: afterwards the key holds the
    new value, whether or not [params] already had it; every other key
    holds what it held; and the key occurs once if it occurred at most once
    before (a key that was present keeps its position, a new one goes
    last). *)
Theorem obj_set_lookup :
  forall (k : string) (v : jsval) (o : list (string * jsval)),
    assoc_get k (obj_set k v o) = Some v
    /\ (forall k', str_eqb k' k = false -> assoc_get k' (obj_set k v o) = assoc_get k' o)
    /\ map fst (obj_set k v o)
       = match assoc_get k o with
         | Some _ => map fst o
         | None => (map fst o ++ [k])%list
         end.
Proof.
  intros k v o. induction o as [|[k0 v0] o (IH1 & IH2 & IH3)].
  - cbn. rewrite str_eqb_refl. repeat split.
    intros k' H. rewrite H. reflexivity.
  - cbn [obj_set assoc_get]. destruct (str_eqb k k0) eqn:Hk.
    + cbn [assoc_get]. rewrite str_eqb_refl.
      unfold str_eqb in Hk. apply String.eqb_eq in Hk. subst k0.
      split; [reflexivity|]. split; [|reflexivity].
      intros k' H. rewrite H. reflexivity.
    + cbn [assoc_get]. rewrite Hk. split; [exact IH1|]. split.
      * intros k' H. destruct (str_eqb k' k0); [reflexivity|]. apply IH2. exact H.
      * cbn [map fst]. rewrite IH3. destruct (assoc_get k o); reflexivity.
Qed.

(** ** The signature's hexadecimal rendering *)

Lemma from_hex_byte (b : ascii) (rest : string) :
  from_hex (padStart2 (byte_toString16 b) ++ rest) = b :: from_hex rest.
Proof.
  destruct b as [[] [] [] [] [] [] [] []]; reflexivity.
Qed.

Lemma hex_byte_shape (b : ascii) :
  String.length (padStart2 (byte_toString16 b)) = 2
  /\ Forall (fun c => is_hex_lower c = true)
            (list_ascii_of_string (padStart2 (byte_toString16 b))).
Proof.
  destruct b as [[] [] [] [] [] [] [] []]; (split; [reflexivity|cbn; repeat constructor]).
Qed.

Lemma string_length_app (a b : string) :
  String.length (a ++ b) = String.length a + String.length b.
Proof.
  induction a as [|c a IH]; cbn; [reflexivity|]. rewrite IH. reflexivity.
Qed.

(** X8.  The rendering of signature bytes is two lower-case hexadecimal
    digits per byte (bytes below 16 are padded with a zero), and reading the
    digits back pairwise gives the bytes again, so distinct signatures have
    distinct renderings. *)
Theorem to_hex_shape_and_roundtrip :
  forall sig : list ascii,
    String.length (to_hex sig) = 2 * List.length sig
    /\ Forall (fun c => is_hex_lower c = true) (list_ascii_of_string (to_hex sig))
    /\ from_hex (to_hex sig) = sig.
Proof.
  unfold to_hex. induction sig as [|b sig (IH1 & IH2 & IH3)]; [repeat split; constructor|].
  cbn [map join_empty]. destruct (hex_byte_shape b) as [Hlen Hhex].
  split; [|split].
  - rewrite string_length_app, Hlen, IH1. cbn [List.length]. lia.
  - rewrite list_ascii_of_string_app. apply Forall_app. split; assumption.
  - rewrite from_hex_byte, IH3. reflexivity.
Qed.

(* ================================================================== *)
(** * The endpoint mappers *)
(* ================================================================== *)

Lemma bind_ok {A B} (m : M A) (k : A -> M B) s a s1 :
  m s = (Ok a, s1) -> bind m k s = k a s1.
Proof. intro H. unfold bind. rewrite H. reflexivity. Qed.


Lemma mapM_Forall2 {A B} (f : A -> M B) (R : A -> B -> Prop) :
  (forall x s y s', f x s = (Ok y, s') -> R x y) ->
  forall l s ys s', mapM f l s = (Ok ys, s') -> Forall2 R l ys.
Proof.
  intros Hf. induction l as [|x l IH]; intros s ys s' H.
  - cbn in H. inversion H. constructor.
  - cbn in H. unfold bind in H.
    destruct (f x s) as [[y|e] s1] eqn:Hx; [|discriminate H].
    destruct (mapM f l s1) as [[zs|e] s2] eqn:Hl; [|discriminate H].
    cbn in H. inversion H; subst. constructor.
    + eapply Hf; eassumption.
    + eapply IH; eassumption.
Qed.

Lemma or_random_id_truthy rt w v s id s' :
  or_random_id rt w v s = (Ok id, s') ->
  (truthy v = true /\ id = v)
  \/ (truthy v = false /\ exists r, id = VStr (number_toString rt r)).
Proof.
  unfold or_random_id. destruct (truthy v) eqn:Hv.
  - intro H. inversion H. left. split; reflexivity.
  - unfold bind, Math_random, emit, ret. cbn. intro H. inversion H.
    right. split; [reflexivity|]. eexists. reflexivity.
Qed.

(** X9.  [getSpotBalance] returns only balances above the dust threshold:
    every returned record has numeric [available] and [frozen], a [total]
    that is their binary64 sum, and [total > 0.00001]. *)
Theorem spot_balances_are_above_dust :
  forall rt w settings s l,
    fst (getSpotBalance rt w settings s) = Ok l ->
    Forall (fun b =>
              exists free locked,
                bal_available b = VNum free
                /\ bal_frozen b = VNum locked
                /\ bal_total b = VNum (free + locked)
                /\ PrimFloat.ltb 0.00001 (free + locked) = true)
           l.
Proof.
  intros rt w settings s l H.
  unfold getSpotBalance in H. unfold bind at 1 in H.
  destruct (privateRequest _ _ _ _ _ _ _ s) as [[data|e] s1]; [|discriminate H].
  unfold bind at 1 in H. unfold prop at 1, lift in H.
  destruct (get rt data "balances") as [balances|e]; [|discriminate H].
  unfold bind at 1 in H.
  match type of H with
    fst (match js_map rt ?v ?f ?s0 with _ => _ end) = _ =>
      destruct (js_map rt v f s0) as [[mapped|e] s2] eqn:Hm; [|discriminate H];
      assert (Hall : Forall (fun b => exists free locked,
                                 bal_available b = VNum free
                                 /\ bal_frozen b = VNum locked
                                 /\ bal_total b = VNum (free + locked)) mapped)
  end.
  { unfold js_map in Hm.
    destruct (js_or balances (VArr [])); try discriminate Hm.
    refine (mapM_Forall _ _ _ _ _ _ _ Hm).
    clear. intros x s y s' Hx.
    unfold bind, prop, lift, ret in Hx. run_inv Hx.
    inversion Hx; subst. cbn. eexists. eexists. repeat split. }
  cbn in H. inversion H; subst l. clear H.
  apply Forall_forall. intros b Hb. apply filter_In in Hb. destruct Hb as [Hin Hgt].
  rewrite Forall_forall in Hall. destruct (Hall b Hin) as (free & locked & Ha & Hf & Ht).
  exists free, locked. rewrite Ht in Hgt. cbn in Hgt. repeat split; assumption.
Qed.

Lemma spot_balances_example :
  fst (getSpotBalance gateway_runtime (answering "balances") example_settings st0)
  = Ok [usdt_balance]
  /\ Forall (fun b =>
               exists free locked,
                 bal_available b = VNum free
                 /\ bal_frozen b = VNum locked
                 /\ bal_total b = VNum (free + locked)
                 /\ PrimFloat.ltb 0.00001 (free + locked) = true)
            [usdt_balance].
Proof.
  split; [vm_compute; reflexivity|].
  exact (spot_balances_are_above_dust gateway_runtime (answering "balances")
           example_settings st0 [usdt_balance] eq_refl).
Defined.

(** X10.  When [getOpenPositions] returns, the payload's [data] was either
    falsy, and the result is empty, or an array, and the result has one
    position per entry, in order: its side is LONG when the entry's
    [positionType] is the number 1 and SHORT otherwise (never NONE), its
    other fields are the entry's, and its id is the entry's [positionId]
    or, when that is falsy, a freshly drawn random number's text. *)
Theorem open_positions_follow_the_payload :
  forall rt w settings s l,
    fst (getOpenPositions rt w settings s) = Ok l ->
    exists result0 data,
      fst (privateRequest rt w baseFuturesUrl
             "/futures/api/v1/private/position/open_details" "GET" settings [] s)
      = Ok result0
      /\ get rt result0 "data" = Ok data
      /\ ((truthy data = false /\ l = [])
          \/ exists entries, data = VArr entries /\ Forall2 (position_of_entry rt) entries l)
      /\ Forall (fun p => pos_side p <> NONE) l.
Proof.
  intros rt w settings s l H.
  unfold getOpenPositions in H. unfold bind at 1 in H.
  destruct (privateRequest _ _ _ _ _ _ _ s) as [[result0|e] s1]; [|discriminate H].
  unfold bind at 1 in H. unfold prop at 1, lift in H.
  destruct (get rt result0 "data") as [data|e] eqn:Hdata; [|discriminate H].
  exists result0, data. split; [reflexivity|]. split; [exact Hdata|].
  destruct (truthy data) eqn:Htruthy; cbn [negb] in H.
  - destruct data; cbn in H; try discriminate H.
    match type of H with fst (mapM ?f ?l0 ?s0) = _ =>
      destruct (mapM f l0 s0) as [[ys|e] s2] eqn:Hm; [|discriminate H];
      cbn in H; inversion H; subst ys;
      assert (HR : Forall2 (position_of_entry rt) l0 l)
    end.
    { refine (mapM_Forall2 _ _ _ _ _ _ _ Hm).
      clear. intros x s y s' Hx.
      unfold bind at 1 in Hx. unfold prop at 1, lift in Hx.
      destruct (get rt x "positionId") as [pid|e] eqn:Hpid; [|discriminate Hx].
      unfold bind at 1 in Hx.
      destruct (or_random_id rt w pid s) as [[id|e] s1] eqn:Hid; [|discriminate Hx].
      apply or_random_id_truthy in Hid.
      unfold bind, prop, lift, ret in Hx. run_inv Hx.
      inversion Hx; subst. unfold position_of_entry. cbn.
      eexists. repeat (split; [first [eassumption|reflexivity]|]).
      exists pid. split; [exact Hpid|exact Hid]. }
    split; [right; eexists; split; [reflexivity|exact HR]|].
    clear -HR. induction HR as [|x y l0 l Hxy _ IH]; constructor; [|exact IH].
    destruct Hxy as (pt & _ & Hside & _). rewrite Hside.
    destruct (strict_eq_num pt 1); discriminate.
  - cbn in H. inversion H; subst l. split; [left; split; reflexivity|constructor].
Qed.

Lemma open_positions_example :
  exists result0 data,
    fst (privateRequest example_runtime example_world baseFuturesUrl
           "/futures/api/v1/private/position/open_details" "GET" example_settings [] st0)
    = Ok result0
    /\ get example_runtime result0 "data" = Ok data
    /\ ((truthy data = false /\ [zero_margin_position] = [])
        \/ exists entries,
             data = VArr entries
             /\ Forall2 (position_of_entry example_runtime) entries [zero_margin_position])
    /\ Forall (fun p => pos_side p <> NONE) [zero_margin_position].
Proof.
  exact (open_positions_follow_the_payload example_runtime example_world example_settings
           st0 [zero_margin_position] eq_refl).
Defined.

(** X11.  When [getFuturesBalance], [getOpenOrders] or [getTradeHistory]
    returns, the payload's [data] was either falsy, and the result is empty,
    or an array, and the result has one record per entry, in order.  An
    order's or trade's side is BUY when the entry's [side] is the number 1
    and SELL otherwise; an order's type is LIMIT when [type] is 1 and MARKET
    otherwise, its status always OPEN; a trade's pnl is [realisedPnl], or 0
    when that is falsy; all other fields are the entry's. *)
Theorem data_endpoints_follow_the_payload :
  forall rt w settings s,
    (forall l, fst (getFuturesBalance rt w settings s) = Ok l ->
               follows_payload rt (balance_of_entry rt)
                 (fst (privateRequest rt w baseFuturesUrl
                         "/futures/api/v1/private/account/assets" "GET" settings [] s)) l)
    /\ (forall l, fst (getOpenOrders rt w settings s) = Ok l ->
                  follows_payload rt (order_of_entry rt)
                    (fst (privateRequest rt w baseFuturesUrl
                            "/futures/api/v1/private/order/list/open_orders" "GET"
                            settings [] s)) l)
    /\ (forall l, fst (getTradeHistory rt w settings s) = Ok l ->
                  follows_payload rt (trade_of_entry rt)
                    (fst (privateRequest rt w baseFuturesUrl
                            "/futures/api/v1/private/order/list/history_orders" "GET"
                            settings [("states", VStr "3,4")] s)) l).
Proof.
  intros rt w settings s. split; [|split]; intros l H.
  - unfold getFuturesBalance in H. unfold bind at 1 in H.
    destruct (privateRequest _ _ _ _ _ _ _ s) as [[result0|e] s1]; [|discriminate H].
    unfold bind at 1 in H. unfold prop at 1, lift in H.
    destruct (get rt result0 "data") as [data|e] eqn:Hdata; [|discriminate H].
    exists result0, data. split; [reflexivity|]. split; [exact Hdata|].
    destruct (truthy data) eqn:Htruthy; cbn [negb] in H.
    + destruct data; cbn in H; try discriminate H.
      match type of H with fst (mapM ?f ?l0 ?s0) = _ =>
        destruct (mapM f l0 s0) as [[ys|e] s2] eqn:Hm; [|discriminate H] end.
      cbn in H. inversion H; subst ys. right. eexists. split; [reflexivity|].
      refine (mapM_Forall2 _ _ _ _ _ _ _ Hm).
      clear. intros x s y s' Hx.
      unfold bind, prop, lift, ret in Hx. run_inv Hx.
      inversion Hx; subst. unfold balance_of_entry. cbn. repeat split; assumption.
    + cbn in H. inversion H. left. split; reflexivity.
  - unfold getOpenOrders in H. unfold bind at 1 in H.
    destruct (privateRequest _ _ _ _ _ _ _ s) as [[result0|e] s1]; [|discriminate H].
    unfold bind at 1 in H. unfold prop at 1, lift in H.
    destruct (get rt result0 "data") as [data|e] eqn:Hdata; [|discriminate H].
    exists result0, data. split; [reflexivity|]. split; [exact Hdata|].
    destruct (truthy data) eqn:Htruthy; cbn [negb] in H.
    + destruct data; cbn in H; try discriminate H.
      match type of H with fst (mapM ?f ?l0 ?s0) = _ =>
        destruct (mapM f l0 s0) as [[ys|e] s2] eqn:Hm; [|discriminate H] end.
      cbn in H. inversion H; subst ys. right. eexists. split; [reflexivity|].
      refine (mapM_Forall2 _ _ _ _ _ _ _ Hm).
      clear. intros x s y s' Hx.
      unfold bind, prop, lift, ret in Hx. run_inv Hx.
      inversion Hx; subst. unfold order_of_entry. cbn.
      eexists. eexists. repeat split; first [eassumption|reflexivity].
    + cbn in H. inversion H. left. split; reflexivity.
  - unfold getTradeHistory in H. unfold bind at 1 in H.
    destruct (privateRequest _ _ _ _ _ _ _ s) as [[result0|e] s1]; [|discriminate H].
    unfold bind at 1 in H. unfold prop at 1, lift in H.
    destruct (get rt result0 "data") as [data|e] eqn:Hdata; [|discriminate H].
    exists result0, data. split; [reflexivity|]. split; [exact Hdata|].
    destruct (truthy data) eqn:Htruthy; cbn [negb] in H.
    + destruct data; cbn in H; try discriminate H.
      match type of H with fst (mapM ?f ?l0 ?s0) = _ =>
        destruct (mapM f l0 s0) as [[ys|e] s2] eqn:Hm; [|discriminate H] end.
      cbn in H. inversion H; subst ys. right. eexists. split; [reflexivity|].
      refine (mapM_Forall2 _ _ _ _ _ _ _ Hm).
      clear. intros x s y s' Hx.
      unfold bind, prop, lift, ret in Hx. run_inv Hx.
      inversion Hx; subst. unfold trade_of_entry, js_or. cbn.
      eexists. eexists. repeat split; first [eassumption|reflexivity].
    + cbn in H. inversion H. left. split; reflexivity.
Qed.

Lemma get_readable rt v k :
  readable v = true -> exists x, get rt v k = Ok x.
Proof.
  unfold get, js_get. destruct v; intro H; try discriminate H; eexists; reflexivity.
Qed.

Lemma get_unreadable rt v k :
  readable v = false -> get rt v k = Throw (JsError KTypeError (cannot_read rt)).
Proof.
  unfold get, js_get. destruct v; intro H; try discriminate H; reflexivity.
Qed.

Lemma mapM_all_ok {A B} (f : A -> M B) (ok : A -> bool) :
  (forall x s, ok x = true -> exists y s', f x s = (Ok y, s')) ->
  forall l s, forallb ok l = true -> exists ys s', mapM f l s = (Ok ys, s').
Proof.
  intros Hf. induction l as [|x l IH]; intros s Hl.
  - eexists. eexists. reflexivity.
  - cbn in Hl. apply andb_prop in Hl. destruct Hl as [Hx Hl].
    destruct (Hf x s Hx) as (y & s1 & Hy).
    destruct (IH s1 Hl) as (ys & s2 & Hys).
    exists (y :: ys), s2. cbn [mapM]. unfold bind. rewrite Hy, Hys. reflexivity.
Qed.

Lemma mapM_some_fail {A B} (f : A -> M B) (ok : A -> bool) :
  (forall x s, ok x = true -> exists y s', f x s = (Ok y, s')) ->
  (forall x s, ok x = false -> exists e s', f x s = (Throw e, s')) ->
  forall l s, forallb ok l = false -> exists e s', mapM f l s = (Throw e, s').
Proof.
  intros Hok Hfail. induction l as [|x l IH]; intros s Hl; [discriminate Hl|].
  cbn in Hl. cbn [mapM]. unfold bind. destruct (ok x) eqn:Hx.
  - destruct (Hok x s Hx) as (y & s1 & Hy). rewrite Hy.
    destruct (IH s1 Hl) as (e & s2 & He). rewrite He. eexists. eexists. reflexivity.
  - destruct (Hfail x s Hx) as (e & s1 & He). rewrite He. eexists. eexists. reflexivity.
Qed.

(** The mapping of one deposit entry succeeds exactly on readable entries. *)
Lemma transfer_entry_readable rt w (x : jsval) (s : St) :
  readable x = true ->
  exists y s',
    (tid <- prop rt x "id" ;;
     id <- or_random_id rt w tid ;;
     coin <- prop rt x "coin" ;;
     amount <- prop rt x "amount" ;;
     status <- prop rt x "status" ;;
     insertTime <- prop rt x "insertTime" ;;
     ret (mkMexcTransfer id coin (parseFloat rt amount) "DEPOSIT"
            (if strict_eq_num status 1 then "SUCCESS" else "PENDING")
            insertTime))%m s = (Ok y, s').
Proof.
  intro Hx.
  destruct (get_readable rt x "id" Hx) as [tid Htid].
  destruct (get_readable rt x "coin" Hx) as [coin Hcoin].
  destruct (get_readable rt x "amount" Hx) as [amount Hamount].
  destruct (get_readable rt x "status" Hx) as [status Hstatus].
  destruct (get_readable rt x "insertTime" Hx) as [insertTime Htime].
  unfold bind, prop, lift, ret, or_random_id, Math_random, emit.
  rewrite Htid. destruct (truthy tid); cbn;
    rewrite Hcoin, Hamount, Hstatus, Htime; cbn; eexists; eexists; reflexivity.
Qed.

Lemma transfer_entry_unreadable rt w (x : jsval) (s : St) :
  readable x = false ->
  exists e s',
    (tid <- prop rt x "id" ;;
     id <- or_random_id rt w tid ;;
     coin <- prop rt x "coin" ;;
     amount <- prop rt x "amount" ;;
     status <- prop rt x "status" ;;
     insertTime <- prop rt x "insertTime" ;;
     ret (mkMexcTransfer id coin (parseFloat rt amount) "DEPOSIT"
            (if strict_eq_num status 1 then "SUCCESS" else "PENDING")
            insertTime))%m s = (Throw e, s').
Proof.
  intro Hx. unfold bind at 1. unfold prop at 1, lift.
  rewrite (get_unreadable rt x "id" Hx). eexists. eexists. reflexivity.
Qed.

(** X12.  Given the payload of the deposit-history request:
    a payload that is not an array (an error object, say) gives the empty
    sequence; an array all of whose entries are readable (none is [null])
    gives one transfer per entry, in order, each of type DEPOSIT, with status
    SUCCESS when the entry's [status] is the number 1 and PENDING otherwise
    and the amount parsed from the entry; an array with an unreadable entry
    gives the empty sequence. *)
Theorem transfers_follow_the_payload :
  forall rt w settings s result0,
    fst (privateRequest rt w baseSpotUrl deposit_history "GET" settings [] s) = Ok result0 ->
    (isArray result0 = false -> fst (getTransferHistory rt w settings s) = Ok [])
    /\ (forall entries,
           result0 = VArr entries ->
           (forallb readable entries = true ->
            exists l,
              fst (getTransferHistory rt w settings s) = Ok l
              /\ Forall2 (transfer_of_entry rt) entries l)
           /\ (forallb readable entries = false ->
               fst (getTransferHistory rt w settings s) = Ok [])).
Proof.
  intros rt w settings s result0 Hreq.
  unfold deposit_history in Hreq.
  destruct (privateRequest rt w baseSpotUrl "/api/v3/capital/deposit/hisrec" "GET"
              settings [] s) as [[r|e] s1] eqn:Hpr; cbn in Hreq; [|discriminate Hreq].
  assert (r = result0) by congruence. subst r.
  unfold getTransferHistory, try_catch. rewrite (bind_ok _ _ _ _ _ Hpr). split.
  - intros ->. reflexivity.
  - intros entries ->. cbn [isArray negb js_map]. split.
    + intro Hall.
      match goal with |- context [mapM ?f entries s1] =>
        destruct (mapM_all_ok f readable (transfer_entry_readable rt w) entries s1 Hall)
          as (ys & s2 & Hm) end.
      rewrite Hm. exists ys. split; [reflexivity|].
      refine (mapM_Forall2 _ _ _ _ _ _ _ Hm).
      clear. intros x s y s' Hx.
      unfold bind at 1 in Hx. unfold prop at 1, lift in Hx.
      destruct (get rt x "id") as [tid|e] eqn:Htid; [|discriminate Hx].
      unfold bind at 1 in Hx.
      destruct (or_random_id rt w tid s) as [[id|e] s1] eqn:Hid; [|discriminate Hx].
      apply or_random_id_truthy in Hid.
      unfold bind, prop, lift, ret in Hx. run_inv Hx.
      inversion Hx; subst. unfold transfer_of_entry. cbn.
      eexists. eexists. repeat (split; [first [eassumption|reflexivity]|]).
      exists tid. split; [exact Htid|exact Hid].
    + intro Hsome.
      match goal with |- context [mapM ?f entries s1] =>
        destruct (mapM_some_fail f readable (transfer_entry_readable rt w)
                    (transfer_entry_unreadable rt w) entries s1 Hsome)
          as (e & s2 & Hm) end.
      rewrite Hm. reflexivity.
Qed.

Lemma transfers_example :
  forallb readable [VObj []; VNull] = false
  /\ (exists l,
         fst (getTransferHistory gateway_runtime (answering "transfers") example_settings st0)
         = Ok l
         /\ Forall2 (transfer_of_entry gateway_runtime)
                    [ VObj [ ("id", VStr "d1"); ("coin", VStr "USDT");
                             ("amount", VStr "1000"); ("status", VNum 1);
                             ("insertTime", VNum 1700000000000) ];
                      VObj [ ("coin", VStr "BTC"); ("amount", VStr "2.1");
                             ("status", VNum 0) ] ] l)
  /\ fst (getTransferHistory gateway_runtime (answering "transfers") example_settings st0)
     = Ok [first_transfer; second_transfer]
  /\ fst (getTransferHistory gateway_runtime (answering "error") example_settings st0)
     = Ok [].
Proof.
  pose proof (transfers_follow_the_payload gateway_runtime (answering "transfers")
                example_settings st0 transfers_payload eq_refl) as [_ Harr].
  split; [reflexivity|]. split.
  - exact (proj1 (Harr _ eq_refl) eq_refl).
  - split; vm_compute; reflexivity.
Defined.

(* ================================================================== *)
(** * The pollers *)
(* ================================================================== *)

Lemma getTicker_ok rt w symbol s t s' :
  getTicker rt w symbol s = (Ok t, s') ->
  tk_symbol t = toUpperCase symbol
  /\ s' = mkSt (trace s ++ [EvFetch (ticker_request symbol); EvNow (tk_timestamp t)])%list
               (geminiClient s)
  /\ exists response data lastPrice priceChangePercent volume,
       w_fetch w (List.length (trace s)) (ticker_request symbol) = Ok response
       /\ r_ok response = true
       /\ JSON_parse rt (r_body response) = Ok data
       /\ get rt data "lastPrice" = Ok lastPrice
       /\ get rt data "priceChangePercent" = Ok priceChangePercent
       /\ get rt data "volume" = Ok volume
       /\ tk_price t = parseFloat rt lastPrice
       /\ tk_change24h t = parseFloat rt priceChangePercent
       /\ tk_volume t = parseFloat rt volume.
Proof.
  unfold getTicker, ticker_request. unfold bind at 1. unfold fetch, emit, bind, lift. cbn.
  destruct (w_fetch w (List.length (trace s)) _) as [response|e] eqn:Hf; [|discriminate].
  destruct (r_ok response) eqn:Hok; cbn; [|discriminate].
  unfold prop, lift, Date_now, emit, bind, ret. cbn.
  destruct (JSON_parse rt (r_body response)) as [data|e] eqn:Hp; cbn; [|discriminate].
  destruct (get rt data "lastPrice") as [lp|e] eqn:H1; cbn; [|discriminate].
  destruct (get rt data "priceChangePercent") as [pc|e] eqn:H2; cbn; [|discriminate].
  destruct (get rt data "volume") as [vol|e] eqn:H3; cbn; [|discriminate].
  intro H. inversion H; subst. cbn. split; [reflexivity|]. split.
  - rewrite <- app_assoc. reflexivity.
  - exists response, data, lp, pc, vol. repeat split; assumption.
Qed.

(** X13.  [getTicker] asks the price feed for the upper-cased symbol with
    one unsigned GET.  A response without success status gives the error
    "Market API unreachable" and a rejected dispatch gives the rejection
    itself (it is not relabelled), in both cases without reading the clock.
    A returned ticker carries the upper-cased symbol and the three numbers
    parsed from the response document, and the clock was read once, after
    the response. *)
Theorem getTicker_behaviour :
  forall rt w symbol s,
    (forall response,
        w_fetch w (List.length (trace s)) (ticker_request symbol) = Ok response ->
        r_ok response = false ->
        getTicker rt w symbol s
        = (Throw (Error "Market API unreachable"),
           mkSt (trace s ++ [EvFetch (ticker_request symbol)])%list (geminiClient s)))
    /\ (forall e,
           w_fetch w (List.length (trace s)) (ticker_request symbol) = Throw e ->
           getTicker rt w symbol s
           = (Throw e, mkSt (trace s ++ [EvFetch (ticker_request symbol)])%list
                            (geminiClient s)))
    /\ (forall t s',
           getTicker rt w symbol s = (Ok t, s') ->
           tk_symbol t = toUpperCase symbol
           /\ trace s'
              = (trace s ++ [EvFetch (ticker_request symbol); EvNow (tk_timestamp t)])%list
           /\ exists response data lastPrice,
                w_fetch w (List.length (trace s)) (ticker_request symbol) = Ok response
                /\ JSON_parse rt (r_body response) = Ok data
                /\ get rt data "lastPrice" = Ok lastPrice
                /\ tk_price t = parseFloat rt lastPrice).
Proof.
  intros rt w symbol s. split; [|split].
  - intros response Hf Hok.
    unfold getTicker. fold (ticker_request symbol).
    unfold bind at 1. unfold fetch, emit, bind, lift. cbn. rewrite Hf, Hok. reflexivity.
  - intros e Hf.
    unfold getTicker. fold (ticker_request symbol).
    unfold bind at 1. unfold fetch, emit, bind, lift. cbn. rewrite Hf. reflexivity.
  - intros t s' H. apply getTicker_ok in H.
    destruct H as (Hsym & -> & response & data & lp & pc & vol & Hf & _ & Hp & H1 & _ & _
                   & Hprice & _).
    split; [exact Hsym|]. split; [reflexivity|].
    exists response, data, lp. repeat split; assumption.
Qed.






(** X15.  One tick of the account synchronizer never throws and ends in one
    of three ways.  DISCONNECTED, exactly when a credential is absent or the
    session is not logged in: nothing was requested.  CONNECTED: all six
    calls succeeded and nothing is logged.  ERROR: one line
    "MEXC sync error: ..." is logged.  Unless the status is CONNECTED, the
    balances, positions, orders, trades and transfers are those of the
    previous snapshot. *)
Theorem account_sync_outcomes :
  forall rt w settings isLoggedIn prev s,
    exists acc logs s',
      refreshAccountData rt w settings isLoggedIn prev s = (Ok (acc, logs), s')
      /\ (mexcStatus acc = DISCONNECTED <-> sync_gate settings isLoggedIn = true)
      /\ ((mexcStatus acc = DISCONNECTED /\ acc = set_status prev DISCONNECTED
           /\ logs = [] /\ s' = s)
          \/ (mexcStatus acc = CONNECTED /\ logs = [])
          \/ (mexcStatus acc = ERROR_STATUS /\ acc = set_status prev ERROR_STATUS
              /\ exists detail, logs = [(ERROR, "MEXC sync error: " ++ detail)])).
Proof.
  intros rt w settings isLoggedIn prev s.
  unfold refreshAccountData. fold (sync_gate settings isLoggedIn).
  destruct (sync_gate settings isLoggedIn) eqn:Hgate.
  - eexists. eexists. eexists. split; [reflexivity|]. cbn. split; [tauto|].
    left. repeat split.
  - unfold bind, settle.
    destruct (getSpotBalance rt w settings s) as [r1 s1].
    destruct (getFuturesBalance rt w settings s1) as [r2 s2].
    destruct (getOpenPositions rt w settings s2) as [r3 s3].
    destruct (getOpenOrders rt w settings s3) as [r4 s4].
    destruct (getTradeHistory rt w settings s4) as [r5 s5].
    destruct (getTransferHistory rt w settings s5) as [r6 s6].
    destruct r1, r2, r3, r4, r5, r6; cbn;
      (eexists; eexists; eexists; split; [reflexivity|]; cbn;
       split; [split; discriminate|]; right;
       first [ left; split; reflexivity
             | right; split; [reflexivity|]; split; [reflexivity|];
               eexists; reflexivity ]).
Qed.

(** ** Every sub-call of a sync is dispatched *)

Lemma fetches_app (a b : list Event) : fetches (a ++ b) = (fetches a ++ fetches b)%list.
Proof. unfold fetches. apply filter_app. Qed.

Lemma quiet_ret {A} (a : A) : quiet (ret a).
Proof. intro s. reflexivity. Qed.

Lemma quiet_throw {A} (e : Exn) : quiet (@throw A e).
Proof. intro s. reflexivity. Qed.

Lemma quiet_lift {A} (r : Res A) : quiet (lift r).
Proof. intro s. reflexivity. Qed.

Lemma quiet_bind {A B} (m : M A) (k : A -> M B) :
  quiet m -> (forall a, quiet (k a)) -> quiet (bind m k).
Proof.
  intros Hm Hk s. unfold bind. specialize (Hm s).
  destruct (m s) as [[a|e] s']; cbn in Hm.
  - rewrite Hk. exact Hm.
  - exact Hm.
Qed.

Lemma quiet_random w : quiet (Math_random w).
Proof.
  intro s. unfold Math_random, bind, emit, ret. cbn.
  rewrite fetches_app. cbn. apply app_nil_r.
Qed.

Lemma quiet_mapM {A B} (f : A -> M B) (l : list A) :
  (forall x, quiet (f x)) -> quiet (mapM f l).
Proof.
  intro Hf. induction l as [|x l IH]; cbn [mapM].
  - apply quiet_ret.
  - apply quiet_bind; [apply Hf|]. intro y.
    apply quiet_bind; [exact IH|]. intro ys. apply quiet_ret.
Qed.

Ltac quiet_step :=
  first [ apply quiet_ret | apply quiet_throw | apply quiet_lift | apply quiet_random
        | apply quiet_mapM; intro
        | apply quiet_bind; [| intro]
        | match goal with
          | |- quiet (if ?b then _ else _) => destruct b
          | |- quiet (match ?x with _ => _ end) => destruct x
          end ].

Lemma quiet_handler {A} (m : M A) (h : Exn -> M A) s :
  (forall e, quiet (h e)) ->
  fetches (trace (snd (try_catch m h s))) = fetches (trace (snd (m s))).
Proof.
  intro Hh. unfold try_catch. destruct (m s) as [[a|e] s']; cbn; [reflexivity|].
  apply Hh.
Qed.











(* ================================================================== *)
(** * Further properties of the decision provider *)
(* ================================================================== *)

Lemma provider_is_not (settings : AppSettings) (p q : string) :
  str_eqb (aiProvider settings) p = true -> p <> q ->
  str_eqb (aiProvider settings) q = false.
Proof.
  unfold str_eqb. intros Hp Hne. apply String.eqb_eq in Hp.
  apply String.eqb_neq. congruence.
Qed.

(** X17.  When the key of the selected provider is not configured (for
    Gemini: neither in the configuration nor in the environment), [analyze]
    calls neither the network nor the SDK: its only effect is the
    [console.error] of the [catch] block, and it returns the WAIT decision
    whose reason is "Analysis failed: " followed by that provider's message:
    "Gemini API Key missing. Please provide it in settings.",
    "OpenAI API Key missing" or "DeepSeek API Key missing". *)
Theorem missing_key_is_reported_without_a_call :
  forall rt w envKey settings data side s,
    (str_eqb (aiProvider settings) "gemini" = true ->
     absent (resolved_gemini_key settings envKey) = true ->
     analyze rt w envKey settings data side s
     = (Ok (wait_decision (Error "Gemini API Key missing. Please provide it in settings.")),
        mkSt (trace s ++ [EvConsoleError])%list (geminiClient s)))
    /\ (str_eqb (aiProvider settings) "openai" = true ->
        absent_opt (openaiApiKey settings) = true ->
        analyze rt w envKey settings data side s
        = (Ok (wait_decision (Error "OpenAI API Key missing")),
           mkSt (trace s ++ [EvConsoleError])%list (geminiClient s)))
    /\ (str_eqb (aiProvider settings) "deepseek" = true ->
        absent_opt (deepseekApiKey settings) = true ->
        analyze rt w envKey settings data side s
        = (Ok (wait_decision (Error "DeepSeek API Key missing")),
           mkSt (trace s ++ [EvConsoleError])%list (geminiClient s))).
Proof.
  intros rt w envKey settings data side s. split; [|split]; intros Hprov Hkey.
  - unfold analyze, try_catch, analyze_try. rewrite Hprov.
    fold (resolved_gemini_key settings envKey). rewrite Hkey. reflexivity.
  - unfold analyze, try_catch, analyze_try.
    rewrite (provider_is_not settings "openai" "gemini" Hprov) by discriminate.
    rewrite Hprov.
    destruct (openaiApiKey settings) as [key|]; cbn in Hkey; [rewrite Hkey|]; reflexivity.
  - unfold analyze, try_catch, analyze_try.
    rewrite (provider_is_not settings "deepseek" "gemini" Hprov) by discriminate.
    rewrite (provider_is_not settings "deepseek" "openai" Hprov) by discriminate.
    rewrite Hprov.
    destruct (deepseekApiKey settings) as [key|]; cbn in Hkey; [rewrite Hkey|]; reflexivity.
Qed.

Lemma missing_key_example :
  analyze example_runtime example_world (Some "")
          (with_provider example_settings "openai" (Some "g-key") (Some "") (Some "d-key"))
          example_market "NONE" st0
  = (Ok (VObj [ ("action", VStr "WAIT"); ("leverage", VNum 1);
                ("reason", VStr "Analysis failed: OpenAI API Key missing");
                ("confidence", VNum 0) ]),
     mkSt ([] ++ [EvConsoleError])%list None)
  /\ analyze example_runtime example_world (Some "")
             (with_provider example_settings "gemini" None (Some "o-key") (Some "d-key"))
             example_market "NONE" st0
     = (Ok (VObj [ ("action", VStr "WAIT"); ("leverage", VNum 1);
                   ("reason", VStr ("Analysis failed: "
                                      ++ "Gemini API Key missing. Please provide it in settings."));
                   ("confidence", VNum 0) ]),
        mkSt ([] ++ [EvConsoleError])%list None).
Proof.
  split.
  - exact (proj1 (proj2 (missing_key_is_reported_without_a_call example_runtime
                           example_world (Some "")
                           (with_provider example_settings "openai" (Some "g-key")
                                          (Some "") (Some "d-key"))
                           example_market "NONE" st0)) eq_refl eq_refl).
  - exact (proj1 (missing_key_is_reported_without_a_call example_runtime
                    example_world (Some "")
                    (with_provider example_settings "gemini" None
                                   (Some "o-key") (Some "d-key"))
                    example_market "NONE" st0) eq_refl eq_refl).
Defined.

(** X18.  The Gemini client is built once per service: the first analysis
    builds it with the key resolved then (the configured key, else the
    environment's) and every later analysis calls the backend through that
    same client, whatever key the configuration holds by then. *)
Theorem gemini_client_is_built_once :
  forall rt w envKey settings data side s,
    str_eqb (aiProvider settings) "gemini" = true ->
    absent (resolved_gemini_key settings envKey) = false ->
    exists rest,
      trace (snd (analyze rt w envKey settings data side s))
      = (trace s
         ++ EvGenerateContent
              (match geminiClient s with
               | Some client => client
               | None => resolved_gemini_key settings envKey
               end)
              (render_prompt rt data side) :: rest)%list
      /\ (rest = [] \/ rest = [EvConsoleError])
      /\ geminiClient (snd (analyze rt w envKey settings data side s))
         = Some (match geminiClient s with
                 | Some client => client
                 | None => resolved_gemini_key settings envKey
                 end).
Proof.
  intros rt w envKey settings data side s Hprov Hkey.
  unfold analyze, try_catch, analyze_try. rewrite Hprov.
  fold (resolved_gemini_key settings envKey). rewrite Hkey.
  unfold bind, getGemini, generateContent, emit, lift, console_error, ret.
  destruct (geminiClient s) as [client|] eqn:Hc; cbn.
  - destruct (w_generateContent w _ client _) as [text|e]; cbn.
    + destruct (JSON_parse rt _) as [v|e]; cbn.
      * exists []. split; [reflexivity|]. split; [left; reflexivity|first [reflexivity|assumption]].
      * exists [EvConsoleError]. rewrite <- app_assoc.
        split; [reflexivity|]. split; [right; reflexivity|first [reflexivity|assumption]].
    + exists [EvConsoleError]. rewrite <- app_assoc.
      split; [reflexivity|]. split; [right; reflexivity|first [reflexivity|assumption]].
  - destruct (w_generateContent w _ _ _) as [text|e]; cbn.
    + destruct (JSON_parse rt _) as [v|e]; cbn.
      * exists []. split; [reflexivity|]. split; [left; reflexivity|first [reflexivity|assumption]].
      * exists [EvConsoleError]. rewrite <- app_assoc.
        split; [reflexivity|]. split; [right; reflexivity|first [reflexivity|assumption]].
    + exists [EvConsoleError]. rewrite <- app_assoc.
      split; [reflexivity|]. split; [right; reflexivity|first [reflexivity|assumption]].
Qed.

Lemma gemini_client_example :
  exists rest,
    trace (snd (analyze example_runtime example_world None example_settings example_market
                  "NONE" (mkSt [] (Some "first-key"))))
    = ([] ++ EvGenerateContent "first-key" "prompt" :: rest)%list
    /\ (rest = [] \/ rest = [EvConsoleError])
    /\ geminiClient (snd (analyze example_runtime example_world None example_settings
                            example_market "NONE" (mkSt [] (Some "first-key"))))
       = Some "first-key".
Proof.
  exact (gemini_client_is_built_once example_runtime example_world None example_settings
           example_market "NONE" (mkSt [] (Some "first-key")) eq_refl eq_refl).
Defined.

Lemma quiet_console : quiet console_error.
Proof.
  intro s. unfold console_error, emit. cbn. rewrite fetches_app. cbn. apply app_nil_r.
Qed.

Lemma fetch_then_quiet {A} w q (k : Response -> M A) s :
  (forall r, quiet (k r)) ->
  fetches (trace (snd (bind (fetch w q) k s))) = (fetches (trace s) ++ [EvFetch q])%list.
Proof.
  intro Hk. unfold bind at 1. unfold fetch, bind, emit, lift. cbn.
  destruct (w_fetch w (List.length (trace s)) q) as [response|e]; cbn.
  - rewrite Hk. cbn. rewrite fetches_app. reflexivity.
  - rewrite fetches_app. reflexivity.
Qed.

Lemma chat_completion_dispatch rt w url key model prompt s :
  fetches (trace (snd (chat_completion rt w url key model prompt s)))
  = (fetches (trace s) ++ [EvFetch (chat_request rt url key model prompt)])%list.
Proof.
  unfold chat_completion, chat_request. apply fetch_then_quiet.
  intro r. unfold prop. repeat quiet_step.
Qed.

(** X19.  With OpenAI or DeepSeek selected and its key configured, one
    analysis makes exactly one network call: a POST to that provider's
    chat-completions URL, carrying that provider's key as bearer token and
    the prompt with the provider's model in the body.  No other key is
    sent. *)
Theorem chat_provider_posts_once :
  forall rt w envKey settings data side s key,
    (str_eqb (aiProvider settings) "openai" = true ->
     openaiApiKey settings = Some key -> absent key = false ->
     fetches (trace (snd (analyze rt w envKey settings data side s)))
     = (fetches (trace s)
        ++ [EvFetch (chat_request rt "https://api.openai.com/v1/chat/completions" key
                       "gpt-4o" (render_prompt rt data side))])%list)
    /\ (str_eqb (aiProvider settings) "deepseek" = true ->
        deepseekApiKey settings = Some key -> absent key = false ->
        fetches (trace (snd (analyze rt w envKey settings data side s)))
        = (fetches (trace s)
           ++ [EvFetch (chat_request rt "https://api.deepseek.com/chat/completions" key
                          "deepseek-chat" (render_prompt rt data side))])%list).
Proof.
  intros rt w envKey settings data side s key. split.
  - intros Hprov Hk Habs. unfold analyze.
    rewrite quiet_handler
      by (intro; apply quiet_bind; [apply quiet_console|intro; apply quiet_ret]).
    unfold analyze_try.
    destruct (str_eqb (aiProvider settings) "gemini") eqn:Hg.
    { unfold str_eqb in *. apply String.eqb_eq in Hg, Hprov. congruence. }
    rewrite Hprov, Hk, Habs. apply chat_completion_dispatch.
  - intros Hprov Hk Habs. unfold analyze.
    rewrite quiet_handler
      by (intro; apply quiet_bind; [apply quiet_console|intro; apply quiet_ret]).
    unfold analyze_try.
    destruct (str_eqb (aiProvider settings) "gemini") eqn:Hg.
    { unfold str_eqb in *. apply String.eqb_eq in Hg, Hprov. congruence. }
    destruct (str_eqb (aiProvider settings) "openai") eqn:Ho.
    { unfold str_eqb in *. apply String.eqb_eq in Ho, Hprov. congruence. }
    rewrite Hprov, Hk, Habs. apply chat_completion_dispatch.
Qed.

(* ================================================================== *)
(** * Further properties of the trading cycle *)
(* ================================================================== *)

Ltac cycle_leaf :=
  eexists; eexists; split; [reflexivity|]; cbn;
  split; [lia|];
  split;
  [ intros ? ? ? Hin;
    repeat match type of Hin with
           | _ \/ _ => destruct Hin as [Hin|Hin]
           | False => contradiction
           end;
    first [ discriminate Hin
          | inversion Hin; subst; repeat split; try assumption; try reflexivity;
            eexists; split; reflexivity ]
  | first [ left; repeat split; auto; fail
          | right; eexists;
            first [ exists []; split; [reflexivity|]; split; [first [assumption|reflexivity]|reflexivity]
                  | eexists [_]; split; [reflexivity|]; split; [first [assumption|reflexivity]|reflexivity]
                  | eexists [_; _]; split; [reflexivity|]; split; [first [assumption|reflexivity]|reflexivity]
                  | eexists [_; _; _]; split; [reflexivity|]; split; [first [assumption|reflexivity]|reflexivity]
                  | eexists [_; _; _; _]; split; [reflexivity|]; split;
                    [first [assumption|reflexivity]|reflexivity] ] ] ].

(** X20.  One run of [runTradingCycle] never throws.  If auto-trading is
    off or there is no snapshot it does nothing at all.  Otherwise it sets
    the analysing flag, asks the provider once with the side of the first
    open position (NONE without one), and whatever happens afterwards it
    clears the flag last.  It calls [executeTrade] at most once, and only in
    live mode, with the running configuration, an action that is not the
    string WAIT, and the snapshot's price. *)
Theorem cycle_shape :
  forall rt w envKey settings md positions s,
    exists items s',
      run_cycle rt w envKey (runTradingCycle rt settings md positions) s = (Ok items, s')
      /\ List.length (filter is_execute items) <= 1
      /\ (forall action st price,
             In (ICallExecuteTrade action st price) items ->
             isLiveMode settings = true /\ st = settings
             /\ strict_eq_str action "WAIT" = false
             /\ exists m, md = Some m /\ price = md_price m)
      /\ (((md = None \/ isAutoTrading settings = false) /\ items = [] /\ s' = s)
          \/ exists m middle,
               md = Some m
               /\ isAutoTrading settings = true
               /\ items = (IOp (SetIsAnalyzing true)
                           :: ICallAnalyze settings m (PositionSide_str (active_side positions))
                           :: middle ++ [IOp (SetIsAnalyzing false)])%list).
Proof.
  intros rt w envKey settings md positions s.
  unfold runTradingCycle. fold (active_side positions).
  destruct md as [m|]; [|cycle_leaf].
  destruct (isAutoTrading settings) eqn:Hauto; cbn [negb]; [|cycle_leaf].
  cbn [run_cycle]. unfold bind, settle, ret.
  destruct (analyze rt w envKey settings m _ s) as [[decision|e] s1]; [|cycle_leaf].
  cbn [run_cycle]. unfold bind, settle, ret.
  destruct (get rt decision "action") as [action|e]; [|cycle_leaf].
  destruct (strict_eq_str action "WAIT") eqn:Hwait; cbn [negb]; [cycle_leaf|].
  destruct (get rt decision "confidence") as [confidence|e]; [|cycle_leaf].
  cbn [run_cycle]. unfold bind, settle, ret.
  destruct (isLiveMode settings) eqn:Hlive; [|cycle_leaf].
  cbn [run_cycle]. unfold bind, settle, ret.
  destruct (executeTrade rt w action settings (md_price m) s1) as [[r|e] s2]; cycle_leaf.
Qed.

Lemma never_executes_sim rt settings md positions :
  isLiveMode settings = false ->
  never_executes (runTradingCycle rt settings md positions).
Proof.
  intro Hsim. unfold runTradingCycle, cycle_failed.
  destruct md as [m|]; [|constructor].
  destruct (negb (isAutoTrading settings)); [constructor|].
  constructor. constructor. intros [decision|e]; [|repeat constructor].
  constructor.
  destruct (get rt decision "action") as [action|e]; [|repeat constructor].
  destruct (negb (strict_eq_str action "WAIT")); [|repeat constructor].
  destruct (get rt decision "confidence") as [confidence|e]; [|repeat constructor].
  rewrite Hsim. repeat constructor.
Qed.

Lemma never_executes_advance p :
  never_executes p -> never_executes (snd (advance p)).
Proof.
  induction 1 as [|o k Hk IH|settings data side k Hk IH]; cbn.
  - constructor.
  - destruct (advance k) as [ops p']. exact IH.
  - constructor. exact Hk.
Qed.

Lemma never_executes_park p pending :
  never_executes p -> Forall never_executes pending ->
  Forall never_executes (park p pending).
Proof.
  intros Hp Hall. destruct p; cbn; try exact Hall;
    (apply Forall_app; split; [exact Hall|constructor; [exact Hp|constructor]]).
Qed.

Lemma Forall_remove_nth {A} (P : A -> Prop) i (l : list A) :
  Forall P l -> Forall P (remove_nth i l).
Proof.
  intro H. revert i. induction H as [|x l Hx Hl IH]; intro i; [destruct i; constructor|].
  destruct i; cbn; [exact Hl|]. constructor; [exact Hx|apply IH].
Qed.

Lemma never_executes_step rt pending e :
  fires_simulated e -> Forall never_executes pending ->
  Forall never_executes (loop_step rt pending e).
Proof.
  intros He Hall. destruct e as [settings md positions|i r]; cbn [loop_step].
  - apply never_executes_park; [|exact Hall].
    apply never_executes_advance. apply never_executes_sim. exact He.
  - destruct (nth_error pending i) as [p|] eqn:Hnth; [|exact Hall].
    assert (Hp : never_executes p).
    { rewrite Forall_forall in Hall. apply Hall. eapply nth_error_In. exact Hnth. }
    destruct (resume p r) as [p'|] eqn:Hres; [|exact Hall].
    apply never_executes_park; [|apply Forall_remove_nth; exact Hall].
    apply never_executes_advance.
    destruct Hp as [|o k Hk|st data side k Hk]; destruct r; cbn in Hres;
      try discriminate Hres; inversion Hres; subst. apply Hk.
Qed.

(** X21.  In simulation mode the loop never has an execution step
    outstanding: on every schedule whose timer firings all carry a
    configuration with live mode off, however the firings and settlements
    interleave, no cycle in flight is in the EXECUTING phase. *)
Theorem simulation_never_executes :
  forall rt es,
    Forall fires_simulated es ->
    executing (loop_run rt es) = 0
    /\ Forall (fun p => phase_of p = ANALYZING) (loop_run rt es).
Proof.
  intros rt es Hes.
  assert (Hall : Forall never_executes (loop_run rt es)).
  { unfold loop_run.
    assert (Hgen : forall pending, Forall never_executes pending ->
                     Forall never_executes (fold_left (loop_step rt) es pending)).
    { induction Hes as [|e es He _ IH]; intros pending Hp; [exact Hp|].
      cbn [fold_left]. apply IH. apply never_executes_step; assumption. }
    apply Hgen. constructor. }
  assert (Hpark : forall pending e,
             Forall (fun p => phase_of p <> IDLE) pending ->
             Forall (fun p => phase_of p <> IDLE) (loop_step rt pending e)).
  { intros pending e Hp.
    assert (Hk : forall p l, Forall (fun p => phase_of p <> IDLE) l ->
                   Forall (fun p => phase_of p <> IDLE) (park (snd (advance p)) l)).
    { intros p l Hl.
      assert (Ha : forall q, match snd (advance q) with Do _ _ => False | _ => True end).
      { induction q; cbn; auto. destruct (advance q) as [ops q']. exact IHq. }
      specialize (Ha p). destruct (snd (advance p)); cbn; try exact Hl; try contradiction;
        (apply Forall_app; split; [exact Hl|constructor; [discriminate|constructor]]). }
    destruct e as [settings md positions|i r]; cbn [loop_step]; [apply Hk; exact Hp|].
    destruct (nth_error pending i); [|exact Hp].
    destruct (resume p r); [|exact Hp].
    apply Hk. apply Forall_remove_nth. exact Hp. }
  assert (Hbusy : Forall (fun p => phase_of p <> IDLE) (loop_run rt es)).
  { unfold loop_run.
    assert (Hgen : forall pending, Forall (fun p => phase_of p <> IDLE) pending ->
                     Forall (fun p => phase_of p <> IDLE)
                            (fold_left (loop_step rt) es pending)).
    { clear Hes Hall. induction es as [|e es IH]; intros pending Hp; [exact Hp|].
      cbn [fold_left]. apply IH. apply Hpark. exact Hp. }
    apply Hgen. constructor. }
  assert (Hphase : Forall (fun p => phase_of p = ANALYZING) (loop_run rt es)).
  { rewrite Forall_forall in *. intros p Hin.
    specialize (Hall p Hin). specialize (Hbusy p Hin).
    destruct Hall; cbn in *; congruence. }
  split; [|exact Hphase].
  clear Hall Hbusy Hes Hpark.
  unfold executing. induction Hphase as [|p l Hp _ IH]; [reflexivity|].
  cbn [filter]. rewrite Hp. exact IH.
Qed.

Lemma simulation_schedule_example :
  Forall fires_simulated simulated_schedule
  /\ executing (loop_run example_runtime simulated_schedule) = 0
  /\ Forall (fun p => phase_of p = ANALYZING) (loop_run example_runtime simulated_schedule)
  /\ List.length (loop_run example_runtime simulated_schedule) = 1.
Proof.
  assert (Hs : Forall fires_simulated simulated_schedule).
  { repeat constructor. }
  split; [exact Hs|].
  destruct (simulation_never_executes example_runtime simulated_schedule Hs) as [H0 H1].
  split; [exact H0|]. split; [exact H1|]. reflexivity.
Defined.

(** X22.  In live mode, once the provider has answered with an action that
    is not the string WAIT, the cycle logs the decision, calls
    [executeTrade] with that action and the snapshot's price, and then:
    if the call fails, logs the failure as "AI analysis failed: ..." and
    does not refresh the account; if it succeeds, requests an account
    refresh.  In both cases it clears the analysing flag last. *)
Theorem live_cycle_after_execution :
  forall rt w envKey settings m positions decision action confidence s s1,
    isAutoTrading settings = true ->
    isLiveMode settings = true ->
    analyze rt w envKey settings m (PositionSide_str (active_side positions)) s
    = (Ok decision, s1) ->
    get rt decision "action" = Ok action ->
    strict_eq_str action "WAIT" = false ->
    get rt decision "confidence" = Ok confidence ->
    (forall e s2,
        executeTrade rt w action settings (md_price m) s1 = (Throw e, s2) ->
        run_cycle rt w envKey (runTradingCycle rt settings (Some m) positions) s
        = (Ok [ IOp (SetIsAnalyzing true);
                ICallAnalyze settings m (PositionSide_str (active_side positions));
                IOp (SetLastAction decision);
                IOp (trade_log rt action confidence);
                ICallExecuteTrade action settings (md_price m);
                IOp (AddLog ERROR ("AI analysis failed: " ++
                                   match e with JsError _ msg => msg | NonError => "Unknown" end));
                IOp (SetIsAnalyzing false) ], s2))
    /\ (forall r s2,
           executeTrade rt w action settings (md_price m) s1 = (Ok r, s2) ->
           run_cycle rt w envKey (runTradingCycle rt settings (Some m) positions) s
           = (Ok [ IOp (SetIsAnalyzing true);
                   ICallAnalyze settings m (PositionSide_str (active_side positions));
                   IOp (SetLastAction decision);
                   IOp (trade_log rt action confidence);
                   ICallExecuteTrade action settings (md_price m);
                   IOp RefreshAccountData;
                   IOp (SetIsAnalyzing false) ], s2)).
Proof.
  intros rt w envKey settings m positions decision action confidence s s1
         Hauto Hlive Han Hact Hwait Hconf.
  unfold runTradingCycle. fold (active_side positions). rewrite Hauto. cbn [negb].
  cbn [run_cycle]. unfold bind, settle, ret. rewrite Han.
  cbn [run_cycle]. unfold bind, settle, ret. rewrite Hact, Hwait, Hconf. cbn [negb].
  cbn [run_cycle]. unfold bind, settle, ret. rewrite Hlive.
  cbn [run_cycle]. unfold bind, settle, ret.
  split; intros x s2 Hex; rewrite Hex; reflexivity.
Qed.

Lemma live_cycle_failure_example :
  fst (run_cycle gateway_runtime (answering "error") None
         (runTradingCycle gateway_runtime example_settings (Some example_market) []) st0)
  = Ok [ IOp (SetIsAnalyzing true);
            ICallAnalyze example_settings example_market "NONE";
            IOp (SetLastAction (VObj []));
            IOp (trade_log gateway_runtime VUndefined VUndefined);
            ICallExecuteTrade VUndefined example_settings 50000;
            IOp (AddLog ERROR "AI analysis failed: Signature verification failed");
            IOp (SetIsAnalyzing false) ].
Proof.
  pose proof (live_cycle_after_execution gateway_runtime (answering "error") None
                example_settings example_market [] (VObj []) VUndefined VUndefined st0
                (mkSt [EvGenerateContent "g-key" "prompt"] (Some "g-key"))
                eq_refl eq_refl eq_refl eq_refl eq_refl eq_refl) as [Hfail _].
  rewrite (Hfail (Error "Signature verification failed") _ eq_refl). reflexivity.
Defined.

(** X23.  In live mode every action other than the string WAIT reaches the
    exchange, also one that is neither LONG nor SHORT (CLOSE, a misspelt
    action, or none at all, as when the decision document has no [action]):
    the cycle then dispatches exactly one order-creation request, and its
    [side] parameter is 3. *)
Theorem unknown_action_is_sent_as_side_3 :
  forall rt w envKey settings m positions decision action confidence s s1,
    isAutoTrading settings = true ->
    isLiveMode settings = true ->
    absent (mexcApiKey settings) || absent (mexcSecretKey settings) = false ->
    analyze rt w envKey settings m (PositionSide_str (active_side positions)) s
    = (Ok decision, s1) ->
    get rt decision "action" = Ok action ->
    get rt decision "confidence" = Ok confidence ->
    strict_eq_str action "WAIT" = false ->
    strict_eq_str action "LONG" = false ->
    strict_eq_str action "SHORT" = false ->
    fetches (trace (snd (run_cycle rt w envKey
                           (runTradingCycle rt settings (Some m) positions) s)))
    = (fetches (trace s1)
       ++ [EvFetch (dispatched rt w baseFuturesUrl order_create "POST" settings
                               (orderParams action settings) s1)])%list
    /\ assoc_get "side" (orderParams action settings) = Some (VNum 3).
Proof.
  intros rt w envKey settings m positions decision action confidence s s1
         Hauto Hlive Hkeys Han Hact Hconf Hwait Hlong Hshort.
  split.
  - unfold runTradingCycle. fold (active_side positions). rewrite Hauto. cbn [negb].
    cbn [run_cycle]. unfold bind, settle, ret. rewrite Han.
    cbn [run_cycle]. unfold bind, settle, ret. rewrite Hact, Hwait, Hconf. cbn [negb].
    cbn [run_cycle]. unfold bind, settle, ret. rewrite Hlive.
    cbn [run_cycle]. unfold bind, settle, ret.
    unfold executeTrade. rewrite Hlive. cbn [negb]. unfold bind.
    rewrite (privateRequest_outcome _ _ _ _ _ _ _ _ Hkeys).
    destruct (request_outcome rt _) as [v|e]; cbn; rewrite fetches_app; reflexivity.
  - unfold orderParams. rewrite Hlong, Hshort. reflexivity.
Qed.

Lemma empty_decision_example :
  fetches (trace (snd (run_cycle gateway_runtime empty_decision_world None
                         (runTradingCycle gateway_runtime example_settings
                                          (Some example_market) []) st0)))
  = ([] ++ [EvFetch (mkRequest
                       ("https://fapi.mexc.com/futures/api/v1/private/order/create"
                          ++ "?symbol=BTCUSDT&vol=1&side=3&type=5&openType=1&leverage=10"
                          ++ "&timestamp=1700000000000&signature=5f3a")
                       "POST"
                       [("X-MEXC-APIKEY", "mx-key"); ("Content-Type", "application/json")]
                       None)])%list
  /\ assoc_get "side" (orderParams VUndefined example_settings) = Some (VNum 3).
Proof.
  exact (unknown_action_is_sent_as_side_3 gateway_runtime empty_decision_world None
           example_settings example_market [] (VObj []) VUndefined VUndefined st0
           (mkSt [EvGenerateContent "g-key" "prompt"] (Some "g-key"))
           eq_refl eq_refl eq_refl eq_refl eq_refl eq_refl eq_refl eq_refl eq_refl).
Defined.

(** The cycle for a decision WAIT. *)
Lemma waiting_cycle rt w envKey settings m positions decision action s s1 :
  isAutoTrading settings = true ->
  analyze rt w envKey settings m (PositionSide_str (active_side positions)) s
  = (Ok decision, s1) ->
  get rt decision "action" = Ok action ->
  strict_eq_str action "WAIT" = true ->
  run_cycle rt w envKey (runTradingCycle rt settings (Some m) positions) s
  = (Ok (waiting_items settings m positions decision), s1).
Proof.
  intros Hauto Han Hact Hwait.
  unfold runTradingCycle. fold (active_side positions). rewrite Hauto. cbn [negb].
  cbn [run_cycle]. unfold bind, settle, ret. rewrite Han.
  cbn [run_cycle]. unfold bind, settle, ret. rewrite Hact, Hwait. cbn [negb].
  cbn [run_cycle]. reflexivity.
Qed.

(** X24.  A provider outage never leads to an order: whenever the backend
    call of an analysis fails, in live mode as in simulation mode, the cycle
    records the neutral WAIT decision and ends; it writes no trade log,
    calls [executeTrade] not at all and dispatches nothing after the
    analysis. *)
Theorem provider_failure_places_no_order :
  forall rt w envKey settings m positions s e s1,
    isAutoTrading settings = true ->
    analyze_try rt w envKey settings
                (render_prompt rt m (PositionSide_str (active_side positions))) s
    = (Throw e, s1) ->
    run_cycle rt w envKey (runTradingCycle rt settings (Some m) positions) s
    = (Ok (waiting_items settings m positions (wait_decision e)),
       mkSt (trace s1 ++ [EvConsoleError])%list (geminiClient s1))
    /\ filter is_execute (waiting_items settings m positions (wait_decision e)) = [].
Proof.
  intros rt w envKey settings m positions s e s1 Hauto Htry.
  split; [|reflexivity].
  apply (waiting_cycle rt w envKey settings m positions (wait_decision e) (VStr "WAIT"));
    try reflexivity; [exact Hauto|].
  unfold analyze, try_catch. rewrite Htry. reflexivity.
Qed.

Lemma provider_failure_example :
  run_cycle example_runtime offline_world None
            (runTradingCycle example_runtime example_settings (Some example_market) []) st0
  = (Ok (waiting_items example_settings example_market []
                       (wait_decision (Error "unreachable"))),
     mkSt ([EvGenerateContent "g-key" "prompt"] ++ [EvConsoleError])%list (Some "g-key"))
  /\ filter is_execute (waiting_items example_settings example_market []
                                      (wait_decision (Error "unreachable"))) = [].
Proof.
  exact (provider_failure_places_no_order example_runtime offline_world None
           example_settings example_market [] st0 (Error "unreachable")
           (mkSt [EvGenerateContent "g-key" "prompt"] (Some "g-key")) eq_refl eq_refl).
Defined.

(* ================================================================== *)
(** * The log *)
(* ================================================================== *)

Lemma firstn_cons_firstn {A} (n : nat) (x : A) (l : list A) :
  firstn (S n) (x :: firstn (S n) l) = firstn (S n) (x :: l).
Proof.
  rewrite !firstn_cons. f_equal. rewrite firstn_firstn. f_equal. lia.
Qed.

Lemma logs_after_snoc entries e :
  logs_after (entries ++ [e]) = setLogs_addLog e (logs_after entries).
Proof. unfold logs_after. rewrite fold_left_app. reflexivity. Qed.

(** X25.  The log keeps the 100 most recent entries, newest first: after
    any sequence of [addLog] calls it is the reversed sequence cut to its
    first 100 entries, so it never holds more than 100 and the latest entry
    is at its head. *)
Theorem log_keeps_the_latest_100 :
  forall entries : list TradingLog,
    logs_after entries = slice_first 100 (rev entries)
    /\ List.length (logs_after entries) <= 100
    /\ (forall older e, entries = (older ++ [e])%list -> hd_error (logs_after entries) = Some e).
Proof.
  intro entries.
  assert (Heq : logs_after entries = slice_first 100 (rev entries)).
  { induction entries as [|e entries IH] using rev_ind; [reflexivity|].
    rewrite logs_after_snoc, IH, rev_app_distr. cbn [rev app].
    unfold setLogs_addLog, slice_first. apply firstn_cons_firstn. }
  split; [exact Heq|]. split.
  - rewrite Heq. unfold slice_first. rewrite length_firstn. lia.
  - intros older e ->. rewrite Heq, rev_app_distr. reflexivity.
Qed.

(* ================================================================== *)
(** * The properties on concrete inputs *)
(* ================================================================== *)

Lemma open_orders_example :
  follows_payload example_runtime (order_of_entry example_runtime)
    (fst (privateRequest example_runtime example_world baseFuturesUrl
            "/futures/api/v1/private/order/list/open_orders" "GET" example_settings [] st0))
    [mkMexcOrder VUndefined (VStr "BTC_USDT") VUndefined VUndefined "SELL" "MARKET" "OPEN"
                 VUndefined].
Proof.
  apply (proj1 (proj2 (data_endpoints_follow_the_payload example_runtime example_world
                         example_settings st0))).
  vm_compute. reflexivity.
Defined.

Lemma getTicker_unavailable_example :
  getTicker example_runtime unavailable_world "btcusdt" st0
  = (Throw (Error "Market API unreachable"),
     mkSt ([] ++ [EvFetch (ticker_request "btcusdt")])%list None)
  /\ q_url (ticker_request "btcusdt")
     = "https://api.binance.com/api/v3/ticker/24hr?symbol=BTCUSDT".
Proof.
  split; [|reflexivity].
  apply (proj1 (getTicker_behaviour example_runtime unavailable_world "btcusdt" st0)
               (mkResponse false 503 (Some "text/plain") "Service Unavailable"));
    reflexivity.
Defined.

Lemma chat_provider_example :
  fetches (trace (snd (analyze example_runtime offline_world None
                         (with_provider example_settings "deepseek"
                                        (Some "g-key") (Some "o-key") (Some "d-key"))
                         example_market "NONE" st0)))
  = ([] ++ [EvFetch (mkRequest "https://api.deepseek.com/chat/completions" "POST"
                       [ ("Content-Type", "application/json");
                         ("Authorization", "Bearer d-key") ]
                       (Some "{}"))])%list.
Proof.
  apply (proj2 (chat_provider_posts_once example_runtime offline_world None
                  (with_provider example_settings "deepseek"
                                 (Some "g-key") (Some "o-key") (Some "d-key"))
                  example_market "NONE" st0 "d-key"));
    reflexivity.
Defined.

Lemma timestamp_spread_example :
  obj_set "timestamp" (VStr "now") [("timestamp", VStr "stale"); ("states", VStr "3,4")]
  = [("timestamp", VStr "now"); ("states", VStr "3,4")]
  /\ assoc_get "timestamp"
       (obj_set "timestamp" (VStr "now")
                [("timestamp", VStr "stale"); ("states", VStr "3,4")])
     = Some (VStr "now").
Proof.
  split; [reflexivity|].
  exact (proj1 (obj_set_lookup "timestamp" (VStr "now")
                  [("timestamp", VStr "stale"); ("states", VStr "3,4")])).
Defined.
